(** * item-map-web: the cell rewriting engine of [map_items.py] and
    [webtool/app.py]

    A shallow embedding of the two Python files' text-rewriting core
    ([to_text], [digits_only], [load_mapping], [map_token] and
    [transform_cell]) and the properties the specification states about it.

    Python strings are sequences of Unicode code points; a dict is an
    insertion-ordered association table; the cell values handed over by the
    workbook readers are [None], integers, floats and strings. *)

From Stdlib Require Import List Bool Arith NArith ZArith Lia Ascii.
From Stdlib Require String.
From Stdlib Require Import Floats.SpecFloat.
Import ListNotations.
Import String.StringSyntax.
Delimit Scope string_scope with string.

Set Implicit Arguments.

(* ================================================================== *)
(** ** Python strings *)

(** A character is a Unicode code point, a [str] the list of its code points. *)
Definition char := N.
Definition pystr := list char.

(** An ASCII literal as a Python string, one code point per character. *)
Definition lit (s : String.string) : pystr :=
  map N_of_ascii (String.list_ascii_of_string s).
Arguments lit s%_string.

Definition c_amp : char := 38%N.    (* & *)
Definition c_bar : char := 124%N.   (* | *)
Definition c_dollar : char := 36%N. (* $ *)
Definition c_hyphen : char := 45%N. (* - *)

(** [a == b] on strings. *)
Fixpoint str_eqb (a b : pystr) : bool :=
  match a, b with
  | [], [] => true
  | x :: a', y :: b' => N.eqb x y && str_eqb a' b'
  | _, _ => false
  end.

(** Truth value of a string: [bool(s)], false exactly for [['']]. *)
Definition nonempty (s : pystr) : bool :=
  match s with [] => false | _ :: _ => true end.

(** [s.startswith(prefix)]. *)
Fixpoint startswith (s prefix : pystr) : bool :=
  match prefix, s with
  | [], _ => true
  | p :: prefix', c :: s' => N.eqb c p && startswith s' prefix'
  | _ :: _, [] => false
  end.

(** [s[n:]] for [0 <= n]. *)
Definition slice_from (n : nat) (s : pystr) : pystr := skipn n s.

(** [s.split(sep)] for a one-character separator: the pieces between the
    occurrences of [sep], empty pieces included; never the empty list. *)
Fixpoint split (sep : char) (s : pystr) : list pystr :=
  match s with
  | [] => [[]]
  | c :: s' =>
      if N.eqb c sep then [] :: split sep s'
      else match split sep s' with
           | piece :: rest => (c :: piece) :: rest
           | [] => [[c]]
           end
  end.

(** [sep.join(parts)]. *)
Fixpoint join (sep : pystr) (parts : list pystr) : pystr :=
  match parts with
  | [] => []
  | [p] => p
  | p :: rest => p ++ sep ++ join sep rest
  end.

(** [''.join(parts)]. *)
Definition join_empty (parts : list pystr) : pystr := List.concat parts.

(** The character class [[&|]] of the pattern given to [re.split]. *)
Definition is_sep (c : char) : bool := N.eqb c c_amp || N.eqb c c_bar.

(** [re.split(r'([&|])', s)]: the pieces between the separators, each
    separator kept as a one-character element of its own between them. *)
Fixpoint re_split (s : pystr) : list pystr :=
  match s with
  | [] => [[]]
  | c :: s' =>
      if is_sep c then [] :: [c] :: re_split s'
      else match re_split s' with
           | piece :: rest => (c :: piece) :: rest
           | [] => [[c]]
           end
  end.

(** [tk in ('&', '|')]. *)
Definition in_seps (tk : pystr) : bool :=
  str_eqb tk [c_amp] || str_eqb tk [c_bar].

(** [s.lstrip()], [s.rstrip()] and [s.strip()] for a whitespace test. *)
Fixpoint lstrip (isspace : char -> bool) (s : pystr) : pystr :=
  match s with
  | [] => []
  | c :: s' => if isspace c then lstrip isspace s' else s
  end.

Definition rstrip (isspace : char -> bool) (s : pystr) : pystr :=
  rev (lstrip isspace (rev s)).

Definition strip (isspace : char -> bool) (s : pystr) : pystr :=
  rstrip isspace (lstrip isspace s).

(** [str(n)] for an integer: its decimal digits, [-] in front when negative. *)
Fixpoint uint_digits (u : Decimal.uint) : pystr :=
  match u with
  | Decimal.Nil => []
  | Decimal.D0 u => 48%N :: uint_digits u
  | Decimal.D1 u => 49%N :: uint_digits u
  | Decimal.D2 u => 50%N :: uint_digits u
  | Decimal.D3 u => 51%N :: uint_digits u
  | Decimal.D4 u => 52%N :: uint_digits u
  | Decimal.D5 u => 53%N :: uint_digits u
  | Decimal.D6 u => 54%N :: uint_digits u
  | Decimal.D7 u => 55%N :: uint_digits u
  | Decimal.D8 u => 56%N :: uint_digits u
  | Decimal.D9 u => 57%N :: uint_digits u
  end.

Definition str_of_int (n : Z) : pystr :=
  match Z.to_int n with
  | Decimal.Pos u => uint_digits u
  | Decimal.Neg u => c_hyphen :: uint_digits u
  end.

(* ================================================================== *)
(** ** Cell values *)

(** What a workbook cell holds: [None], an [int], a [float] (an IEEE 754
    binary64 value, as the Standard Library specifies them) or a [str].
    The booleans and dates a workbook reader can also hand over are not
    part of the model. *)
Inductive pyval : Type :=
| PyNone
| PyInt (n : Z)
| PyFloat (x : spec_float)
| PyStr (s : pystr).

(** [bool(v)]: [None], [0], [0.0], [-0.0] and [''] are false. *)
Definition truthy (v : pyval) : bool :=
  match v with
  | PyNone => false
  | PyInt n => negb (Z.eqb n 0)
  | PyFloat (S754_zero _) => false
  | PyFloat _ => true
  | PyStr s => nonempty s
  end.

(** [x.is_integer()]: finite and without fractional part. *)
Definition float_is_integer (x : spec_float) : bool :=
  match x with
  | S754_zero _ => true
  | S754_infinity _ | S754_nan => false
  | S754_finite _ m e =>
      (0 <=? e)%Z || Z.eqb (Z.pos m mod 2 ^ (- e)) 0
  end.

(** [int(x)] where [x.is_integer()]. *)
Definition float_to_int (x : spec_float) : Z :=
  match x with
  | S754_finite s m e =>
      let a := if (0 <=? e)%Z then (Z.pos m * 2 ^ e)%Z
               else (Z.pos m / 2 ^ (- e))%Z in
      if s then (- a)%Z else a
  | _ => 0%Z
  end.

(* ================================================================== *)
(** ** Dicts *)

(** A [Dict[str, str]]: its items in insertion order, keys distinct. *)
Definition dict := list (pystr * pystr).

(** [d.get(k)]: [Some d[k]] when [k in d]. *)
Fixpoint dict_get (d : dict) (k : pystr) : option pystr :=
  match d with
  | [] => None
  | (k', v) :: d' => if str_eqb k' k then Some v else dict_get d' k
  end.

(** [d[k] = v]: an existing key keeps its place and takes the new value, a
    new key goes to the end. *)
Fixpoint dict_set (d : dict) (k v : pystr) : dict :=
  match d with
  | [] => [(k, v)]
  | (k', v') :: d' =>
      if str_eqb k' k then (k', v) :: d' else (k', v') :: dict_set d' k v
  end.

(** [k in d and d[k] != '']; on success the value [d[k]]. *)
Definition lookup_nonempty (d : dict) (k : pystr) : option pystr :=
  match dict_get d k with
  | Some v => if nonempty v then Some v else None
  | None => None
  end.

(* ================================================================== *)
(** ** Exceptions, column letters and sheets *)

(** The exceptions the two files raise, with their message (for a
    [NameError], the name that is not defined), and any other exception a
    call into a workbook library raises, with its class. *)
Inductive exn : Type :=
| ValueError (message : pystr)
| RuntimeError (message : pystr)
| NameError (name : pystr)
| OtherError (class_name message : pystr).

(** ['A' <= ch <= 'Z'] on one character. *)
Definition is_capital (ch : char) : bool := (65 <=? ch)%N && (ch <=? 90)%N.

(** The cells of a worksheet by row and column, as the workbook library
    gives ([cell_value], [cell(...).value]) and takes ([write],
    [cell.value = ...]) them; indices outside the sheet are the library's
    business. *)
Definition grid := nat -> Z -> pyval.

(** Writing one cell. *)
Definition grid_set (g : grid) (r : nat) (c : Z) (v : pyval) : grid :=
  fun r' c' => if (r' =? r) && (c' =? c)%Z then v else g r' c'.

(** An [xlrd] sheet: [nrows], [ncols] and [cell_value]. *)
Record sheet : Type := {
  nrows : nat;
  ncols : nat;
  cell_value : grid
}.

(** An [openpyxl] worksheet: [max_row] and the value of [cell(row, column)],
    both counted from 1. *)
Record worksheet : Type := {
  max_row : nat;
  cell : grid
}.

(* ================================================================== *)
(** ** [map_items.py] *)

Module MapItems.
Section Runtime.

(** Three functions of the Python runtime that the file calls and does not
    define: [str.isdigit] and [str.isspace] on one character (tables of the
    interpreter's Unicode database) and [str] on a [float] that is not
    integral ([float.__repr__]). *)
Variable isdigit : char -> bool.
Variable isspace : char -> bool.
Variable float_str : spec_float -> pystr.

(** [str.upper], a fourth function of the runtime. *)
Variable upper : pystr -> pystr.

(** The [for ch in letter] loop of [col_letter_to_idx], lines 30-33, on the
    state [idx]; [letter] is the normalized string, for the message. *)
Fixpoint col_letter_loop (rest letter : pystr) (idx : Z) : exn + Z :=
  match rest with
  | [] => inr idx
  | ch :: rest' =>
      if negb (is_capital ch)
      then inl (ValueError (lit "Invalid column letter: " ++ letter))
      else col_letter_loop rest' letter (idx * 26 + (Z.of_N ch - 65 + 1))
  end.

(** [col_letter_to_idx], lines 26-34. *)
Definition col_letter_to_idx (letter : pystr) : exn + Z :=
  let letter := upper (strip isspace letter) in
  match col_letter_loop letter letter 0 with
  | inl e => inl e
  | inr idx => inr (idx - 1)%Z
  end.

(** [to_text], lines 37-44. *)
Definition to_text (v : pyval) : pystr :=
  match v with
  | PyNone => []
  | PyInt n => str_of_int n
  | PyFloat x =>
      if float_is_integer x then str_of_int (float_to_int x)
      else float_str x
  | PyStr s => s
  end.

(** [digits_only], lines 47-48. *)
Definition digits_only (s : pystr) : pystr := filter isdigit s.

(** The row loop of [load_mapping], lines 65-71 and 79-85 (the same body
    for both workbook formats): [rows] are the pairs [(v_id, v_name)] read
    from the two mapping columns, header row already skipped. *)
Fixpoint read_rows (rows : list (pyval * pyval)) (id_to_name : dict) : dict :=
  match rows with
  | [] => id_to_name
  | (v_id, v_name) :: rows' =>
      let k := strip isspace (to_text v_id) in
      let name := strip isspace (to_text v_name) in
      read_rows rows'
        (if nonempty k then dict_set id_to_name k name else id_to_name)
  end.

(** The dict comprehension of line 89 over [id_to_name.items()]. *)
Fixpoint digits_comprehension (items : dict) (acc : dict) : dict :=
  match items with
  | [] => acc
  | (k, v) :: items' =>
      digits_comprehension items'
        (if nonempty (digits_only k) then dict_set acc (digits_only k) v
         else acc)
  end.

(** [load_mapping], lines 51-90, from the rows of the mapping sheet on:
    [rows] holds, for each row the loop visits, the values [v_id] and
    [v_name] it reads (lines 66-67, 80-81). The row loop and the dict
    comprehension are what is embedded; the opening of the workbook and
    the [raise] of lines 61, 74 and 87 come before and are left out. *)
Definition load_mapping (rows : list (pyval * pyval)) : dict * dict :=
  let id_to_name := read_rows rows [] in
  let id_to_name_digits := digits_comprehension id_to_name [] in
  (id_to_name, id_to_name_digits).

(** The [for c in candidates] loop of [map_token], lines 106-111. *)
Fixpoint map_token_loop (candidates : list pystr) (token : pystr)
    (id_to_name id_to_name_digits : dict) : pystr * bool :=
  match candidates with
  | [] => (token, false)
  | c :: candidates' =>
      match lookup_nonempty id_to_name c with
      | Some name => (name, true)
      | None =>
          match lookup_nonempty id_to_name_digits c with
          | Some name => (name, true)
          | None =>
              map_token_loop candidates' token id_to_name id_to_name_digits
          end
      end
  end.

(** [map_token], lines 93-111. *)
Definition map_token (token : pystr) (id_to_name id_to_name_digits : dict)
    : pystr * bool :=
  match lookup_nonempty id_to_name token with
  | Some name => (name, true)
  | None =>
      let d := digits_only token in
      let candidates :=
        if nonempty d then
          [d] ++ (if (length d =? 3) || (length d =? 4)
                  then [lit "66" ++ d; lit "6" ++ d] else [])
        else [] in
      map_token_loop candidates token id_to_name id_to_name_digits
  end.

(** The [for t in id_tokens] loop of [transform_cell], lines 144-148, on
    the state [(mapped_tokens, unmatched)]. *)
Fixpoint map_id_tokens (id_tokens : list pystr)
    (id_to_name id_to_name_digits : dict)
    (mapped_tokens : list pystr) (unmatched : nat) : list pystr * nat :=
  match id_tokens with
  | [] => (mapped_tokens, unmatched)
  | t :: id_tokens' =>
      let '(name, hit) := map_token t id_to_name id_to_name_digits in
      let unmatched := if negb hit then unmatched + 1 else unmatched in
      map_id_tokens id_tokens' id_to_name id_to_name_digits
        (mapped_tokens ++ [name]) unmatched
  end.

(** One pass of the body of the [for tk in tokens] loop for an element
    that is neither a separator nor empty, lines 137-151: the new segment
    and the updated count. *)
Definition transform_segment (seg : pystr)
    (id_to_name id_to_name_digits : dict) (unmatched : nat) : pystr * nat :=
  let parts := split c_dollar seg in
  let ids_part := hd [] parts in
  let suffix_parts := tl parts in
  let id_tokens := filter nonempty (split c_hyphen ids_part) in
  let '(mapped_tokens, unmatched) :=
    map_id_tokens id_tokens id_to_name id_to_name_digits [] unmatched in
  let new_ids :=
    match id_tokens with
    | _ :: _ => join [c_hyphen] mapped_tokens
    | [] => ids_part
    end in
  let new_seg :=
    new_ids ++ (match suffix_parts with
                | _ :: _ => [c_dollar] ++ join [c_dollar] suffix_parts
                | [] => []
                end) in
  (new_seg, unmatched).

(** The [for tk in tokens] loop, lines 130-151, on the state
    [(out_parts, unmatched)]. *)
Fixpoint transform_tokens (tokens : list pystr)
    (id_to_name id_to_name_digits : dict)
    (out_parts : list pystr) (unmatched : nat) : list pystr * nat :=
  match tokens with
  | [] => (out_parts, unmatched)
  | tk :: tokens' =>
      if in_seps tk then
        transform_tokens tokens' id_to_name id_to_name_digits
          (out_parts ++ [tk]) unmatched
      else if str_eqb tk [] then
        transform_tokens tokens' id_to_name id_to_name_digits
          out_parts unmatched
      else
        let '(new_seg, unmatched) :=
          transform_segment tk id_to_name id_to_name_digits unmatched in
        transform_tokens tokens' id_to_name id_to_name_digits
          (out_parts ++ [new_seg]) unmatched
  end.

(** [transform_cell], lines 114-154. A falsy [text] comes back as it is. *)
Definition transform_cell (text : pyval) (keep_prefix : bool)
    (prefix : pystr) (id_to_name id_to_name_digits : dict) : pyval * nat :=
  if negb (truthy text) then (text, 0)
  else
    let s := strip isspace (to_text text) in
    let body :=
      if startswith s prefix then slice_from (length prefix) s else s in
    let tokens := re_split body in
    let '(out_parts, unmatched) :=
      transform_tokens tokens id_to_name id_to_name_digits [] 0 in
    let core := join_empty out_parts in
    (PyStr (if keep_prefix then prefix ++ core else core), unmatched).

(** The calls into [xlrd], [xlwt] and [openpyxl] that [process_source]
    makes in and after its loops, each given by what it raises, if it
    raises: [rs.cell_value(r, c)]; [ws_w.write(r, c, value)], which [xlwt]
    refuses for a column outside 0..255; [wb_w.save(...)] on the sheet as
    written; [ws.cell(row=r, column=c)], which [openpyxl] refuses for a row
    or a column below 1; [wb.save(...)]. For [cell.value = value] the
    function gives the value the cell holds afterwards, or what is
    raised. *)
Variable xlrd_cell_value_raises : nat -> Z -> option exn.
Variable xlwt_write_raises : nat -> Z -> pyval -> option exn.
Variable xlwt_save_raises : grid -> option exn.
Variable openpyxl_cell_raises : nat -> Z -> option exn.
Variable openpyxl_set_value : pyval -> exn + pyval.
Variable openpyxl_save_raises : grid -> option exn.

(** [rs.cell_value(r, r_idx) if r_idx < rs.ncols else ''], line 177. *)
Definition read_xls_cell (rs : sheet) (r : nat) (r_idx : Z) : exn + pyval :=
  if (r_idx <? Z.of_nat (ncols rs))%Z then
    match xlrd_cell_value_raises r r_idx with
    | Some e => inl e
    | None => inr (cell_value rs r r_idx)
    end
  else inr (PyStr []).

(** The row loop of the [.xls] branch of [process_source], lines 176-183,
    on the state [(ws_w, converted, unmatched)]: [rs] is the sheet read,
    [ws_w] the sheet of the copy that is written. An exception of a
    library call ends the loop. *)
Fixpoint process_xls_rows (rs : sheet) (rows : list nat) (r_idx w_idx : Z)
    (id_to_name id_to_name_digits : dict) (keep_prefix : bool)
    (prefix : pystr) (ws_w : grid) (converted unmatched : nat)
    : exn + (grid * nat * nat) :=
  match rows with
  | [] => inr (ws_w, converted, unmatched)
  | r :: rows' =>
      match read_xls_cell rs r r_idx with
      | inl e => inl e
      | inr val =>
          if negb (truthy val) then
            process_xls_rows rs rows' r_idx w_idx id_to_name
              id_to_name_digits keep_prefix prefix ws_w converted unmatched
          else
            let '(new_text, um) :=
              transform_cell val keep_prefix prefix id_to_name
                id_to_name_digits in
            match xlwt_write_raises r w_idx new_text with
            | Some e => inl e
            | None =>
                process_xls_rows rs rows' r_idx w_idx id_to_name
                  id_to_name_digits keep_prefix prefix
                  (grid_set ws_w r w_idx new_text)
                  (converted + 1) (unmatched + um)
            end
      end
  end.

(** The row loop of the [.xlsx] branch, lines 196-205, on the state
    [(ws, converted, unmatched)]: the worksheet is read and written in
    place. The two calls of [ws.cell(...)] come first, the one for the
    write column before the one for the read column; when they do not
    raise they leave the values of the sheet as they are. *)
Fixpoint process_xlsx_rows (rows : list nat) (r_idx w_idx : Z)
    (id_to_name id_to_name_digits : dict) (keep_prefix : bool)
    (prefix : pystr) (ws : grid) (converted unmatched : nat)
    : exn + (grid * nat * nat) :=
  match rows with
  | [] => inr (ws, converted, unmatched)
  | r :: rows' =>
      match openpyxl_cell_raises r (w_idx + 1)%Z with
      | Some e => inl e
      | None =>
          match openpyxl_cell_raises r (r_idx + 1)%Z with
          | Some e => inl e
          | None =>
              let val := ws r (r_idx + 1)%Z in
              match val with
              | PyNone =>
                  process_xlsx_rows rows' r_idx w_idx id_to_name
                    id_to_name_digits keep_prefix prefix ws converted
                    unmatched
              | _ =>
                  let '(new_text, um) :=
                    transform_cell val keep_prefix prefix id_to_name
                      id_to_name_digits in
                  match openpyxl_set_value new_text with
                  | inl e => inl e
                  | inr stored =>
                      process_xlsx_rows rows' r_idx w_idx id_to_name
                        id_to_name_digits keep_prefix prefix
                        (grid_set ws r (w_idx + 1)%Z stored)
                        (converted + 1) (unmatched + um)
                  end
              end
          end
      end
  end.

(** [process_source], lines 157-209. [ext] is the lower-cased suffix of the
    source path; [rs] and [ws] are the sheet the respective library opens
    at [source_sheet_index]; [have_xlrd] and [have_openpyxl] tell whether
    the optional imports succeeded. The result is the exception raised, or
    the sheet that is saved and the triple
    [(total_rows, converted_cells, unmatched_count)] that is returned. *)
Definition process_source (ext : pystr) (have_xlrd have_openpyxl : bool)
    (rs : sheet) (ws : worksheet) (read_col_letter write_col_letter : pystr)
    (id_to_name id_to_name_digits : dict) (keep_prefix : bool)
    (prefix : pystr) (skip_header_source : bool)
    : exn + (grid * (nat * nat * nat)) :=
  match col_letter_to_idx read_col_letter with
  | inl e => inl e
  | inr r_idx =>
      match col_letter_to_idx write_col_letter with
      | inl e => inl e
      | inr w_idx =>
          if str_eqb ext (lit ".xls") then
            if negb have_xlrd then
              inl (RuntimeError (lit "xlrd/xlutils are required for .xls files"))
            else
              let start_row := if skip_header_source then 1 else 0 in
              match process_xls_rows rs (seq start_row (nrows rs - start_row))
                      r_idx w_idx id_to_name id_to_name_digits keep_prefix
                      prefix (cell_value rs) 0 0 with
              | inl e => inl e
              | inr (ws_w, converted, unmatched) =>
                  match xlwt_save_raises ws_w with
                  | Some e => inl e
                  | None => inr (ws_w, (nrows rs, converted, unmatched))
                  end
              end
          else if str_eqb ext (lit ".xlsx") then
            if negb have_openpyxl then
              inl (RuntimeError (lit "openpyxl is required for .xlsx files"))
            else
              let start_row := if skip_header_source then 2 else 1 in
              match process_xlsx_rows
                      (seq start_row (max_row ws + 1 - start_row))
                      r_idx w_idx id_to_name id_to_name_digits keep_prefix
                      prefix (cell ws) 0 0 with
              | inl e => inl e
              | inr (ws', converted, unmatched) =>
                  match openpyxl_save_raises ws' with
                  | Some e => inl e
                  | None => inr (ws', (max_row ws, converted, unmatched))
                  end
              end
          else
            inl (ValueError (lit "Unsupported source file extension: " ++ ext))
      end
  end.

End Runtime.
End MapItems.

(* ================================================================== *)
(** ** [webtool/app.py] *)

Module WebTool.
Section Runtime.

Variable isdigit : char -> bool.
Variable isspace : char -> bool.
Variable float_str : spec_float -> pystr.

(** [str.upper], a fourth function of the runtime. *)
Variable upper : pystr -> pystr.

(** The [for ch in letter] loop of [col_letter_to_idx], lines 44-47, on the
    state [idx]; [letter] is the normalized string, for the message. *)
Fixpoint col_letter_loop (rest letter : pystr) (idx : Z) : exn + Z :=
  match rest with
  | [] => inr idx
  | ch :: rest' =>
      if negb (is_capital ch)
      then inl (ValueError (lit "Invalid column letter: " ++ letter))
      else col_letter_loop rest' letter (idx * 26 + (Z.of_N ch - 65 + 1))
  end.

(** [col_letter_to_idx], lines 41-48. *)
Definition col_letter_to_idx (letter : pystr) : exn + Z :=
  let letter := upper (strip isspace letter) in
  match col_letter_loop letter letter 0 with
  | inl e => inl e
  | inr idx => inr (idx - 1)%Z
  end.

(** [to_text], lines 51-58. *)
Definition to_text (v : pyval) : pystr :=
  match v with
  | PyNone => []
  | PyInt n => str_of_int n
  | PyFloat x =>
      if float_is_integer x then str_of_int (float_to_int x)
      else float_str x
  | PyStr s => s
  end.

(** [digits_only], lines 61-62. *)
Definition digits_only (s : pystr) : pystr := filter isdigit s.

(** The row loop of [load_mapping], lines 76-82 and 87-93. *)
Fixpoint read_rows (rows : list (pyval * pyval)) (id_to_name : dict) : dict :=
  match rows with
  | [] => id_to_name
  | (v_id, v_name) :: rows' =>
      let k := strip isspace (to_text v_id) in
      let name := strip isspace (to_text v_name) in
      read_rows rows'
        (if nonempty k then dict_set id_to_name k name else id_to_name)
  end.

(** The dict comprehension of line 96. *)
Fixpoint digits_comprehension (items : dict) (acc : dict) : dict :=
  match items with
  | [] => acc
  | (k, v) :: items' =>
      digits_comprehension items'
        (if nonempty (digits_only k) then dict_set acc (digits_only k) v
         else acc)
  end.

(** [load_mapping], lines 65-97, from the rows of the mapping sheet on, as
    for [map_items.py]: the row loop and the dict comprehension; the
    opening of the workbook and the [raise] of its error paths are left
    out. *)
Definition load_mapping (rows : list (pyval * pyval)) : dict * dict :=
  let id_to_name := read_rows rows [] in
  let id_to_name_digits := digits_comprehension id_to_name [] in
  (id_to_name, id_to_name_digits).

(** The [for c in candidates] loop of [map_token], lines 113-118. *)
Fixpoint map_token_loop (candidates : list pystr) (token : pystr)
    (id_to_name id_to_name_digits : dict) : pystr * bool :=
  match candidates with
  | [] => (token, false)
  | c :: candidates' =>
      match lookup_nonempty id_to_name c with
      | Some name => (name, true)
      | None =>
          match lookup_nonempty id_to_name_digits c with
          | Some name => (name, true)
          | None =>
              map_token_loop candidates' token id_to_name id_to_name_digits
          end
      end
  end.

(** [map_token], lines 100-118. *)
Definition map_token (token : pystr) (id_to_name id_to_name_digits : dict)
    : pystr * bool :=
  match lookup_nonempty id_to_name token with
  | Some name => (name, true)
  | None =>
      let d := digits_only token in
      let candidates :=
        if nonempty d then
          [d] ++ (if (length d =? 3) || (length d =? 4)
                  then [lit "66" ++ d; lit "6" ++ d] else [])
        else [] in
      map_token_loop candidates token id_to_name id_to_name_digits
  end.

(** The optional out-parameter [unmatched_acc]: [None], or the list the
    caller passed, which the function appends to in place. *)
Definition accumulator := option (list pystr).

(** [unmatched_acc.append(tok)] under [if unmatched_acc is not None]. *)
Definition acc_append (unmatched_acc : accumulator) (tok : pystr)
    : accumulator :=
  match unmatched_acc with
  | Some l => Some (l ++ [tok])
  | None => None
  end.

(** The [for tok in id_tokens] loop, lines 142-148, on the state
    [(mapped_tokens, unmatched, unmatched_acc)]. *)
Fixpoint map_id_tokens (id_tokens : list pystr)
    (id_to_name id_to_name_digits : dict)
    (mapped_tokens : list pystr) (unmatched : nat)
    (unmatched_acc : accumulator) : list pystr * nat * accumulator :=
  match id_tokens with
  | [] => (mapped_tokens, unmatched, unmatched_acc)
  | tok :: id_tokens' =>
      let '(name, hit) := map_token tok id_to_name id_to_name_digits in
      let '(unmatched, unmatched_acc) :=
        if negb hit then (unmatched + 1, acc_append unmatched_acc tok)
        else (unmatched, unmatched_acc) in
      map_id_tokens id_tokens' id_to_name id_to_name_digits
        (mapped_tokens ++ [name]) unmatched unmatched_acc
  end.

(** The loop body for a segment, lines 136-151. *)
Definition transform_segment (seg : pystr)
    (id_to_name id_to_name_digits : dict) (unmatched : nat)
    (unmatched_acc : accumulator) : pystr * nat * accumulator :=
  let parts := split c_dollar seg in
  let ids_part := hd [] parts in
  let suffix_parts := tl parts in
  let id_tokens := filter nonempty (split c_hyphen ids_part) in
  let '(mapped_tokens, unmatched, unmatched_acc) :=
    map_id_tokens id_tokens id_to_name id_to_name_digits [] unmatched
      unmatched_acc in
  let new_ids :=
    match id_tokens with
    | _ :: _ => join [c_hyphen] mapped_tokens
    | [] => ids_part
    end in
  let new_seg :=
    new_ids ++ (match suffix_parts with
                | _ :: _ => [c_dollar] ++ join [c_dollar] suffix_parts
                | [] => []
                end) in
  (new_seg, unmatched, unmatched_acc).

(** The [for tk in tokens] loop, lines 130-151. *)
Fixpoint transform_tokens (tokens : list pystr)
    (id_to_name id_to_name_digits : dict)
    (out_parts : list pystr) (unmatched : nat)
    (unmatched_acc : accumulator) : list pystr * nat * accumulator :=
  match tokens with
  | [] => (out_parts, unmatched, unmatched_acc)
  | tk :: tokens' =>
      if in_seps tk then
        transform_tokens tokens' id_to_name id_to_name_digits
          (out_parts ++ [tk]) unmatched unmatched_acc
      else if str_eqb tk [] then
        transform_tokens tokens' id_to_name id_to_name_digits
          out_parts unmatched unmatched_acc
      else
        let '(new_seg, unmatched, unmatched_acc) :=
          transform_segment tk id_to_name id_to_name_digits unmatched
            unmatched_acc in
        transform_tokens tokens' id_to_name id_to_name_digits
          (out_parts ++ [new_seg]) unmatched unmatched_acc
  end.

(** [transform_cell], lines 121-153: the returned pair and the accumulator
    as the call leaves it. *)
Definition transform_cell (text : pyval) (keep_prefix : bool)
    (prefix : pystr) (id_to_name id_to_name_digits : dict)
    (unmatched_acc : accumulator) : (pyval * nat) * accumulator :=
  if negb (truthy text) then ((text, 0), unmatched_acc)
  else
    let s := strip isspace (to_text text) in
    let body :=
      if startswith s prefix then slice_from (length prefix) s else s in
    let tokens := re_split body in
    let '(out_parts, unmatched, unmatched_acc) :=
      transform_tokens tokens id_to_name id_to_name_digits [] 0
        unmatched_acc in
    let core := join_empty out_parts in
    ((PyStr (if keep_prefix then prefix ++ core else core), unmatched),
     unmatched_acc).

(** The two messages [index] flashes before it redirects to the form,
    lines 196 and 230 (Chinese text, given by code points). *)
Definition msg_no_xlrd : pystr :=
  [0x670D; 0x52A1; 0x5668; 0x7F3A; 0x5C11; 0x0078; 0x006C; 0x0072; 0x0064;
   0x4EE5; 0x8BFB; 0x53D6; 0x0078; 0x006C; 0x0073]%N.

Definition msg_unsupported_source : pystr :=
  [0x4EC5; 0x652F; 0x6301; 0x0020; 0x002E; 0x0078; 0x006C; 0x0073; 0x0020;
   0x6216; 0x0020; 0x002E; 0x0078; 0x006C; 0x0073; 0x0078; 0x0020; 0x6E90;
   0x6587; 0x4EF6]%N.

(** [val not in (None, '')], line 209. *)
Definition not_blank (val : pyval) : bool :=
  match val with
  | PyNone => false
  | PyStr [] => false
  | _ => true
  end.

(** The row loop of the [.xls] branch of [index], lines 202-214: the rows
    appended to the output sheet. The name [unmatched_tokens] that lines
    210, 226 and 233 read is bound nowhere in the file, so evaluating the
    arguments of the call of [transform_cell] raises [NameError]. *)
Fixpoint index_xls_rows (rs : sheet) (rows : list nat) (r_idx : Z)
    (skip_header_source : bool) (ws_out : list (list pyval))
    : exn + list (list pyval) :=
  match rows with
  | [] => inr ws_out
  | r :: rows' =>
      let row_vals :=
        map (fun c => cell_value rs r (Z.of_nat c)) (seq 0 (ncols rs)) in
      if ((if skip_header_source then 1 else 0) <=? r)
         && (r_idx <? Z.of_nat (ncols rs))%Z
         && not_blank (cell_value rs r r_idx)
      then inl (NameError (lit "unmatched_tokens"))
      else index_xls_rows rs rows' r_idx skip_header_source
             (ws_out ++ [row_vals])
  end.

(** The row loop of the [.xlsx] branch of [index], lines 221-227. *)
Fixpoint index_xlsx_rows (ws : grid) (rows : list nat) (r_idx : Z)
    : exn + grid :=
  match rows with
  | [] => inr ws
  | r :: rows' =>
      match ws r (r_idx + 1)%Z with
      | PyNone => index_xlsx_rows ws rows' r_idx
      | _ => inl (NameError (lit "unmatched_tokens"))
      end
  end.

(** What [index] saves as the output workbook, lines 215 and 228: the
    rows appended to the new sheet, or the worksheet of the upload. *)
Inductive saved_workbook : Type :=
| SavedRows (rows : list (list pyval))
| SavedSheet (ws : grid).

(** How [index] ends when it does not raise: with the message flashed
    before the redirect to the form, or with [send_file], line 243. *)
Inductive index_reply : Type :=
| FlashAndRedirect (message : pystr)
| SendFile.

(** The conversion part of [index], lines 190-243, after the uploads were
    saved and the mapping was loaded: the output workbook it has saved, if
    it got that far, and how it ends. The workbook is saved before line
    233 reads [unmatched_tokens], which [export_unmatched and ...] does
    only when [export_unmatched] is on. *)
Definition index_convert (ext : pystr) (have_xlrd : bool) (rs : sheet)
    (ws : worksheet) (read_col write_col : pystr)
    (skip_header_source export_unmatched : bool)
    : option saved_workbook * (exn + index_reply) :=
  match col_letter_to_idx read_col with
  | inl e => (None, inl e)
  | inr r_idx =>
      match col_letter_to_idx write_col with
      | inl e => (None, inl e)
      | inr w_idx =>
          let after_save (out : saved_workbook) :=
            (Some out,
             if export_unmatched then inl (NameError (lit "unmatched_tokens"))
             else inr SendFile) in
          if str_eqb ext (lit ".xls") then
            if negb have_xlrd then (None, inr (FlashAndRedirect msg_no_xlrd))
            else
              match index_xls_rows rs (seq 0 (nrows rs)) r_idx
                      skip_header_source [] with
              | inl e => (None, inl e)
              | inr rows => after_save (SavedRows rows)
              end
          else if str_eqb ext (lit ".xlsx") then
            let start_row := if skip_header_source then 2 else 1 in
            match index_xlsx_rows (cell ws)
                    (seq start_row (max_row ws + 1 - start_row)) r_idx with
            | inl e => (None, inl e)
            | inr ws' => after_save (SavedSheet ws')
            end
          else (None, inr (FlashAndRedirect msg_unsupported_source))
      end
  end.

(** *** The admin login of [webtool/app.py] *)

(** [ADMIN_USERNAME] and [ADMIN_PASSWORD], lines 27-28: what
    [os.environ.get] returned, [None] or a string. *)
Record admin_config : Type := {
  ADMIN_USERNAME : option pystr;
  ADMIN_PASSWORD : option pystr
}.

(** Truth value of an optional string: [None] and [''] are false. *)
Definition opt_truthy (o : option pystr) : bool :=
  match o with
  | Some v => nonempty v
  | None => false
  end.

(** [ADMIN_USERNAME and ADMIN_PASSWORD] as a condition. *)
Definition admin_enabled (cfg : admin_config) : bool :=
  opt_truthy (ADMIN_USERNAME cfg) && opt_truthy (ADMIN_PASSWORD cfg).

(** What the handlers read and write of the Flask session: whether
    [session.get('logged_in')] is true, and the messages flashed so far. *)
Record session : Type := {
  logged_in : bool;
  flashes : list pystr
}.

(** [flash(message)]. *)
Definition flash (message : pystr) (st : session) : session :=
  {| logged_in := logged_in st; flashes := flashes st ++ [message] |}.

(** The flashed messages, lines 34, 262, 283, 291, 293 and 300. *)
Definition msg_please_login : pystr :=
  [0x8BF7; 0x5148; 0x767B; 0x5F55; 0x7BA1; 0x7406; 0x5458; 0x8D26; 0x6237]%N.

Definition msg_unknown_kind : pystr :=
  [0x672A; 0x77E5; 0x7684; 0x6587; 0x4EF6; 0x7C7B; 0x522B]%N.

Definition msg_no_admin : pystr :=
  [0x672A; 0x914D; 0x7F6E; 0x7BA1; 0x7406; 0x5458; 0x8D26; 0x6237; 0xFF0C;
   0x5F53; 0x524D; 0x65E0; 0x9700; 0x767B; 0x5F55]%N.

Definition msg_login_ok : pystr :=
  [0x767B; 0x5F55; 0x6210; 0x529F]%N.

Definition msg_bad_credentials : pystr :=
  [0x7528; 0x6237; 0x540D; 0x6216; 0x5BC6; 0x7801; 0x9519; 0x8BEF]%N.

Definition msg_logged_out : pystr :=
  [0x5DF2; 0x9000; 0x51FA; 0x767B; 0x5F55]%N.

(** Where a redirect goes: [url_for('login', next=path)],
    [url_for('admin')], [url_for('index')], or the string a request gave
    as [next]. *)
Inductive target : Type :=
| ToLogin (next : pystr)
| ToAdmin
| ToIndex
| ToGiven (url : pystr).

(** What the protected views and the login views return. *)
Inductive response : Type :=
| Redirect (to : target)
| LoginForm (next_url : target)
| AdminPage
| SettingsPage
| FileDownload (from_uploads : bool) (filename : pystr)
| NotFound.

(** A request to one of the routes of lines 246-301. A request for a file
    comes with what [send_from_directory] will find: whether [filename]
    names a file it can send from the directory chosen by [kind]. *)
Inductive request : Type :=
| GetAdmin
| GetSettings
| GetFile (kind filename : pystr) (found : bool)
| Login (is_post : bool) (next username password : option pystr)
| Logout.

(** [request.path] of a request to a protected route. *)
Definition request_path (req : request) : pystr :=
  match req with
  | GetAdmin => lit "/admin"
  | GetSettings => lit "/settings"
  | GetFile kind filename _ =>
      lit "/files/" ++ kind ++ lit "/" ++ filename
  | Login _ _ _ _ => lit "/login"
  | Logout => lit "/logout"
  end.

(** The wrapper [require_login] puts around a view, lines 30-38. *)
Definition require_login (cfg : admin_config)
    (view_func : session -> session * response) (path : pystr)
    (st : session) : session * response :=
  if admin_enabled cfg && negb (logged_in st)
  then (flash msg_please_login st, Redirect (ToLogin path))
  else view_func st.

(** [admin], [settings] and [files], lines 246-277, without their
    decorator. [send_from_directory] sends the file as an attachment, or
    answers 404 when it finds none. *)
Definition admin_view (st : session) : session * response := (st, AdminPage).

Definition settings_view (st : session) : session * response :=
  (st, SettingsPage).

Definition send_from_directory (from_uploads : bool) (filename : pystr)
    (found : bool) : response :=
  if found then FileDownload from_uploads filename else NotFound.

Definition files_view (kind filename : pystr) (found : bool) (st : session)
    : session * response :=
  if str_eqb kind (lit "uploads")
  then (st, send_from_directory true filename found)
  else if str_eqb kind (lit "outputs")
  then (st, send_from_directory false filename found)
  else (flash msg_unknown_kind st, Redirect ToAdmin).

(** [form.get(name, '')]. *)
Definition form_get (field : option pystr) : pystr :=
  match field with
  | Some v => v
  | None => []
  end.

(** [user == ADMIN_USERNAME] for the configured value. *)
Definition equals_config (v : pystr) (configured : option pystr) : bool :=
  match configured with
  | Some c => str_eqb v c
  | None => false
  end.

(** [login], lines 280-294. *)
Definition login_view (cfg : admin_config) (is_post : bool)
    (next username password : option pystr) (st : session)
    : session * response :=
  if negb (admin_enabled cfg)
  then (flash msg_no_admin st, Redirect ToAdmin)
  else
    let next_url :=
      match next with
      | Some (c :: u) => ToGiven (c :: u)
      | _ => ToAdmin
      end in
    if is_post then
      let user := form_get username in
      let pw := form_get password in
      if equals_config user (ADMIN_USERNAME cfg)
         && equals_config pw (ADMIN_PASSWORD cfg)
      then
        (flash msg_login_ok {| logged_in := true; flashes := flashes st |},
         Redirect next_url)
      else (flash msg_bad_credentials st, LoginForm next_url)
    else (st, LoginForm next_url).

(** [logout], lines 297-301. *)
Definition logout_view (st : session) : session * response :=
  (flash msg_logged_out {| logged_in := false; flashes := flashes st |},
   Redirect ToIndex).

(** The routes with their decorators. *)
Definition handle (cfg : admin_config) (req : request) (st : session)
    : session * response :=
  match req with
  | GetAdmin => require_login cfg admin_view (request_path req) st
  | GetSettings => require_login cfg settings_view (request_path req) st
  | GetFile kind filename found =>
      require_login cfg (files_view kind filename found) (request_path req) st
  | Login is_post next username password =>
      login_view cfg is_post next username password st
  | Logout => logout_view st
  end.

(** A sequence of requests in one session: the session at the end and the
    responses, in order. *)
Fixpoint serve (cfg : admin_config) (reqs : list request) (st : session)
    : session * list response :=
  match reqs with
  | [] => (st, [])
  | req :: reqs' =>
      let '(st1, resp) := handle cfg req st in
      let '(st2, resps) := serve cfg reqs' st1 in
      (st2, resp :: resps)
  end.

End Runtime.
End WebTool.

(* ================================================================== *)
(** ** The interpreter's character tables *)

(** Membership of a code point in a table of inclusive ranges. *)
Definition in_ranges (table : list (N * N)) (c : char) : bool :=
  existsb (fun r => (fst r <=? c)%N && (c <=? snd r)%N) table.

(** [str.isdigit] on one character: the code points whose Numeric_Type is
    Digit or Decimal in the Unicode 14.0 character database (the one of
    CPython 3.11). *)
Definition isdigit_table : list (N * N) :=
  [
    (0x0030, 0x0039); (0x00B2, 0x00B3); (0x00B9, 0x00B9); (0x0660, 0x0669);
    (0x06F0, 0x06F9); (0x07C0, 0x07C9); (0x0966, 0x096F); (0x09E6, 0x09EF);
    (0x0A66, 0x0A6F); (0x0AE6, 0x0AEF); (0x0B66, 0x0B6F); (0x0BE6, 0x0BEF);
    (0x0C66, 0x0C6F); (0x0CE6, 0x0CEF); (0x0D66, 0x0D6F); (0x0DE6, 0x0DEF);
    (0x0E50, 0x0E59); (0x0ED0, 0x0ED9); (0x0F20, 0x0F29); (0x1040, 0x1049);
    (0x1090, 0x1099); (0x1369, 0x1371); (0x17E0, 0x17E9); (0x1810, 0x1819);
    (0x1946, 0x194F); (0x19D0, 0x19DA); (0x1A80, 0x1A89); (0x1A90, 0x1A99);
    (0x1B50, 0x1B59); (0x1BB0, 0x1BB9); (0x1C40, 0x1C49); (0x1C50, 0x1C59);
    (0x2070, 0x2070); (0x2074, 0x2079); (0x2080, 0x2089); (0x2460, 0x2468);
    (0x2474, 0x247C); (0x2488, 0x2490); (0x24EA, 0x24EA); (0x24F5, 0x24FD);
    (0x24FF, 0x24FF); (0x2776, 0x277E); (0x2780, 0x2788); (0x278A, 0x2792);
    (0xA620, 0xA629); (0xA8D0, 0xA8D9); (0xA900, 0xA909); (0xA9D0, 0xA9D9);
    (0xA9F0, 0xA9F9); (0xAA50, 0xAA59); (0xABF0, 0xABF9); (0xFF10, 0xFF19);
    (0x104A0, 0x104A9); (0x10A40, 0x10A43); (0x10D30, 0x10D39); (0x10E60, 0x10E68);
    (0x11052, 0x1105A); (0x11066, 0x1106F); (0x110F0, 0x110F9); (0x11136, 0x1113F);
    (0x111D0, 0x111D9); (0x112F0, 0x112F9); (0x11450, 0x11459); (0x114D0, 0x114D9);
    (0x11650, 0x11659); (0x116C0, 0x116C9); (0x11730, 0x11739); (0x118E0, 0x118E9);
    (0x11950, 0x11959); (0x11C50, 0x11C59); (0x11D50, 0x11D59); (0x11DA0, 0x11DA9);
    (0x16A60, 0x16A69); (0x16AC0, 0x16AC9); (0x16B50, 0x16B59); (0x1D7CE, 0x1D7FF);
    (0x1E140, 0x1E149); (0x1E2F0, 0x1E2F9); (0x1E950, 0x1E959); (0x1F100, 0x1F10A);
    (0x1FBF0, 0x1FBF9)
  ]%N.

Definition unicode_isdigit (c : char) : bool := in_ranges isdigit_table c.

(** [str.isspace] on one character, same database: the whitespace code
    points. *)
Definition isspace_table : list (N * N) :=
  [
    (0x0009, 0x000D); (0x001C, 0x0020); (0x0085, 0x0085); (0x00A0, 0x00A0);
    (0x1680, 0x1680); (0x2000, 0x200A); (0x2028, 0x2029); (0x202F, 0x202F);
    (0x205F, 0x205F); (0x3000, 0x3000)
  ]%N.

Definition unicode_isspace (c : char) : bool := in_ranges isspace_table c.

(** [str.upper], same database. A character with a one-character upper
    case lies in a run [(first, last, step, delta)]: every [step]-th code
    point from [first] to [last] maps to itself plus [delta]. *)
Definition upper_runs : list (N * N * N * Z) :=
  [
    (0x0061, 0x007A, 1, (-32)%Z); (0x00B5, 0x00B5, 1, 743%Z);
    (0x00E0, 0x00F6, 1, (-32)%Z); (0x00F8, 0x00FE, 1, (-32)%Z);
    (0x00FF, 0x00FF, 1, 121%Z); (0x0101, 0x012F, 2, (-1)%Z);
    (0x0131, 0x0131, 1, (-232)%Z); (0x0133, 0x0137, 2, (-1)%Z);
    (0x013A, 0x0148, 2, (-1)%Z); (0x014B, 0x0177, 2, (-1)%Z);
    (0x017A, 0x017E, 2, (-1)%Z); (0x017F, 0x017F, 1, (-300)%Z);
    (0x0180, 0x0180, 1, 195%Z); (0x0183, 0x0185, 2, (-1)%Z);
    (0x0188, 0x0188, 1, (-1)%Z); (0x018C, 0x018C, 1, (-1)%Z);
    (0x0192, 0x0192, 1, (-1)%Z); (0x0195, 0x0195, 1, 97%Z);
    (0x0199, 0x0199, 1, (-1)%Z); (0x019A, 0x019A, 1, 163%Z);
    (0x019E, 0x019E, 1, 130%Z); (0x01A1, 0x01A5, 2, (-1)%Z);
    (0x01A8, 0x01A8, 1, (-1)%Z); (0x01AD, 0x01AD, 1, (-1)%Z);
    (0x01B0, 0x01B0, 1, (-1)%Z); (0x01B4, 0x01B6, 2, (-1)%Z);
    (0x01B9, 0x01B9, 1, (-1)%Z); (0x01BD, 0x01BD, 1, (-1)%Z);
    (0x01BF, 0x01BF, 1, 56%Z); (0x01C5, 0x01C5, 1, (-1)%Z);
    (0x01C6, 0x01C6, 1, (-2)%Z); (0x01C8, 0x01C8, 1, (-1)%Z);
    (0x01C9, 0x01C9, 1, (-2)%Z); (0x01CB, 0x01CB, 1, (-1)%Z);
    (0x01CC, 0x01CC, 1, (-2)%Z); (0x01CE, 0x01DC, 2, (-1)%Z);
    (0x01DD, 0x01DD, 1, (-79)%Z); (0x01DF, 0x01EF, 2, (-1)%Z);
    (0x01F2, 0x01F2, 1, (-1)%Z); (0x01F3, 0x01F3, 1, (-2)%Z);
    (0x01F5, 0x01F5, 1, (-1)%Z); (0x01F9, 0x021F, 2, (-1)%Z);
    (0x0223, 0x0233, 2, (-1)%Z); (0x023C, 0x023C, 1, (-1)%Z);
    (0x023F, 0x0240, 1, 10815%Z); (0x0242, 0x0242, 1, (-1)%Z);
    (0x0247, 0x024F, 2, (-1)%Z); (0x0250, 0x0250, 1, 10783%Z);
    (0x0251, 0x0251, 1, 10780%Z); (0x0252, 0x0252, 1, 10782%Z);
    (0x0253, 0x0253, 1, (-210)%Z); (0x0254, 0x0254, 1, (-206)%Z);
    (0x0256, 0x0257, 1, (-205)%Z); (0x0259, 0x0259, 1, (-202)%Z);
    (0x025B, 0x025B, 1, (-203)%Z); (0x025C, 0x025C, 1, 42319%Z);
    (0x0260, 0x0260, 1, (-205)%Z); (0x0261, 0x0261, 1, 42315%Z);
    (0x0263, 0x0263, 1, (-207)%Z); (0x0265, 0x0265, 1, 42280%Z);
    (0x0266, 0x0266, 1, 42308%Z); (0x0268, 0x0268, 1, (-209)%Z);
    (0x0269, 0x0269, 1, (-211)%Z); (0x026A, 0x026A, 1, 42308%Z);
    (0x026B, 0x026B, 1, 10743%Z); (0x026C, 0x026C, 1, 42305%Z);
    (0x026F, 0x026F, 1, (-211)%Z); (0x0271, 0x0271, 1, 10749%Z);
    (0x0272, 0x0272, 1, (-213)%Z); (0x0275, 0x0275, 1, (-214)%Z);
    (0x027D, 0x027D, 1, 10727%Z); (0x0280, 0x0280, 1, (-218)%Z);
    (0x0282, 0x0282, 1, 42307%Z); (0x0283, 0x0283, 1, (-218)%Z);
    (0x0287, 0x0287, 1, 42282%Z); (0x0288, 0x0288, 1, (-218)%Z);
    (0x0289, 0x0289, 1, (-69)%Z); (0x028A, 0x028B, 1, (-217)%Z);
    (0x028C, 0x028C, 1, (-71)%Z); (0x0292, 0x0292, 1, (-219)%Z);
    (0x029D, 0x029D, 1, 42261%Z); (0x029E, 0x029E, 1, 42258%Z);
    (0x0345, 0x0345, 1, 84%Z); (0x0371, 0x0373, 2, (-1)%Z);
    (0x0377, 0x0377, 1, (-1)%Z); (0x037B, 0x037D, 1, 130%Z);
    (0x03AC, 0x03AC, 1, (-38)%Z); (0x03AD, 0x03AF, 1, (-37)%Z);
    (0x03B1, 0x03C1, 1, (-32)%Z); (0x03C2, 0x03C2, 1, (-31)%Z);
    (0x03C3, 0x03CB, 1, (-32)%Z); (0x03CC, 0x03CC, 1, (-64)%Z);
    (0x03CD, 0x03CE, 1, (-63)%Z); (0x03D0, 0x03D0, 1, (-62)%Z);
    (0x03D1, 0x03D1, 1, (-57)%Z); (0x03D5, 0x03D5, 1, (-47)%Z);
    (0x03D6, 0x03D6, 1, (-54)%Z); (0x03D7, 0x03D7, 1, (-8)%Z);
    (0x03D9, 0x03EF, 2, (-1)%Z); (0x03F0, 0x03F0, 1, (-86)%Z);
    (0x03F1, 0x03F1, 1, (-80)%Z); (0x03F2, 0x03F2, 1, 7%Z);
    (0x03F3, 0x03F3, 1, (-116)%Z); (0x03F5, 0x03F5, 1, (-96)%Z);
    (0x03F8, 0x03F8, 1, (-1)%Z); (0x03FB, 0x03FB, 1, (-1)%Z);
    (0x0430, 0x044F, 1, (-32)%Z); (0x0450, 0x045F, 1, (-80)%Z);
    (0x0461, 0x0481, 2, (-1)%Z); (0x048B, 0x04BF, 2, (-1)%Z);
    (0x04C2, 0x04CE, 2, (-1)%Z); (0x04CF, 0x04CF, 1, (-15)%Z);
    (0x04D1, 0x052F, 2, (-1)%Z); (0x0561, 0x0586, 1, (-48)%Z);
    (0x10D0, 0x10FA, 1, 3008%Z); (0x10FD, 0x10FF, 1, 3008%Z);
    (0x13F8, 0x13FD, 1, (-8)%Z); (0x1C80, 0x1C80, 1, (-6254)%Z);
    (0x1C81, 0x1C81, 1, (-6253)%Z); (0x1C82, 0x1C82, 1, (-6244)%Z);
    (0x1C83, 0x1C84, 1, (-6242)%Z); (0x1C85, 0x1C85, 1, (-6243)%Z);
    (0x1C86, 0x1C86, 1, (-6236)%Z); (0x1C87, 0x1C87, 1, (-6181)%Z);
    (0x1C88, 0x1C88, 1, 35266%Z); (0x1D79, 0x1D79, 1, 35332%Z);
    (0x1D7D, 0x1D7D, 1, 3814%Z); (0x1D8E, 0x1D8E, 1, 35384%Z);
    (0x1E01, 0x1E95, 2, (-1)%Z); (0x1E9B, 0x1E9B, 1, (-59)%Z);
    (0x1EA1, 0x1EFF, 2, (-1)%Z); (0x1F00, 0x1F07, 1, 8%Z);
    (0x1F10, 0x1F15, 1, 8%Z); (0x1F20, 0x1F27, 1, 8%Z);
    (0x1F30, 0x1F37, 1, 8%Z); (0x1F40, 0x1F45, 1, 8%Z);
    (0x1F51, 0x1F57, 2, 8%Z); (0x1F60, 0x1F67, 1, 8%Z);
    (0x1F70, 0x1F71, 1, 74%Z); (0x1F72, 0x1F75, 1, 86%Z);
    (0x1F76, 0x1F77, 1, 100%Z); (0x1F78, 0x1F79, 1, 128%Z);
    (0x1F7A, 0x1F7B, 1, 112%Z); (0x1F7C, 0x1F7D, 1, 126%Z);
    (0x1FB0, 0x1FB1, 1, 8%Z); (0x1FBE, 0x1FBE, 1, (-7205)%Z);
    (0x1FD0, 0x1FD1, 1, 8%Z); (0x1FE0, 0x1FE1, 1, 8%Z);
    (0x1FE5, 0x1FE5, 1, 7%Z); (0x214E, 0x214E, 1, (-28)%Z);
    (0x2170, 0x217F, 1, (-16)%Z); (0x2184, 0x2184, 1, (-1)%Z);
    (0x24D0, 0x24E9, 1, (-26)%Z); (0x2C30, 0x2C5F, 1, (-48)%Z);
    (0x2C61, 0x2C61, 1, (-1)%Z); (0x2C65, 0x2C65, 1, (-10795)%Z);
    (0x2C66, 0x2C66, 1, (-10792)%Z); (0x2C68, 0x2C6C, 2, (-1)%Z);
    (0x2C73, 0x2C73, 1, (-1)%Z); (0x2C76, 0x2C76, 1, (-1)%Z);
    (0x2C81, 0x2CE3, 2, (-1)%Z); (0x2CEC, 0x2CEE, 2, (-1)%Z);
    (0x2CF3, 0x2CF3, 1, (-1)%Z); (0x2D00, 0x2D25, 1, (-7264)%Z);
    (0x2D27, 0x2D27, 1, (-7264)%Z); (0x2D2D, 0x2D2D, 1, (-7264)%Z);
    (0xA641, 0xA66D, 2, (-1)%Z); (0xA681, 0xA69B, 2, (-1)%Z);
    (0xA723, 0xA72F, 2, (-1)%Z); (0xA733, 0xA76F, 2, (-1)%Z);
    (0xA77A, 0xA77C, 2, (-1)%Z); (0xA77F, 0xA787, 2, (-1)%Z);
    (0xA78C, 0xA78C, 1, (-1)%Z); (0xA791, 0xA793, 2, (-1)%Z);
    (0xA794, 0xA794, 1, 48%Z); (0xA797, 0xA7A9, 2, (-1)%Z);
    (0xA7B5, 0xA7C3, 2, (-1)%Z); (0xA7C8, 0xA7CA, 2, (-1)%Z);
    (0xA7D1, 0xA7D1, 1, (-1)%Z); (0xA7D7, 0xA7D9, 2, (-1)%Z);
    (0xA7F6, 0xA7F6, 1, (-1)%Z); (0xAB53, 0xAB53, 1, (-928)%Z);
    (0xAB70, 0xABBF, 1, (-38864)%Z); (0xFF41, 0xFF5A, 1, (-32)%Z);
    (0x10428, 0x1044F, 1, (-40)%Z); (0x104D8, 0x104FB, 1, (-40)%Z);
    (0x10597, 0x105A1, 1, (-39)%Z); (0x105A3, 0x105B1, 1, (-39)%Z);
    (0x105B3, 0x105B9, 1, (-39)%Z); (0x105BB, 0x105BC, 1, (-39)%Z);
    (0x10CC0, 0x10CF2, 1, (-64)%Z); (0x118C0, 0x118DF, 1, (-32)%Z);
    (0x16E60, 0x16E7F, 1, (-32)%Z); (0x1E922, 0x1E943, 1, (-34)%Z)
  ]%N.

(** The characters whose upper case has several characters. *)
Definition upper_special : list (N * list N) :=
  [
    (0x00DF, [0x0053; 0x0053]); (0x0149, [0x02BC; 0x004E]);
    (0x01F0, [0x004A; 0x030C]); (0x0390, [0x0399; 0x0308; 0x0301]);
    (0x03B0, [0x03A5; 0x0308; 0x0301]); (0x0587, [0x0535; 0x0552]);
    (0x1E96, [0x0048; 0x0331]); (0x1E97, [0x0054; 0x0308]);
    (0x1E98, [0x0057; 0x030A]); (0x1E99, [0x0059; 0x030A]);
    (0x1E9A, [0x0041; 0x02BE]); (0x1F50, [0x03A5; 0x0313]);
    (0x1F52, [0x03A5; 0x0313; 0x0300]); (0x1F54, [0x03A5; 0x0313; 0x0301]);
    (0x1F56, [0x03A5; 0x0313; 0x0342]); (0x1F80, [0x1F08; 0x0399]);
    (0x1F81, [0x1F09; 0x0399]); (0x1F82, [0x1F0A; 0x0399]);
    (0x1F83, [0x1F0B; 0x0399]); (0x1F84, [0x1F0C; 0x0399]);
    (0x1F85, [0x1F0D; 0x0399]); (0x1F86, [0x1F0E; 0x0399]);
    (0x1F87, [0x1F0F; 0x0399]); (0x1F88, [0x1F08; 0x0399]);
    (0x1F89, [0x1F09; 0x0399]); (0x1F8A, [0x1F0A; 0x0399]);
    (0x1F8B, [0x1F0B; 0x0399]); (0x1F8C, [0x1F0C; 0x0399]);
    (0x1F8D, [0x1F0D; 0x0399]); (0x1F8E, [0x1F0E; 0x0399]);
    (0x1F8F, [0x1F0F; 0x0399]); (0x1F90, [0x1F28; 0x0399]);
    (0x1F91, [0x1F29; 0x0399]); (0x1F92, [0x1F2A; 0x0399]);
    (0x1F93, [0x1F2B; 0x0399]); (0x1F94, [0x1F2C; 0x0399]);
    (0x1F95, [0x1F2D; 0x0399]); (0x1F96, [0x1F2E; 0x0399]);
    (0x1F97, [0x1F2F; 0x0399]); (0x1F98, [0x1F28; 0x0399]);
    (0x1F99, [0x1F29; 0x0399]); (0x1F9A, [0x1F2A; 0x0399]);
    (0x1F9B, [0x1F2B; 0x0399]); (0x1F9C, [0x1F2C; 0x0399]);
    (0x1F9D, [0x1F2D; 0x0399]); (0x1F9E, [0x1F2E; 0x0399]);
    (0x1F9F, [0x1F2F; 0x0399]); (0x1FA0, [0x1F68; 0x0399]);
    (0x1FA1, [0x1F69; 0x0399]); (0x1FA2, [0x1F6A; 0x0399]);
    (0x1FA3, [0x1F6B; 0x0399]); (0x1FA4, [0x1F6C; 0x0399]);
    (0x1FA5, [0x1F6D; 0x0399]); (0x1FA6, [0x1F6E; 0x0399]);
    (0x1FA7, [0x1F6F; 0x0399]); (0x1FA8, [0x1F68; 0x0399]);
    (0x1FA9, [0x1F69; 0x0399]); (0x1FAA, [0x1F6A; 0x0399]);
    (0x1FAB, [0x1F6B; 0x0399]); (0x1FAC, [0x1F6C; 0x0399]);
    (0x1FAD, [0x1F6D; 0x0399]); (0x1FAE, [0x1F6E; 0x0399]);
    (0x1FAF, [0x1F6F; 0x0399]); (0x1FB2, [0x1FBA; 0x0399]);
    (0x1FB3, [0x0391; 0x0399]); (0x1FB4, [0x0386; 0x0399]);
    (0x1FB6, [0x0391; 0x0342]); (0x1FB7, [0x0391; 0x0342; 0x0399]);
    (0x1FBC, [0x0391; 0x0399]); (0x1FC2, [0x1FCA; 0x0399]);
    (0x1FC3, [0x0397; 0x0399]); (0x1FC4, [0x0389; 0x0399]);
    (0x1FC6, [0x0397; 0x0342]); (0x1FC7, [0x0397; 0x0342; 0x0399]);
    (0x1FCC, [0x0397; 0x0399]); (0x1FD2, [0x0399; 0x0308; 0x0300]);
    (0x1FD3, [0x0399; 0x0308; 0x0301]); (0x1FD6, [0x0399; 0x0342]);
    (0x1FD7, [0x0399; 0x0308; 0x0342]); (0x1FE2, [0x03A5; 0x0308; 0x0300]);
    (0x1FE3, [0x03A5; 0x0308; 0x0301]); (0x1FE4, [0x03A1; 0x0313]);
    (0x1FE6, [0x03A5; 0x0342]); (0x1FE7, [0x03A5; 0x0308; 0x0342]);
    (0x1FF2, [0x1FFA; 0x0399]); (0x1FF3, [0x03A9; 0x0399]);
    (0x1FF4, [0x038F; 0x0399]); (0x1FF6, [0x03A9; 0x0342]);
    (0x1FF7, [0x03A9; 0x0342; 0x0399]); (0x1FFC, [0x03A9; 0x0399]);
    (0xFB00, [0x0046; 0x0046]); (0xFB01, [0x0046; 0x0049]);
    (0xFB02, [0x0046; 0x004C]); (0xFB03, [0x0046; 0x0046; 0x0049]);
    (0xFB04, [0x0046; 0x0046; 0x004C]); (0xFB05, [0x0053; 0x0054]);
    (0xFB06, [0x0053; 0x0054]); (0xFB13, [0x0544; 0x0546]);
    (0xFB14, [0x0544; 0x0535]); (0xFB15, [0x0544; 0x053B]);
    (0xFB16, [0x054E; 0x0546]); (0xFB17, [0x0544; 0x053D])
  ]%N.

Definition in_run (c : char) (run : N * N * N * Z) : bool :=
  let '(first, last, step, _) := run in
  (first <=? c)%N && (c <=? last)%N && N.eqb ((c - first) mod step) 0.

Definition upper_char (c : char) : pystr :=
  match find (fun sp => N.eqb (fst sp) c) upper_special with
  | Some sp => snd sp
  | None =>
      match find (in_run c) upper_runs with
      | Some (_, _, _, delta) => [Z.to_N (Z.of_N c + delta)]
      | None => [c]
      end
  end.

Definition unicode_upper (s : pystr) : pystr := flat_map upper_char s.

(* ================================================================== *)
(** ** Notions the properties are stated with *)

Section Notions.

Variable isdigit : char -> bool.
Variable isspace : char -> bool.
Variable float_str : spec_float -> pystr.

(** The body [transform_cell] parses: the cell as text, trimmed, its
    leading [prefix] cut off when it has one (lines 123-124). *)
Definition cell_body (text : pyval) (prefix : pystr) : pystr :=
  let s := strip isspace (MapItems.to_text float_str text) in
  if startswith s prefix then slice_from (length prefix) s else s.

(** The prefix handling of the last line: [prefix + core] or [core]. *)
Definition with_prefix (keep_prefix : bool) (prefix core : pystr) : pystr :=
  if keep_prefix then prefix ++ core else core.

(** The segments of a body: the elements of its tokenization that are
    neither a separator nor empty. *)
Definition is_segment (tk : pystr) : bool :=
  negb (in_seps tk) && nonempty tk.

Definition segments (body : pystr) : list pystr :=
  filter is_segment (re_split body).

(** The id group of a segment (what stands before its first [$]), its
    suffix parts, and the identifier tokens of the id group. *)
Definition seg_ids (seg : pystr) : pystr := hd [] (split c_dollar seg).

Definition seg_suffixes (seg : pystr) : list pystr :=
  tl (split c_dollar seg).

Definition seg_tokens (seg : pystr) : list pystr :=
  filter nonempty (split c_hyphen (seg_ids seg)).

(** All identifier tokens of a body, in order. *)
Definition id_tokens_of (body : pystr) : list pystr :=
  flat_map seg_tokens (segments body).

(** The segment structure of a text: for each segment, its number of
    suffix parts and its number of identifier tokens. *)
Definition structure (t : pystr) : list (nat * nat) :=
  map (fun seg => (length (seg_suffixes seg), length (seg_tokens seg)))
      (segments t).

(** A name that contains none of the four structural characters. *)
Definition plain_char (c : char) : bool :=
  negb (is_sep c) && negb (N.eqb c c_dollar) && negb (N.eqb c c_hyphen).

Definition plain (name : pystr) : bool := forallb plain_char name.

(** An id group is tidy when splitting it on [-] gives no empty piece, or
    nothing but empty pieces (then it is passed through as it is). *)
Definition tidy_ids (ids_part : pystr) : bool :=
  match filter nonempty (split c_hyphen ids_part) with
  | [] => true
  | _ :: _ => forallb nonempty (split c_hyphen ids_part)
  end.

Definition tidy (body : pystr) : bool :=
  forallb (fun seg => tidy_ids (seg_ids seg)) (segments body).

(** How one element of the tokenization is rewritten: a separator stays,
    anything else goes through the segment rewriting. *)
Definition rewrite_element (id_to_name id_to_name_digits : dict)
    (tk : pystr) : pystr :=
  if in_seps tk then tk
  else fst (MapItems.transform_segment isdigit tk
              id_to_name id_to_name_digits 0).

(** What [map_token] puts in the slot of a token, and whether the token
    missed. *)
Definition mapped_name (id_to_name id_to_name_digits : dict) (t : pystr)
    : pystr :=
  fst (MapItems.map_token isdigit t id_to_name id_to_name_digits).

Definition is_miss (id_to_name id_to_name_digits : dict) (t : pystr) : bool :=
  negb (snd (MapItems.map_token isdigit t id_to_name id_to_name_digits)).

(** The token resolves, and to a plain name. *)
Definition resolves_plain (id_to_name id_to_name_digits : dict) (t : pystr)
    : bool :=
  negb (is_miss id_to_name id_to_name_digits t)
  && plain (mapped_name id_to_name id_to_name_digits t).

(** The text a segment is replaced by, written with the notions above. *)
Definition new_segment (id_to_name id_to_name_digits : dict) (seg : pystr)
    : pystr :=
  match seg_tokens seg with
  | _ :: _ =>
      join [c_hyphen]
        (map (mapped_name id_to_name id_to_name_digits) (seg_tokens seg))
  | [] => seg_ids seg
  end
  ++ match seg_suffixes seg with
     | _ :: _ => [c_dollar] ++ join [c_dollar] (seg_suffixes seg)
     | [] => []
     end.

(** One probe of the fallback chain: the exact index, then the digits
    index. *)
Definition probe (exact digits : dict) (c : pystr) : option pystr :=
  match lookup_nonempty exact c with
  | Some name => Some name
  | None => lookup_nonempty digits c
  end.

(** The id and the name a mapping row contributes (lines 68-69). *)
Definition row_key (row : pyval * pyval) : pystr :=
  strip isspace (MapItems.to_text float_str (fst row)).

Definition row_name (row : pyval * pyval) : pystr :=
  strip isspace (MapItems.to_text float_str (snd row)).

(** The name of the last row of [rows] whose id is [k]. *)
Fixpoint last_name (rows : list (pyval * pyval)) (k : pystr)
    : option pystr :=
  match rows with
  | [] => None
  | row :: rows' =>
      match last_name rows' k with
      | Some name => Some name
      | None => if str_eqb (row_key row) k then Some (row_name row)
                else None
      end
  end.

(** A dict without its items whose value is the empty string. *)
Definition drop_empty (d : dict) : dict :=
  filter (fun kv => nonempty (snd kv)) d.

End Notions.

(** [free c s]: the character [c] does not occur in [s]. *)
Definition free (c : char) (s : pystr) : bool :=
  forallb (fun x => negb (N.eqb x c)) s.

(** The accumulator after the tokens [toks] were appended to it. *)
Definition acc_extend (unmatched_acc : WebTool.accumulator)
    (toks : list pystr) : WebTool.accumulator :=
  match unmatched_acc with
  | Some l => Some (l ++ toks)
  | None => None
  end.

(** The keys of a dict, in insertion order. *)
Definition dkeys (d : dict) : list pystr := map fst d.

(** A tokenization: segments free of separators, with one separator
    character between any two neighbours. *)
Inductive alternating : list pystr -> Prop :=
| alt_one (seg : pystr) :
    existsb is_sep seg = false ->
    alternating [seg]
| alt_more (seg : pystr) (c : char) (rest : list pystr) :
    existsb is_sep seg = false ->
    is_sep c = true ->
    alternating rest ->
    alternating (seg :: [c] :: rest).

(* ================================================================== *)
(** ** Notions for the column letters, the sheets and the login *)

(** The number a string of capitals denotes, each letter a digit from 1 to
    26 (A = 1, Z = 26) weighted by a power of 26. *)
Fixpoint letters_value (s : pystr) : Z :=
  match s with
  | [] => 0
  | ch :: s' =>
      (Z.of_N ch - 65 + 1) * 26 ^ Z.of_nat (length s') + letters_value s'
  end.

(** What the [.xls] loop reads in row [r], lines 177. *)
Definition xls_read (rs : sheet) (r_idx : Z) (r : nat) : pyval :=
  if (r_idx <? Z.of_nat (ncols rs))%Z then cell_value rs r r_idx
  else PyStr [].

(** [val is not None]. *)
Definition not_none (v : pyval) : bool :=
  match v with
  | PyNone => false
  | _ => true
  end.

(** The sum of a list of counts. *)
Definition total (counts : list nat) : nat := fold_right Nat.add 0 counts.

(** The row [r] of a sheet, as the list of its cell values. *)
Definition sheet_row (rs : sheet) (r : nat) : list pyval :=
  map (fun c => cell_value rs r (Z.of_nat c)) (seq 0 (ncols rs)).

(** A login request that carries exactly the configured credentials. *)
Definition good_login (cfg : WebTool.admin_config) (req : WebTool.request)
    : bool :=
  match req with
  | WebTool.Login true _ username password =>
      WebTool.equals_config (WebTool.form_get username)
        (WebTool.ADMIN_USERNAME cfg)
      && WebTool.equals_config (WebTool.form_get password)
           (WebTool.ADMIN_PASSWORD cfg)
  | _ => false
  end.

Definition is_logout (req : WebTool.request) : bool :=
  match req with
  | WebTool.Logout => true
  | _ => false
  end.

(** A response that hands out one of the protected pages. *)
Definition is_protected_page (resp : WebTool.response) : bool :=
  match resp with
  | WebTool.AdminPage | WebTool.SettingsPage | WebTool.FileDownload _ _ => true
  | _ => false
  end.

(* ================================================================== *)
(** ** The built-in operations on small inputs *)

Example re_split_mixed :
  re_split (lit "a&&|b") = [lit "a"; lit "&"; []; lit "&"; []; lit "|"; lit "b"].
Proof. reflexivity. Qed.

Example re_split_empty : re_split [] = [[]].
Proof. reflexivity. Qed.

Example split_dollars :
  split c_dollar (lit "$a$$") = [[]; lit "a"; []; []].
Proof. reflexivity. Qed.

Example join_two_empty : join [c_dollar] [[]; []] = lit "$".
Proof. reflexivity. Qed.

Example strip_spaces :
  strip unicode_isspace ([0x1C; 0x20]%N ++ lit "a" ++ [0x20; 0x3000]%N) = lit "a".
Proof. reflexivity. Qed.

Example str_of_negative : str_of_int (-12) = lit "-12".
Proof. reflexivity. Qed.

Example str_of_zero : str_of_int 0 = lit "0".
Proof. reflexivity. Qed.

Example digits_of_superscripts :
  MapItems.digits_only unicode_isdigit ([0xB2]%N ++ lit "a7" ++ [0xBD]%N)
  = [0xB2]%N ++ lit "7".
Proof. reflexivity. Qed.

(** An id that comes back in a later row keeps its place in the dict. *)
Example dict_set_keeps_place :
  dict_set (dict_set (dict_set [] (lit "a1") (lit "X")) (lit "1a") (lit "Y"))
    (lit "a1") (lit "Z")
  = [(lit "a1", lit "Z"); (lit "1a", lit "Y")].
Proof. reflexivity. Qed.

(** The fallback examples of the specification. *)
Example fallback_digits_index :
  MapItems.map_token unicode_isdigit (lit "6704") [] [(lit "6704", lit "Widget")]
  = (lit "Widget", true).
Proof. reflexivity. Qed.

Example fallback_66_prefix :
  MapItems.map_token unicode_isdigit (lit "6704") [] [(lit "66704", lit "Widget")]
  = (lit "Widget", true).
Proof. reflexivity. Qed.

Example rewrite_bar_separated (float_str : spec_float -> pystr) :
  MapItems.transform_cell unicode_isdigit unicode_isspace float_str
    (PyStr (lit "101|202")) false ([0x7269; 0x54C1]%N ++ lit "=")
    [(lit "101", lit "Sword"); (lit "202", lit "Shield")]
    [(lit "101", lit "Sword"); (lit "202", lit "Shield")]
  = (PyStr (lit "Sword|Shield"), 0).
Proof. vm_compute. reflexivity. Qed.

Example rewrite_integral_float (float_str : spec_float -> pystr) :
  MapItems.transform_cell unicode_isdigit unicode_isspace float_str
    (PyFloat (S754_finite false 101 0)) false []
    [(lit "101", lit "Sword")] [(lit "101", lit "Sword")]
  = (PyStr (lit "Sword"), 0).
Proof. vm_compute. reflexivity. Qed.

(* ================================================================== *)
(** ** Strings: equality, splitting and joining *)

Lemma str_eqb_eq (a b : pystr) : str_eqb a b = true <-> a = b.
Proof.
  revert b; induction a as [|x a IH]; intros [|y b]; simpl;
    try (split; (reflexivity || discriminate)).
  rewrite andb_true_iff, N.eqb_eq, IH.
  split; [intros [-> ->]; reflexivity | intros H; inversion H; auto].
Qed.

Lemma str_eqb_refl (a : pystr) : str_eqb a a = true.
Proof. apply str_eqb_eq; reflexivity. Qed.

Lemma str_eqb_neq (a b : pystr) : str_eqb a b = false <-> a <> b.
Proof.
  rewrite <- str_eqb_eq. destruct (str_eqb a b); split; congruence.
Qed.

Lemma nonempty_true (s : pystr) : nonempty s = true <-> s <> [].
Proof. destruct s; simpl; split; congruence. Qed.

Lemma nonempty_app_l (a b : pystr) : nonempty a = true -> nonempty (a ++ b) = true.
Proof. destruct a; simpl; congruence. Qed.

Lemma split_not_nil (c : char) (s : pystr) : split c s <> [].
Proof.
  induction s as [|x s IH]; simpl; [discriminate|].
  destruct (N.eqb x c); [discriminate|].
  destruct (split c s); [congruence | discriminate].
Qed.

Lemma split_free_piece (c : char) (p : pystr) :
  free c p = true -> split c p = [p].
Proof.
  induction p as [|x p IH]; simpl; [reflexivity|].
  rewrite andb_true_iff, negb_true_iff. intros [Hx Hp].
  rewrite Hx, (IH Hp). reflexivity.
Qed.

Lemma split_app_sep (c : char) (p s : pystr) :
  free c p = true -> split c (p ++ c :: s) = p :: split c s.
Proof.
  induction p as [|x p IH]; simpl.
  - intros _. rewrite N.eqb_refl. reflexivity.
  - rewrite andb_true_iff, negb_true_iff. intros [Hx Hp].
    rewrite Hx, (IH Hp). reflexivity.
Qed.

Lemma join_cons (sep p : pystr) (rest : list pystr) :
  join sep (p :: rest) =
  p ++ match rest with [] => [] | _ :: _ => sep ++ join sep rest end.
Proof. destruct rest; simpl; [rewrite app_nil_r|]; reflexivity. Qed.

Lemma split_join (c : char) (parts : list pystr) :
  parts <> [] ->
  Forall (fun p => free c p = true) parts ->
  split c (join [c] parts) = parts.
Proof.
  induction parts as [|p rest IH]; [congruence|].
  intros _ H. inversion H as [|? ? Hp Hrest]; subst.
  destruct rest as [|q rest].
  - simpl. apply split_free_piece; assumption.
  - change (join [c] (p :: q :: rest)) with (p ++ c :: join [c] (q :: rest)).
    rewrite split_app_sep by assumption.
    rewrite IH; [reflexivity | discriminate | assumption].
Qed.

Lemma join_split (c : char) (s : pystr) : join [c] (split c s) = s.
Proof.
  induction s as [|x s IH]; simpl; [reflexivity|].
  destruct (N.eqb x c) eqn:E.
  - apply N.eqb_eq in E; subst x.
    pose proof (split_not_nil c s) as Hn.
    destruct (split c s) as [|q rest]; [congruence|].
    change (join [c] ([] :: q :: rest)) with (c :: join [c] (q :: rest)).
    rewrite IH. reflexivity.
  - pose proof (split_not_nil c s) as Hn.
    destruct (split c s) as [|q rest]; [congruence|].
    rewrite join_cons. rewrite join_cons in IH.
    simpl. f_equal. exact IH.
Qed.

Lemma split_pieces_free (c : char) (s : pystr) :
  Forall (fun p => free c p = true) (split c s).
Proof.
  induction s as [|x s IH]; simpl.
  - constructor; [reflexivity | constructor].
  - destruct (N.eqb x c) eqn:E.
    + constructor; [reflexivity | assumption].
    + destruct (split c s) as [|q rest]; [repeat constructor; simpl; rewrite E; reflexivity|].
      inversion IH; subst. constructor; [|assumption].
      simpl. rewrite E. simpl. assumption.
Qed.

(** A property of all characters of [s] holds of all characters of each
    piece of [s]. *)
Lemma split_pieces_forallb (P : char -> bool) (c : char) (s : pystr) :
  forallb P s = true ->
  Forall (fun p => forallb P p = true) (split c s).
Proof.
  induction s as [|x s IH]; simpl.
  - intros _. constructor; [reflexivity | constructor].
  - rewrite andb_true_iff. intros [Hx Hs]. specialize (IH Hs).
    destruct (N.eqb x c).
    + constructor; [reflexivity | assumption].
    + destruct (split c s) as [|q rest]; [repeat constructor; simpl; rewrite Hx; reflexivity|].
      inversion IH; subst. constructor; [|assumption].
      simpl. rewrite Hx. assumption.
Qed.

Lemma join_forallb (P : char -> bool) (sep : pystr) (parts : list pystr) :
  forallb P sep = true ->
  Forall (fun p => forallb P p = true) parts ->
  forallb P (join sep parts) = true.
Proof.
  intros Hsep. induction parts as [|p rest IH]; [reflexivity|].
  intros H. inversion H; subst. rewrite join_cons, forallb_app.
  apply andb_true_iff; split; [assumption|].
  destruct rest; [reflexivity|].
  rewrite forallb_app, Hsep. simpl. apply IH. assumption.
Qed.

Lemma join_nonempty (sep : pystr) (parts : list pystr) :
  parts <> [] ->
  Forall (fun p => nonempty p = true) parts ->
  nonempty (join sep parts) = true.
Proof.
  destruct parts as [|p rest]; [congruence|].
  intros _ H. inversion H; subst. rewrite join_cons.
  apply nonempty_app_l. assumption.
Qed.

Lemma filter_nonempty_id (l : list pystr) :
  Forall (fun p => nonempty p = true) l -> filter nonempty l = l.
Proof.
  induction 1 as [|p l Hp _ IH]; simpl; [reflexivity|].
  rewrite Hp, IH. reflexivity.
Qed.

(* ================================================================== *)
(** ** Tokenization on [&] and [|] *)

Lemma re_split_not_nil (s : pystr) : re_split s <> [].
Proof.
  induction s as [|x s IH]; simpl; [discriminate|].
  destruct (is_sep x); [discriminate|].
  destruct (re_split s); [congruence | discriminate].
Qed.

Lemma concat_re_split (s : pystr) : concat (re_split s) = s.
Proof.
  induction s as [|x s IH]; simpl; [reflexivity|].
  destruct (is_sep x).
  - simpl. rewrite IH. reflexivity.
  - pose proof (re_split_not_nil s) as Hn.
    destruct (re_split s) as [|q rest]; [congruence|].
    simpl in *. rewrite IH. reflexivity.
Qed.

Lemma re_split_alternating (s : pystr) : alternating (re_split s).
Proof.
  induction s as [|x s IH]; simpl.
  - constructor. reflexivity.
  - destruct (is_sep x) eqn:E.
    + constructor; [reflexivity | assumption | assumption].
    + inversion IH as [seg Hseg Heq | seg c rest Hseg Hc Hrest Heq].
      * constructor. simpl. rewrite E. assumption.
      * constructor; [simpl; rewrite E |..]; assumption.
Qed.

Lemma re_split_piece (p : pystr) :
  existsb is_sep p = false -> re_split p = [p].
Proof.
  induction p as [|x p IH]; simpl; [reflexivity|].
  rewrite orb_false_iff. intros [Hx Hp]. rewrite Hx, (IH Hp). reflexivity.
Qed.

Lemma re_split_app_sep (p : pystr) (c : char) (s : pystr) :
  existsb is_sep p = false -> is_sep c = true ->
  re_split (p ++ c :: s) = p :: [c] :: re_split s.
Proof.
  intros Hp Hc. induction p as [|x p IH]; simpl.
  - rewrite Hc. reflexivity.
  - simpl in Hp. apply orb_false_iff in Hp. destruct Hp as [Hx Hp].
    rewrite Hx, (IH Hp). reflexivity.
Qed.

Lemma re_split_concat (l : list pystr) :
  alternating l -> re_split (concat l) = l.
Proof.
  induction 1 as [seg Hseg | seg c rest Hseg Hc Hrest IH]; simpl.
  - rewrite app_nil_r. apply re_split_piece. assumption.
  - rewrite re_split_app_sep by assumption. rewrite IH. reflexivity.
Qed.

Lemma in_seps_sep (c : char) : in_seps [c] = is_sep c.
Proof.
  unfold in_seps, is_sep. simpl. rewrite !andb_true_r. reflexivity.
Qed.

Lemma in_seps_piece (p : pystr) : existsb is_sep p = false -> in_seps p = false.
Proof.
  intros H. destruct p as [|x [|y p]].
  - reflexivity.
  - rewrite in_seps_sep. simpl in H. rewrite orb_false_r in H. exact H.
  - unfold in_seps. simpl. rewrite !andb_false_r. reflexivity.
Qed.

Lemma plain_sep_free (s : pystr) : plain s = true -> existsb is_sep s = false.
Proof.
  unfold plain, plain_char.
  induction s as [|x s IH]; simpl; [reflexivity|].
  rewrite !andb_true_iff, !negb_true_iff. intros [[[Hx _] _] Hs].
  rewrite Hx, (IH Hs). reflexivity.
Qed.

Lemma plain_free_dollar (s : pystr) : plain s = true -> free c_dollar s = true.
Proof.
  unfold plain, plain_char, free.
  induction s as [|x s IH]; simpl; [reflexivity|].
  rewrite !andb_true_iff. intros [[[_ Hx] _] Hs]. auto.
Qed.

Lemma plain_free_hyphen (s : pystr) : plain s = true -> free c_hyphen s = true.
Proof.
  unfold plain, plain_char, free.
  induction s as [|x s IH]; simpl; [reflexivity|].
  rewrite !andb_true_iff. intros [[_ Hx] Hs]. auto.
Qed.

(** [existsb is_sep s = false] as a [forallb], the form the lemmas on
    pieces take. *)
Lemma sep_free_forallb (s : pystr) :
  existsb is_sep s = false <-> forallb (fun c => negb (is_sep c)) s = true.
Proof.
  induction s as [|x s IH]; simpl; [tauto|].
  rewrite orb_false_iff, andb_true_iff, negb_true_iff, IH. tauto.
Qed.

(* ================================================================== *)
(** ** Dicts *)

Lemma dict_get_set_same (d : dict) (k v : pystr) :
  dict_get (dict_set d k v) k = Some v.
Proof.
  induction d as [|[k' v'] d IH]; simpl.
  - rewrite str_eqb_refl. reflexivity.
  - destruct (str_eqb k' k) eqn:E; simpl; rewrite E; [reflexivity | exact IH].
Qed.

Lemma dict_get_set_other (d : dict) (k v k0 : pystr) :
  k <> k0 -> dict_get (dict_set d k v) k0 = dict_get d k0.
Proof.
  intros Hne. induction d as [|[k' v'] d IH]; simpl.
  - apply str_eqb_neq in Hne. rewrite Hne. reflexivity.
  - destruct (str_eqb k' k) eqn:E; simpl.
    + apply str_eqb_eq in E; subst k'.
      apply str_eqb_neq in Hne. rewrite Hne. reflexivity.
    + rewrite IH. reflexivity.
Qed.

Lemma dict_get_none (d : dict) (k : pystr) :
  ~ In k (dkeys d) -> dict_get d k = None.
Proof.
  induction d as [|[k' v'] d IH]; simpl; [reflexivity|].
  intros H. destruct (str_eqb k' k) eqn:E.
  - apply str_eqb_eq in E. tauto.
  - apply IH. tauto.
Qed.

Lemma dict_set_new (d : dict) (k v : pystr) :
  ~ In k (dkeys d) -> dict_set d k v = d ++ [(k, v)].
Proof.
  induction d as [|[k' v'] d IH]; simpl; [reflexivity|].
  intros H. destruct (str_eqb k' k) eqn:E.
  - apply str_eqb_eq in E. tauto.
  - rewrite IH by tauto. reflexivity.
Qed.

Lemma dkeys_set_old (d : dict) (k v : pystr) :
  In k (dkeys d) -> dkeys (dict_set d k v) = dkeys d.
Proof.
  induction d as [|[k' v'] d IH]; simpl; [tauto|].
  intros H. destruct (str_eqb k' k) eqn:E; simpl; [reflexivity|].
  f_equal. apply IH. destruct H as [H|H]; [|assumption].
  apply str_eqb_neq in E. congruence.
Qed.

Lemma dkeys_set (d : dict) (k v : pystr) :
  dkeys (dict_set d k v) = dkeys d \/
  (~ In k (dkeys d) /\ dkeys (dict_set d k v) = dkeys d ++ [k]).
Proof.
  destruct (in_dec (list_eq_dec N.eq_dec) k (dkeys d)) as [Hin|Hout].
  - left. apply dkeys_set_old. assumption.
  - right. split; [assumption|]. rewrite dict_set_new by assumption.
    unfold dkeys. rewrite map_app. reflexivity.
Qed.

Lemma dict_set_nodup (d : dict) (k v : pystr) :
  NoDup (dkeys d) -> NoDup (dkeys (dict_set d k v)).
Proof.
  intros Hd. destruct (dkeys_set d k v) as [-> | [Hout ->]]; [assumption|].
  apply NoDup_app; [assumption | repeat constructor; simpl; tauto |].
  intros x Hx [<-|[]]. contradiction.
Qed.

Lemma lookup_nonempty_some (d : dict) (k name : pystr) :
  lookup_nonempty d k = Some name -> nonempty name = true.
Proof.
  unfold lookup_nonempty. destruct (dict_get d k) as [v|]; [|discriminate].
  destruct (nonempty v) eqn:E; [|discriminate].
  intros H; inversion H; subst; assumption.
Qed.

Lemma lookup_drop_empty (d : dict) (k : pystr) :
  NoDup (dkeys d) ->
  lookup_nonempty (drop_empty d) k = lookup_nonempty d k.
Proof.
  unfold lookup_nonempty.
  induction d as [|[k' v'] d IH]; simpl; [reflexivity|].
  intros Hnd. inversion Hnd as [|? ? Hout Hd]; subst.
  destruct (nonempty v') eqn:Ev; simpl.
  - destruct (str_eqb k' k); [rewrite Ev; reflexivity | apply IH; assumption].
  - destruct (str_eqb k' k) eqn:E.
    + apply str_eqb_eq in E; subst k'. rewrite Ev.
      rewrite dict_get_none; [reflexivity|].
      intros Hin. apply Hout. unfold dkeys, drop_empty in *.
      apply in_map_iff in Hin. destruct Hin as [[k1 v1] [Hk Hin]].
      apply filter_In in Hin. apply in_map_iff. exists (k1, v1). tauto.
    + apply IH; assumption.
Qed.

(* ================================================================== *)
(** ** Resolution of one token *)

Section Resolution.

Variable isdigit : char -> bool.

Lemma lookup_nonempty_iff (d : dict) (k name : pystr) :
  lookup_nonempty d k = Some name <-> dict_get d k = Some name /\ name <> [].
Proof.
  unfold lookup_nonempty. destruct (dict_get d k) as [v|].
  - destruct v as [|x v]; simpl; split.
    + discriminate.
    + intros [H Hne]. inversion H; subst. congruence.
    + intros H; inversion H; subst. split; [reflexivity | discriminate].
    + intros [H _]. exact H.
  - split; [discriminate | intros [H _]; discriminate].
Qed.

Lemma map_token_loop_result (cs : list pystr) (token : pystr) (e d : dict)
    (name : pystr) (hit : bool) :
  MapItems.map_token_loop cs token e d = (name, hit) ->
  (hit = true /\ nonempty name = true) \/ (hit = false /\ name = token).
Proof.
  induction cs as [|c cs IH]; simpl.
  - intros H; inversion H; subst; auto.
  - destruct (lookup_nonempty e c) as [n1|] eqn:E1.
    + intros H; inversion H; subst. left; split; [reflexivity|].
      eapply lookup_nonempty_some; eassumption.
    + destruct (lookup_nonempty d c) as [n2|] eqn:E2; [|exact IH].
      intros H; inversion H; subst. left; split; [reflexivity|].
      eapply lookup_nonempty_some; eassumption.
Qed.

Lemma map_token_result (token : pystr) (e d : dict) (name : pystr) (hit : bool) :
  MapItems.map_token isdigit token e d = (name, hit) ->
  (hit = true /\ nonempty name = true) \/ (hit = false /\ name = token).
Proof.
  unfold MapItems.map_token.
  destruct (lookup_nonempty e token) as [n1|] eqn:E1.
  - intros H; inversion H; subst. left; split; [reflexivity|].
    eapply lookup_nonempty_some; eassumption.
  - apply map_token_loop_result.
Qed.

Lemma miss_keeps_token (e d : dict) (t : pystr) :
  is_miss isdigit e d t = true -> mapped_name isdigit e d t = t.
Proof.
  unfold is_miss, mapped_name.
  destruct (MapItems.map_token isdigit t e d) as [name hit] eqn:E.
  destruct (map_token_result _ _ _ E) as [[-> _] | [_ ->]]; simpl;
    [discriminate | reflexivity].
Qed.

Lemma hit_name_nonempty (e d : dict) (t : pystr) :
  is_miss isdigit e d t = false -> nonempty (mapped_name isdigit e d t) = true.
Proof.
  unfold is_miss, mapped_name.
  destruct (MapItems.map_token isdigit t e d) as [name hit] eqn:E.
  destruct (map_token_result _ _ _ E) as [[-> Hn] | [-> _]]; simpl;
    [intros _; exact Hn | discriminate].
Qed.

(** The two files' [map_token] loops and functions are the same function. *)
Lemma map_token_loop_same (cs : list pystr) (token : pystr) (e d : dict) :
  WebTool.map_token_loop cs token e d = MapItems.map_token_loop cs token e d.
Proof.
  induction cs as [|c cs IH]; simpl; [reflexivity|].
  rewrite IH. reflexivity.
Qed.

Lemma map_token_same (token : pystr) (e d : dict) :
  WebTool.map_token isdigit token e d = MapItems.map_token isdigit token e d.
Proof.
  unfold WebTool.map_token, MapItems.map_token.
  destruct (lookup_nonempty e token); [reflexivity|].
  apply map_token_loop_same.
Qed.

(** The inner loop: every token's slot takes what [map_token] returns, and
    the count grows by the number of misses. *)
Lemma map_id_tokens_spec (toks : list pystr) (e d : dict)
    (mapped : list pystr) (n : nat) :
  MapItems.map_id_tokens isdigit toks e d mapped n =
  (mapped ++ map (mapped_name isdigit e d) toks,
   n + length (filter (is_miss isdigit e d) toks)).
Proof.
  revert mapped n. induction toks as [|t toks IH]; intros mapped n; simpl.
  - rewrite app_nil_r, Nat.add_0_r. reflexivity.
  - unfold mapped_name at 1, is_miss at 1.
    destruct (MapItems.map_token isdigit t e d) as [name hit].
    rewrite IH. simpl. rewrite <- app_assoc. simpl.
    destruct hit; simpl; f_equal; lia.
Qed.

End Resolution.

(* ================================================================== *)
(** ** The loops of [transform_cell] *)

Section Rewriting.

Variable isdigit : char -> bool.
Variable isspace : char -> bool.
Variable float_str : spec_float -> pystr.

Lemma transform_segment_spec (seg : pystr) (e d : dict) (n : nat) :
  MapItems.transform_segment isdigit seg e d n =
  (new_segment isdigit e d seg,
   n + length (filter (is_miss isdigit e d) (seg_tokens seg))).
Proof.
  unfold MapItems.transform_segment, new_segment.
  fold (seg_ids seg). fold (seg_suffixes seg). fold (seg_tokens seg).
  rewrite map_id_tokens_spec. simpl. reflexivity.
Qed.

Lemma rewrite_element_segment (e d : dict) (tk : pystr) :
  in_seps tk = false ->
  rewrite_element isdigit e d tk = new_segment isdigit e d tk.
Proof.
  intros H. unfold rewrite_element. rewrite H, transform_segment_spec.
  reflexivity.
Qed.

Lemma transform_tokens_spec (tokens : list pystr) (e d : dict)
    (out : list pystr) (n : nat) :
  let r := MapItems.transform_tokens isdigit tokens e d out n in
  concat (fst r) = concat out ++ concat (map (rewrite_element isdigit e d) tokens)
  /\ snd r = n + length (filter (is_miss isdigit e d)
                           (flat_map seg_tokens (filter is_segment tokens))).
Proof.
  revert out n. induction tokens as [|tk tokens IH]; intros out n; simpl.
  - rewrite app_nil_r, Nat.add_0_r. auto.
  - unfold is_segment at 1, rewrite_element at 1.
    destruct (in_seps tk) eqn:Es; simpl.
    + destruct (IH (out ++ [tk]) n) as [H1 H2]. rewrite H1, H2.
      rewrite concat_app. simpl. rewrite app_nil_r, <- app_assoc. auto.
    + destruct (str_eqb tk []) eqn:Ee.
      * apply str_eqb_eq in Ee; subst tk. simpl.
        destruct (IH out n) as [H1 H2]. auto.
      * assert (Hne : nonempty tk = true).
        { apply nonempty_true. apply str_eqb_neq. assumption. }
        rewrite Hne. rewrite !transform_segment_spec. simpl.
        match goal with
        | |- context [MapItems.transform_tokens _ _ _ _ ?o ?m] =>
            destruct (IH o m) as [H1 H2]
        end.
        rewrite H1, H2. rewrite concat_app. simpl.
        rewrite app_nil_r, <- app_assoc, filter_app, length_app.
        split; [reflexivity | lia].
Qed.

(** [transform_cell] on a cell that is not falsy, in one equation. *)
Lemma transform_cell_spec (text : pyval) (keep_prefix : bool) (prefix : pystr)
    (e d : dict) :
  truthy text = true ->
  let body := cell_body isspace float_str text prefix in
  MapItems.transform_cell isdigit isspace float_str text keep_prefix prefix e d =
  (PyStr (with_prefix keep_prefix prefix
            (concat (map (rewrite_element isdigit e d) (re_split body)))),
   length (filter (is_miss isdigit e d) (id_tokens_of body))).
Proof.
  intros Ht body. unfold MapItems.transform_cell. rewrite Ht. simpl.
  fold (cell_body isspace float_str text prefix). fold body.
  pose proof (transform_tokens_spec (re_split body) e d [] 0) as H.
  destruct (MapItems.transform_tokens isdigit (re_split body) e d [] 0)
    as [out_parts unmatched].
  simpl in H. destruct H as [H1 H2].
  unfold join_empty, with_prefix. rewrite H1, H2. reflexivity.
Qed.

End Rewriting.

(* ================================================================== *)
(** ** The two files side by side *)

Section TwoFiles.

Variable isdigit : char -> bool.
Variable isspace : char -> bool.
Variable float_str : spec_float -> pystr.

Lemma acc_extend_nil (acc : WebTool.accumulator) : acc_extend acc [] = acc.
Proof. destruct acc; simpl; [rewrite app_nil_r|]; reflexivity. Qed.

Lemma acc_extend_app (acc : WebTool.accumulator) (a b : list pystr) :
  acc_extend (acc_extend acc a) b = acc_extend acc (a ++ b).
Proof. destruct acc; simpl; [rewrite app_assoc|]; reflexivity. Qed.

Lemma web_map_id_tokens (toks : list pystr) (e d : dict)
    (mapped : list pystr) (n : nat) (acc : WebTool.accumulator) :
  WebTool.map_id_tokens isdigit toks e d mapped n acc =
  (MapItems.map_id_tokens isdigit toks e d mapped n,
   acc_extend acc (filter (is_miss isdigit e d) toks)).
Proof.
  revert mapped n acc.
  induction toks as [|t toks IH]; intros mapped n acc; simpl.
  - rewrite acc_extend_nil. reflexivity.
  - rewrite map_token_same. unfold is_miss at 1.
    destruct (MapItems.map_token isdigit t e d) as [name hit].
    destruct hit; simpl; rewrite IH; [reflexivity|].
    f_equal. destruct acc; simpl; [rewrite <- app_assoc|]; reflexivity.
Qed.

Lemma web_transform_segment (seg : pystr) (e d : dict) (n : nat)
    (acc : WebTool.accumulator) :
  WebTool.transform_segment isdigit seg e d n acc =
  (MapItems.transform_segment isdigit seg e d n,
   acc_extend acc (filter (is_miss isdigit e d) (seg_tokens seg))).
Proof.
  unfold WebTool.transform_segment, MapItems.transform_segment.
  rewrite web_map_id_tokens.
  fold (seg_ids seg). fold (seg_tokens seg).
  destruct (MapItems.map_id_tokens isdigit (seg_tokens seg) e d [] n)
    as [mapped_tokens unmatched].
  reflexivity.
Qed.

Lemma web_transform_tokens (tokens : list pystr) (e d : dict)
    (out : list pystr) (n : nat) (acc : WebTool.accumulator) :
  WebTool.transform_tokens isdigit tokens e d out n acc =
  (MapItems.transform_tokens isdigit tokens e d out n,
   acc_extend acc (filter (is_miss isdigit e d)
                     (flat_map seg_tokens (filter is_segment tokens)))).
Proof.
  revert out n acc.
  induction tokens as [|tk tokens IH]; intros out n acc; simpl.
  - rewrite acc_extend_nil. reflexivity.
  - unfold is_segment at 1.
    destruct (in_seps tk) eqn:Es; simpl; [apply IH|].
    destruct (str_eqb tk []) eqn:Ee.
    + apply str_eqb_eq in Ee; subst tk. simpl. apply IH.
    + assert (Hne : nonempty tk = true).
      { apply nonempty_true. apply str_eqb_neq. assumption. }
      rewrite Hne, web_transform_segment. simpl.
      destruct (MapItems.transform_segment isdigit tk e d n)
        as [new_seg unmatched].
      rewrite IH, acc_extend_app, filter_app. reflexivity.
Qed.

(** The web tool's [transform_cell] returns what the command-line tool's
    does, and leaves in the accumulator the missed tokens, in order. *)
Lemma web_transform_cell (text : pyval) (keep_prefix : bool) (prefix : pystr)
    (e d : dict) (acc : WebTool.accumulator) :
  WebTool.transform_cell isdigit isspace float_str text keep_prefix prefix e d acc =
  (MapItems.transform_cell isdigit isspace float_str text keep_prefix prefix e d,
   if truthy text
   then acc_extend acc
          (filter (is_miss isdigit e d)
             (id_tokens_of (cell_body isspace float_str text prefix)))
   else acc).
Proof.
  unfold WebTool.transform_cell, MapItems.transform_cell.
  destruct (truthy text); simpl; [|reflexivity].
  change (WebTool.to_text float_str text) with (MapItems.to_text float_str text).
  fold (cell_body isspace float_str text prefix).
  rewrite web_transform_tokens.
  destruct (MapItems.transform_tokens isdigit
              (re_split (cell_body isspace float_str text prefix)) e d [] 0)
    as [out_parts unmatched].
  reflexivity.
Qed.

(** C8: for every input, [transform_cell] of [webtool/app.py] called without
    an accumulator returns the pair that [transform_cell] of [map_items.py]
    returns (and the absent accumulator stays absent), and the two
    [map_token] functions agree on every token. *)
Theorem C8_two_files_agree (text : pyval) (keep_prefix : bool)
    (prefix : pystr) (id_to_name id_to_name_digits : dict) :
  WebTool.transform_cell isdigit isspace float_str text keep_prefix prefix
    id_to_name id_to_name_digits None =
  (MapItems.transform_cell isdigit isspace float_str text keep_prefix prefix
     id_to_name id_to_name_digits, None)
  /\ forall token : pystr,
       WebTool.map_token isdigit token id_to_name id_to_name_digits =
       MapItems.map_token isdigit token id_to_name id_to_name_digits.
Proof.
  split.
  - rewrite web_transform_cell. destruct (truthy text); reflexivity.
  - intros token. apply map_token_same.
Qed.

(** A falsy cell is handed back as it is, by both files. *)
Lemma falsy_cell_unchanged (text : pyval) (keep_prefix : bool)
    (prefix : pystr) (e d : dict) :
  truthy text = false ->
  MapItems.transform_cell isdigit isspace float_str text keep_prefix prefix e d
  = (text, 0)
  /\ forall acc,
       WebTool.transform_cell isdigit isspace float_str text keep_prefix
         prefix e d acc = ((text, 0), acc).
Proof.
  intros H. unfold MapItems.transform_cell, WebTool.transform_cell.
  rewrite H. simpl. auto.
Qed.

(** C10: for each of the falsy cell values [''], [None], [0] and [0.0],
    [transform_cell] (of either file) returns that very value and the count
    0, whatever [keep_prefix] and [prefix] are: the value is not turned into
    text, not trimmed, and gets no prefix. *)
Theorem C10_falsy_cell_returned_as_is (keep_prefix : bool) (prefix : pystr)
    (id_to_name id_to_name_digits : dict) :
  Forall
    (fun v : pyval =>
       MapItems.transform_cell isdigit isspace float_str v keep_prefix prefix
         id_to_name id_to_name_digits = (v, 0)
       /\ forall acc,
            WebTool.transform_cell isdigit isspace float_str v keep_prefix
              prefix id_to_name id_to_name_digits acc = ((v, 0), acc))
    [PyStr []; PyNone; PyInt 0; PyFloat (S754_zero false)].
Proof.
  repeat constructor; apply falsy_cell_unchanged; reflexivity.
Qed.

End TwoFiles.

(* ================================================================== *)
(** ** The fallback chain of [map_token] *)

(** C1: [map_token] (of either file) follows the fallback chain exactly. A
    token that is a key of the exact index with a non-empty value resolves
    to that name. Otherwise, with [d] its digits-only form: an empty [d]
    gives the token back unmatched; else the candidates [d], then (only for
    [d] of length 3 or 4) ["66" + d], then ["6" + d] are probed in this
    order, each in the exact index before the digits index, and the first
    non-empty name found is returned with [true]; when no probe hits, the
    token comes back unchanged with [false]. *)
Theorem C1_map_token_fallback (isdigit : char -> bool) (token : pystr)
    (exact digits : dict) :
  let d := MapItems.digits_only isdigit token in
  let result :=
    match lookup_nonempty exact token with
    | Some name => (name, true)
    | None =>
        match d with
        | [] => (token, false)
        | _ :: _ =>
            match probe exact digits d with
            | Some name => (name, true)
            | None =>
                if (length d =? 3) || (length d =? 4) then
                  match probe exact digits (lit "66" ++ d) with
                  | Some name => (name, true)
                  | None =>
                      match probe exact digits (lit "6" ++ d) with
                      | Some name => (name, true)
                      | None => (token, false)
                      end
                  end
                else (token, false)
            end
        end
    end in
  MapItems.map_token isdigit token exact digits = result
  /\ WebTool.map_token isdigit token exact digits = result.
Proof.
  intros d result.
  assert (H : MapItems.map_token isdigit token exact digits = result).
  { unfold result, MapItems.map_token, probe. fold d.
    destruct (lookup_nonempty exact token) as [name|]; [reflexivity|].
    destruct d as [|x d']; [reflexivity|].
    cbn [nonempty app MapItems.map_token_loop].
    destruct (lookup_nonempty exact (x :: d')) as [n1|]; [reflexivity|].
    destruct (lookup_nonempty digits (x :: d')) as [n2|]; [reflexivity|].
    destruct ((length (x :: d') =? 3) || (length (x :: d') =? 4));
      [|reflexivity].
    cbn [MapItems.map_token_loop].
    destruct (lookup_nonempty exact (lit "66" ++ x :: d')) as [n3|];
      [reflexivity|].
    destruct (lookup_nonempty digits (lit "66" ++ x :: d')) as [n4|];
      [reflexivity|].
    destruct (lookup_nonempty exact (lit "6" ++ x :: d')) as [n5|];
      [reflexivity|].
    destruct (lookup_nonempty digits (lit "6" ++ x :: d')) as [n6|];
      reflexivity. }
  split; [exact H | rewrite map_token_same; exact H].
Qed.

(** A joined list is not empty when one of its parts is not. *)
Lemma join_with_nonempty_part (sep x : pystr) (a b : list pystr) :
  x <> [] -> join sep (a ++ x :: b) <> [].
Proof.
  intros Hx. induction a as [|p a IH]; cbn [app]; rewrite join_cons.
  - destruct x; [congruence | discriminate].
  - destruct (a ++ x :: b) eqn:E; [destruct a; discriminate|].
    intros H. apply app_eq_nil in H. destruct H as [_ H].
    apply app_eq_nil in H. destruct H as [_ H]. exact (IH H).
Qed.

(** C9: whenever [map_token] returns [matched = true] the returned name is
    not the empty string (in either file). So the slot of a resolved token
    holds that non-empty name in the output. In the inner loop the slot of
    the token in [mapped_tokens] holds the name, whatever stands before and
    after it. For a segment with this token among its identifier tokens,
    [transform_segment] returns the names of the tokens joined with [-],
    this name in the token's place, followed by the segment's suffix
    parts; that text is not empty. And for a cell whose tokenization holds
    the segment, [transform_cell] returns that text between the rewritten
    elements before and after the segment, behind the prefix when it is
    kept. The functions of [webtool/app.py] return the same texts,
    whatever accumulator they are given. *)
Theorem C9_hit_name_nonempty (isdigit : char -> bool) (token : pystr)
    (id_to_name id_to_name_digits : dict) (name : pystr) :
  MapItems.map_token isdigit token id_to_name id_to_name_digits = (name, true) ->
  name <> []
  /\ WebTool.map_token isdigit token id_to_name id_to_name_digits = (name, true)
  /\ (forall (before after mapped : list pystr) (unmatched : nat),
        fst (MapItems.map_id_tokens isdigit (before ++ token :: after)
               id_to_name id_to_name_digits mapped unmatched)
        = mapped
          ++ map (mapped_name isdigit id_to_name id_to_name_digits) before
          ++ name
             :: map (mapped_name isdigit id_to_name id_to_name_digits) after)
  /\ forall (seg : pystr) (before after : list pystr),
       seg_tokens seg = before ++ token :: after ->
       let new_seg :=
         join [c_hyphen]
           (map (mapped_name isdigit id_to_name id_to_name_digits) before
            ++ name
               :: map (mapped_name isdigit id_to_name id_to_name_digits) after)
         ++ match seg_suffixes seg with
            | _ :: _ => [c_dollar] ++ join [c_dollar] (seg_suffixes seg)
            | [] => []
            end in
       new_seg <> []
       /\ (forall unmatched : nat,
             fst (MapItems.transform_segment isdigit seg id_to_name
                    id_to_name_digits unmatched) = new_seg)
       /\ (forall (unmatched : nat) (acc : WebTool.accumulator),
             fst (fst (WebTool.transform_segment isdigit seg id_to_name
                         id_to_name_digits unmatched acc)) = new_seg)
       /\ forall (isspace : char -> bool) (float_str : spec_float -> pystr)
                 (text : pyval) (keep_prefix : bool) (prefix : pystr)
                 (pre post : list pystr),
            truthy text = true ->
            re_split (cell_body isspace float_str text prefix)
            = pre ++ seg :: post ->
            in_seps seg = false ->
            let rewritten :=
              map (rewrite_element isdigit id_to_name id_to_name_digits) in
            let out :=
              PyStr (with_prefix keep_prefix prefix
                       (List.concat (rewritten pre) ++ new_seg
                        ++ List.concat (rewritten post))) in
            fst (MapItems.transform_cell isdigit isspace float_str text
                   keep_prefix prefix id_to_name id_to_name_digits) = out
            /\ forall acc : WebTool.accumulator,
                 fst (fst (WebTool.transform_cell isdigit isspace float_str
                             text keep_prefix prefix id_to_name
                             id_to_name_digits acc)) = out.
Proof.
  intros H.
  assert (Hname : name <> []).
  { destruct (map_token_result _ _ _ _ H) as [[_ Hn] | [Hf _]];
      [apply nonempty_true; exact Hn | discriminate]. }
  split; [exact Hname|]. split; [rewrite map_token_same; exact H|].
  split.
  - intros before after mapped unmatched.
    rewrite map_id_tokens_spec. simpl. rewrite map_app. simpl.
    unfold mapped_name at 2. rewrite H. reflexivity.
  - intros seg before after Htok new_seg.
    assert (Hseg : new_segment isdigit id_to_name id_to_name_digits seg
                   = new_seg).
    { unfold new_segment, new_seg. rewrite Htok, map_app. cbn [map].
      unfold mapped_name at 2. rewrite H. cbn [fst].
      destruct before; reflexivity. }
    split; [|split; [|split]].
    + unfold new_seg. intros Hnil. apply app_eq_nil in Hnil.
      destruct Hnil as [Hnil _].
      exact (join_with_nonempty_part [c_hyphen] _ _ Hname Hnil).
    + intros unmatched. rewrite transform_segment_spec. exact Hseg.
    + intros unmatched acc.
      rewrite web_transform_segment, transform_segment_spec. exact Hseg.
    + intros isspace float_str text keep_prefix prefix pre post Ht Hsplit
        Hsep rewritten out.
      assert (Hcell : fst (MapItems.transform_cell isdigit isspace float_str
                             text keep_prefix prefix id_to_name
                             id_to_name_digits) = out).
      { rewrite transform_cell_spec by exact Ht. cbn [fst].
        rewrite Hsplit, map_app. cbn [map].
        rewrite concat_app. cbn [List.concat].
        rewrite rewrite_element_segment by exact Hsep.
        rewrite Hseg. reflexivity. }
      split; [exact Hcell|].
      intros acc. rewrite web_transform_cell. exact Hcell.
Qed.

(** The theorem at the specification's example of the 66-prefix fallback,
    and at the cell [771-9$1] that holds this token. *)
Lemma C9_witness :
  MapItems.map_token unicode_isdigit (lit "771") []
    [(lit "66771", lit "BigAxe")] = (lit "BigAxe", true)
  /\ lit "BigAxe" <> []
  /\ fst (MapItems.transform_segment unicode_isdigit (lit "771-9$1") []
            [(lit "66771", lit "BigAxe")] 0) = lit "BigAxe-9$1"
  /\ forall float_str : spec_float -> pystr,
       fst (MapItems.transform_cell unicode_isdigit unicode_isspace float_str
              (PyStr (lit "771-9$1&5")) false [] []
              [(lit "66771", lit "BigAxe")])
       = PyStr (lit "BigAxe-9$1&5").
Proof.
  assert (H : MapItems.map_token unicode_isdigit (lit "771") []
                [(lit "66771", lit "BigAxe")] = (lit "BigAxe", true))
    by reflexivity.
  pose proof (C9_hit_name_nonempty _ _ _ _ H) as (Hname & _ & _ & Hout).
  specialize (Hout (lit "771-9$1") [] [lit "9"] eq_refl).
  destruct Hout as (_ & Hseg & _ & Hcell).
  split; [exact H|]. split; [exact Hname|]. split.
  - rewrite Hseg. vm_compute. reflexivity.
  - intros float_str.
    destruct (Hcell unicode_isspace float_str (PyStr (lit "771-9$1&5")) false
                [] [] [lit "&"; lit "5"] eq_refl eq_refl eq_refl)
      as [Hc _].
    rewrite Hc. vm_compute. reflexivity.
Defined.

(* ================================================================== *)
(** ** The specification's worked example *)

(** C2: with the mapping rows [("101","Sword")], [("202","Shield")], the
    prefix ["物品="] and [keep_prefix = True], the cell
    ["物品=101-202$1&303$2"] is rewritten to
    ["物品=Sword-Shield$1&303$2"] with one unmatched token; the web
    tool's accumulator shows that the miss is the token ["303"]. *)
Theorem C2_worked_example (float_str : spec_float -> pystr) :
  let prefix := [0x7269; 0x54C1]%N ++ lit "=" in
  let index :=
    MapItems.load_mapping unicode_isdigit unicode_isspace float_str
      [(PyStr (lit "101"), PyStr (lit "Sword"));
       (PyStr (lit "202"), PyStr (lit "Shield"))] in
  let cell := PyStr (prefix ++ lit "101-202$1&303$2") in
  let output := PyStr (prefix ++ lit "Sword-Shield$1&303$2") in
  MapItems.transform_cell unicode_isdigit unicode_isspace float_str
    cell true prefix (fst index) (snd index) = (output, 1)
  /\ WebTool.transform_cell unicode_isdigit unicode_isspace float_str
       cell true prefix (fst index) (snd index) (Some [])
     = ((output, 1), Some [lit "303"]).
Proof.
  intros prefix index cell output. split; vm_compute; reflexivity.
Qed.

(* ================================================================== *)
(** ** Separators *)

(** C5: for every cell that is parsed, the tokenization of its body is an
    alternation of separator-free pieces and single separator characters
    that concatenates back to the body (so each [&] and [|] is an element of
    its own, in its place, and mixed separators stay as they are), and the
    output is the concatenation, in the same order, of the elements'
    images, where the image of a separator element is that separator: what
    stands in the slot of a separator in the tokenization stands in the
    same slot of the output's parts. *)
Theorem C5_separators_kept_in_place (isdigit isspace : char -> bool)
    (float_str : spec_float -> pystr) (text : pyval) (keep_prefix : bool)
    (prefix : pystr) (id_to_name id_to_name_digits : dict) :
  truthy text = true ->
  let body := cell_body isspace float_str text prefix in
  let tokens := re_split body in
  let images :=
    map (rewrite_element isdigit id_to_name id_to_name_digits) tokens in
  alternating tokens
  /\ concat tokens = body
  /\ fst (MapItems.transform_cell isdigit isspace float_str text keep_prefix
            prefix id_to_name id_to_name_digits)
     = PyStr (with_prefix keep_prefix prefix (concat images))
  /\ forall (i : nat) (c : char),
       nth_error tokens i = Some [c] -> is_sep c = true ->
       nth_error images i = Some [c].
Proof.
  intros Ht body tokens images. split; [|split; [|split]].
  - apply re_split_alternating.
  - apply concat_re_split.
  - rewrite transform_cell_spec by assumption. reflexivity.
  - intros i c Hi Hc. unfold images.
    rewrite nth_error_map, Hi. simpl.
    unfold rewrite_element. rewrite in_seps_sep, Hc. reflexivity.
Qed.

(** The theorem at the cell ["7075|80072&523"] of the docstring, with both
    separators. *)
Lemma C5_witness :
  truthy (PyStr (lit "7075|80072&523")) = true
  /\ forall float_str : spec_float -> pystr,
       fst (MapItems.transform_cell unicode_isdigit unicode_isspace float_str
              (PyStr (lit "7075|80072&523")) false [] [] [])
       = PyStr (with_prefix false []
                  (concat (map (rewrite_element unicode_isdigit [] [])
                             (re_split
                                (cell_body unicode_isspace float_str
                                   (PyStr (lit "7075|80072&523")) []))))).
Proof.
  split; [reflexivity|].
  intros float_str.
  apply (C5_separators_kept_in_place unicode_isdigit unicode_isspace
           float_str (PyStr (lit "7075|80072&523")) false [] [] []).
  reflexivity.
Defined.

(* ================================================================== *)
(** ** Segments *)

Section Segments.

Variable isdigit : char -> bool.
Variables id_to_name id_to_name_digits : dict.

Local Abbreviation name_of := (mapped_name isdigit id_to_name id_to_name_digits).
Local Abbreviation miss := (is_miss isdigit id_to_name id_to_name_digits).
Local Abbreviation image := (new_segment isdigit id_to_name id_to_name_digits).

Lemma split_dollar_parts (seg : pystr) :
  split c_dollar seg = seg_ids seg :: seg_suffixes seg.
Proof.
  unfold seg_ids, seg_suffixes. pose proof (split_not_nil c_dollar seg).
  destruct (split c_dollar seg); [congruence | reflexivity].
Qed.

Lemma join_dollar_parts (seg : pystr) :
  join [c_dollar] (seg_ids seg :: seg_suffixes seg) = seg.
Proof. rewrite <- split_dollar_parts. apply join_split. Qed.

(** The replacement of a segment is its parts joined again, the id group
    replaced. *)
Lemma image_as_join (seg : pystr) :
  image seg =
  join [c_dollar]
    (match seg_tokens seg with
     | _ :: _ => join [c_hyphen] (map name_of (seg_tokens seg))
     | [] => seg_ids seg
     end :: seg_suffixes seg).
Proof. unfold new_segment. rewrite join_cons. reflexivity. Qed.

Lemma missed_tokens_kept (toks : list pystr) :
  forallb miss toks = true -> map name_of toks = toks.
Proof.
  induction toks as [|t toks IH]; simpl; [reflexivity|].
  rewrite andb_true_iff. intros [Ht Hs].
  rewrite (miss_keeps_token _ _ _ _ Ht), (IH Hs). reflexivity.
Qed.

Lemma all_missed_count (toks : list pystr) :
  forallb miss toks = true -> length (filter miss toks) = length toks.
Proof.
  induction toks as [|t toks IH]; simpl; [reflexivity|].
  rewrite andb_true_iff. intros [Ht Hs]. rewrite Ht. simpl. auto.
Qed.

(** A segment none of whose tokens resolves, with a tidy id group, is
    replaced by itself. *)
Lemma image_unrecognized (seg : pystr) :
  forallb miss (seg_tokens seg) = true ->
  tidy_ids (seg_ids seg) = true ->
  image seg = seg.
Proof.
  intros Hmiss Htidy. rewrite image_as_join.
  etransitivity; [|apply join_dollar_parts]. f_equal. f_equal.
  unfold tidy_ids in Htidy. fold (seg_tokens seg) in Htidy.
  destruct (seg_tokens seg) as [|t toks] eqn:E; [reflexivity|].
  rewrite (missed_tokens_kept _ Hmiss). rewrite <- E.
  unfold seg_tokens. rewrite filter_nonempty_id.
  - apply join_split.
  - apply Forall_forall. rewrite forallb_forall in Htidy. exact Htidy.
Qed.

(** Element by element: without a recognizable token and with tidy id
    groups, every element of a tokenization is replaced by itself. *)
Lemma elements_unrecognized (tokens : list pystr) :
  forallb miss (flat_map seg_tokens (filter is_segment tokens)) = true ->
  forallb (fun seg => tidy_ids (seg_ids seg)) (filter is_segment tokens) = true ->
  map (rewrite_element isdigit id_to_name id_to_name_digits) tokens = tokens.
Proof.
  induction tokens as [|tk tokens IH]; simpl; [reflexivity|].
  destruct (is_segment tk) eqn:Eseg.
  - unfold is_segment in Eseg. apply andb_true_iff in Eseg.
    destruct Eseg as [E1 _]. apply negb_true_iff in E1.
    simpl. rewrite forallb_app, !andb_true_iff. intros [Hm H1] [Ht H2].
    rewrite (rewrite_element_segment isdigit _ _ _ E1).
    rewrite (image_unrecognized _ Hm Ht), (IH H1 H2). reflexivity.
  - intros H1 H2. rewrite (IH H1 H2). f_equal.
    unfold rewrite_element. destruct (in_seps tk) eqn:Es; [reflexivity|].
    unfold is_segment in Eseg. rewrite Es in Eseg. simpl in Eseg.
    destruct tk; [reflexivity | discriminate].
Qed.

End Segments.

(* ================================================================== *)
(** ** Cells without a recognizable identifier *)

(** C7 (as amended): for every mapping index and every parsed cell none of
    whose identifier tokens resolves, the returned count is the number of
    identifier tokens of the cell's body; and when the body is tidy (no id
    group that holds a token also holds an empty piece, that is a leading, a
    trailing or a doubled hyphen), the returned text is the body, with the
    prefix in front when [keep_prefix] is set. *)
Theorem C7_unrecognized_cell_round_trip (isdigit isspace : char -> bool)
    (float_str : spec_float -> pystr) (text : pyval) (keep_prefix : bool)
    (prefix : pystr) (id_to_name id_to_name_digits : dict) :
  truthy text = true ->
  let body := cell_body isspace float_str text prefix in
  forallb (is_miss isdigit id_to_name id_to_name_digits) (id_tokens_of body)
  = true ->
  snd (MapItems.transform_cell isdigit isspace float_str text keep_prefix
         prefix id_to_name id_to_name_digits)
  = length (id_tokens_of body)
  /\ (tidy body = true ->
      fst (MapItems.transform_cell isdigit isspace float_str text keep_prefix
             prefix id_to_name id_to_name_digits)
      = PyStr (with_prefix keep_prefix prefix body)).
Proof.
  intros Ht body Hmiss. rewrite transform_cell_spec by assumption.
  fold body. simpl. split.
  - apply all_missed_count. assumption.
  - intros Htidy. unfold id_tokens_of, segments in Hmiss.
    unfold tidy, segments in Htidy.
    rewrite (elements_unrecognized _ _ _ _ Hmiss Htidy), concat_re_split.
    reflexivity.
Qed.

(** The theorem at a tidy cell with three tokens, none in the mapping. *)
Lemma C7_witness :
  let prefix := [0x7269; 0x54C1]%N ++ lit "=" in
  let cell := PyStr (prefix ++ lit "303$1&404-505|") in
  let exact := [(lit "101", lit "Sword"); (lit "202", lit "Shield")] in
  truthy cell = true
  /\ forall float_str : spec_float -> pystr,
       forallb (is_miss unicode_isdigit exact exact)
         (id_tokens_of (cell_body unicode_isspace float_str cell prefix))
       = true
       /\ tidy (cell_body unicode_isspace float_str cell prefix) = true
       /\ snd (MapItems.transform_cell unicode_isdigit unicode_isspace
                 float_str cell true prefix exact exact) = 3
       /\ fst (MapItems.transform_cell unicode_isdigit unicode_isspace
                 float_str cell true prefix exact exact) = cell.
Proof.
  intros prefix cell exact. split; [reflexivity|].
  intros float_str.
  assert (Hmiss : forallb (is_miss unicode_isdigit exact exact)
            (id_tokens_of (cell_body unicode_isspace float_str cell prefix))
          = true) by (vm_compute; reflexivity).
  assert (Htidy : tidy (cell_body unicode_isspace float_str cell prefix) = true)
    by (vm_compute; reflexivity).
  destruct (C7_unrecognized_cell_round_trip unicode_isdigit unicode_isspace
              float_str cell true prefix exact exact eq_refl Hmiss)
    as [Hcount Htext].
  split; [exact Hmiss | split; [exact Htidy | split]].
  - rewrite Hcount. vm_compute. reflexivity.
  - rewrite (Htext Htidy). vm_compute. reflexivity.
Defined.

(** C7 as stated fails: with the mapping ids 101 and 202, the cell
    ["303--404"] holds the two tokens 303 and 404, neither recognizable,
    and is rewritten to ["303-404"], which is not its body. *)
Lemma C7_counterexample :
  let exact := [(lit "101", lit "Sword"); (lit "202", lit "Shield")] in
  (forall float_str : spec_float -> pystr,
     cell_body unicode_isspace float_str (PyStr (lit "303--404")) []
     = lit "303--404"
     /\ MapItems.transform_cell unicode_isdigit unicode_isspace float_str
          (PyStr (lit "303--404")) false [] exact exact
        = (PyStr (lit "303-404"), 2))
  /\ id_tokens_of (lit "303--404") = [lit "303"; lit "404"]
  /\ forallb (is_miss unicode_isdigit exact exact) [lit "303"; lit "404"] = true
  /\ lit "303-404" <> lit "303--404".
Proof.
  intros exact. split; [|split; [|split]].
  - intros float_str. split; vm_compute; reflexivity.
  - vm_compute. reflexivity.
  - vm_compute. reflexivity.
  - discriminate.
Qed.

(* ================================================================== *)
(** ** Segment structure *)

Section Structure.

Variable isdigit : char -> bool.
Variables id_to_name id_to_name_digits : dict.

Local Abbreviation name_of := (mapped_name isdigit id_to_name id_to_name_digits).
Local Abbreviation good := (resolves_plain isdigit id_to_name id_to_name_digits).
Local Abbreviation image := (new_segment isdigit id_to_name id_to_name_digits).
Local Abbreviation element_image :=
  (rewrite_element isdigit id_to_name id_to_name_digits).
Local Abbreviation no_sep := (forallb (fun c => negb (is_sep c))).

Lemma nonempty_app (a b : pystr) :
  nonempty (a ++ b) = nonempty a || nonempty b.
Proof. destruct a; reflexivity. Qed.

Lemma good_names (toks : list pystr) :
  forallb good toks = true ->
  Forall (fun n => plain n = true) (map name_of toks)
  /\ Forall (fun n => nonempty n = true) (map name_of toks).
Proof.
  induction toks as [|t toks IH]; simpl; [split; constructor|].
  unfold resolves_plain at 1. rewrite !andb_true_iff, negb_true_iff.
  intros [[Hhit Hplain] Hs]. destruct (IH Hs) as [IH1 IH2].
  split; constructor; try assumption.
  apply hit_name_nonempty. assumption.
Qed.

(** The id group that replaces [ids] when all its tokens resolve to plain
    names: free of [$] and of separators like [ids], with as many tokens,
    and empty only if [ids] is. *)
Lemma new_ids_structure (ids : pystr) :
  let toks := filter nonempty (split c_hyphen ids) in
  let new_ids :=
    match toks with
    | _ :: _ => join [c_hyphen] (map name_of toks)
    | [] => ids
    end in
  forallb good toks = true ->
  free c_dollar ids = true ->
  no_sep ids = true ->
  free c_dollar new_ids = true
  /\ no_sep new_ids = true
  /\ length (filter nonempty (split c_hyphen new_ids)) = length toks
  /\ nonempty new_ids = nonempty ids.
Proof.
  intros toks new_ids Hgood Hfree Hsep.
  destruct (good_names _ Hgood) as [Hplain Hne].
  unfold new_ids. destruct toks as [|t toks'] eqn:E.
  - repeat split; try assumption. fold toks. rewrite E. reflexivity.
  - repeat split.
    + apply join_forallb; [reflexivity|].
      eapply Forall_impl; [|exact Hplain]. apply plain_free_dollar.
    + apply join_forallb; [reflexivity|].
      eapply Forall_impl; [|exact Hplain].
      intros n Hn. apply sep_free_forallb, plain_sep_free. exact Hn.
    + rewrite split_join.
      * rewrite filter_nonempty_id by assumption. apply length_map.
      * discriminate.
      * eapply Forall_impl; [|exact Hplain]. apply plain_free_hyphen.
    + rewrite join_nonempty; [|discriminate|assumption].
      destruct ids; [discriminate E | reflexivity].
Qed.

(** What the replacement of a separator-free segment keeps, when all its
    tokens resolve to plain names. *)
Lemma image_structure (seg : pystr) :
  existsb is_sep seg = false ->
  forallb good (seg_tokens seg) = true ->
  existsb is_sep (image seg) = false
  /\ nonempty (image seg) = nonempty seg
  /\ seg_suffixes (image seg) = seg_suffixes seg
  /\ length (seg_tokens (image seg)) = length (seg_tokens seg).
Proof.
  intros Hseg Hgood.
  pose proof (split_pieces_free c_dollar seg) as Hfree.
  pose proof (split_pieces_forallb (fun c => negb (is_sep c)) c_dollar seg
                (proj1 (sep_free_forallb seg) Hseg)) as Hsep.
  rewrite split_dollar_parts in Hfree, Hsep.
  inversion Hfree as [|? ? Hf1 Hf2]; subst.
  inversion Hsep as [|? ? Hs1 Hs2]; subst.
  destruct (new_ids_structure (seg_ids seg) Hgood Hf1 Hs1)
    as (Hn1 & Hn2 & Hn3 & Hn4).
  fold (seg_tokens seg) in Hn1, Hn2, Hn3, Hn4.
  assert (Hsplit : split c_dollar (image seg) =
            match seg_tokens seg with
            | _ :: _ => join [c_hyphen] (map name_of (seg_tokens seg))
            | [] => seg_ids seg
            end :: seg_suffixes seg).
  { rewrite image_as_join. apply split_join; [discriminate|].
    constructor; assumption. }
  repeat split.
  - apply sep_free_forallb. rewrite image_as_join.
    apply join_forallb; [reflexivity|]. constructor; assumption.
  - assert (Hx : nonempty (image seg) =
                   nonempty (join [c_dollar] (seg_ids seg :: seg_suffixes seg))).
    { rewrite image_as_join, !join_cons, !nonempty_app, Hn4. reflexivity. }
    rewrite Hx, join_dollar_parts. reflexivity.
  - unfold seg_suffixes at 1. rewrite Hsplit. reflexivity.
  - unfold seg_tokens at 1, seg_ids at 1. rewrite Hsplit. exact Hn3.
Qed.

Lemma is_segment_piece (seg : pystr) :
  existsb is_sep seg = false -> is_segment seg = nonempty seg.
Proof.
  intros H. unfold is_segment. rewrite (in_seps_piece _ H). reflexivity.
Qed.

Lemma is_segment_sep (c : char) : is_sep c = true -> is_segment [c] = false.
Proof.
  intros H. unfold is_segment. rewrite in_seps_sep, H. reflexivity.
Qed.

(** The shape of a segment: its numbers of suffix parts and of tokens. *)
Lemma piece_image (seg : pystr) :
  existsb is_sep seg = false ->
  forallb good (flat_map seg_tokens (filter is_segment [seg])) = true ->
  element_image seg = image seg
  /\ existsb is_sep (image seg) = false
  /\ nonempty (image seg) = nonempty seg
  /\ seg_suffixes (image seg) = seg_suffixes seg
  /\ length (seg_tokens (image seg)) = length (seg_tokens seg).
Proof.
  intros Hseg Hgood. split.
  - apply rewrite_element_segment. apply in_seps_piece. assumption.
  - apply image_structure; [assumption|].
    simpl in Hgood. rewrite (is_segment_piece _ Hseg) in Hgood.
    destruct seg as [|x seg]; [reflexivity|].
    simpl in Hgood. rewrite app_nil_r in Hgood. exact Hgood.
Qed.

(** Rewriting the elements of a tokenization whose tokens all resolve to
    plain names gives a tokenization again, with segments of the same
    shapes. *)
Lemma images_structure (tokens : list pystr) :
  alternating tokens ->
  forallb good (flat_map seg_tokens (filter is_segment tokens)) = true ->
  alternating (map element_image tokens)
  /\ map (fun seg => (length (seg_suffixes seg), length (seg_tokens seg)))
       (filter is_segment (map element_image tokens))
     = map (fun seg => (length (seg_suffixes seg), length (seg_tokens seg)))
         (filter is_segment tokens).
Proof.
  induction 1 as [seg Hseg | seg c rest Hseg Hc Hrest IH]; intros Hgood.
  - destruct (piece_image seg Hseg Hgood) as (He & H1 & H2 & H3 & H4).
    simpl. rewrite He. split; [constructor; assumption|].
    rewrite (is_segment_piece _ H1), (is_segment_piece _ Hseg), H2.
    destruct (nonempty seg); simpl; [rewrite H3, H4|]; reflexivity.
  - assert (Hg1 : forallb good
                    (flat_map seg_tokens (filter is_segment [seg])) = true
                  /\ forallb good
                       (flat_map seg_tokens (filter is_segment rest)) = true).
    { simpl in Hgood |- *. rewrite (is_segment_sep _ Hc) in Hgood.
      destruct (is_segment seg); simpl in Hgood |- *.
      - rewrite forallb_app in Hgood. apply andb_true_iff in Hgood.
        rewrite app_nil_r. exact Hgood.
      - split; [reflexivity | exact Hgood]. }
    destruct Hg1 as [Hg1 Hg2].
    destruct (piece_image seg Hseg Hg1) as (He & H1 & H2 & H3 & H4).
    destruct (IH Hg2) as [IH1 IH2].
    assert (Hc' : element_image [c] = [c]).
    { unfold rewrite_element. rewrite in_seps_sep, Hc. reflexivity. }
    simpl. rewrite He, Hc'. split; [constructor; assumption|].
    rewrite (is_segment_sep _ Hc).
    rewrite (is_segment_piece _ H1), (is_segment_piece _ Hseg), H2.
    destruct (nonempty seg); simpl; [rewrite H3, H4|]; rewrite IH2;
      reflexivity.
Qed.

End Structure.




(* ================================================================== *)
(** ** The two indexes built by [load_mapping] *)

Section Mapping.

Variable isdigit : char -> bool.
Variable isspace : char -> bool.
Variable float_str : spec_float -> pystr.

Local Abbreviation read_rows := (MapItems.read_rows isspace float_str).
Local Abbreviation comprehension := (MapItems.digits_comprehension isdigit).
Local Abbreviation key_of := (row_key isspace float_str).
Local Abbreviation name_in := (row_name isspace float_str).
Local Abbreviation digits_of := (MapItems.digits_only isdigit).

Lemma read_rows_app (a b : list (pyval * pyval)) (d0 : dict) :
  read_rows (a ++ b) d0 = read_rows b (read_rows a d0).
Proof.
  revert d0. induction a as [|[v_id v_name] a IH]; intros d0; simpl;
    [reflexivity | apply IH].
Qed.

(** The exact index holds, for an id, the name of its last row. *)
Lemma read_rows_get (rows : list (pyval * pyval)) (d0 : dict) (k : pystr) :
  k <> [] ->
  dict_get (read_rows rows d0) k =
  match last_name isspace float_str rows k with
  | Some name => Some name
  | None => dict_get d0 k
  end.
Proof.
  intros Hk. revert d0.
  induction rows as [|[v_id v_name] rows IH]; intros d0; simpl;
    [reflexivity|].
  rewrite IH.
  destruct (last_name isspace float_str rows k) as [n|]; [reflexivity|].
  unfold row_key, row_name. simpl.
  destruct (str_eqb (strip isspace (MapItems.to_text float_str v_id)) k) eqn:E.
  - apply str_eqb_eq in E. rewrite E.
    destruct k; [congruence|]. simpl. apply dict_get_set_same.
  - apply str_eqb_neq in E.
    destruct (nonempty (strip isspace (MapItems.to_text float_str v_id)));
      [apply dict_get_set_other; assumption | reflexivity].
Qed.

Lemma last_name_some (rows : list (pyval * pyval)) (k : pystr) :
  In k (map key_of rows) ->
  exists name, last_name isspace float_str rows k = Some name.
Proof.
  induction rows as [|row rows IH]; simpl; [tauto|].
  intros [Hk|Hin].
  - destruct (last_name isspace float_str rows k) as [n|]; [eauto|].
    rewrite Hk, str_eqb_refl. eauto.
  - destruct (IH Hin) as [n Hn]. rewrite Hn. eauto.
Qed.

Lemma read_rows_nodup (rows : list (pyval * pyval)) (d0 : dict) :
  NoDup (dkeys d0) -> NoDup (dkeys (read_rows rows d0)).
Proof.
  revert d0. induction rows as [|[v_id v_name] rows IH]; intros d0 H; simpl;
    [assumption|].
  apply IH.
  destruct (nonempty (strip isspace (MapItems.to_text float_str v_id)));
    [apply dict_set_nodup|]; assumption.
Qed.

Lemma comprehension_nodup (items acc : dict) :
  NoDup (dkeys acc) -> NoDup (dkeys (comprehension items acc)).
Proof.
  revert acc. induction items as [|[k v] items IH]; intros acc H; simpl;
    [assumption|].
  apply IH.
  destruct (nonempty (digits_of k)); [apply dict_set_nodup|]; assumption.
Qed.

Lemma comprehension_app (a b acc : dict) :
  comprehension (a ++ b) acc = comprehension b (comprehension a acc).
Proof.
  revert acc. induction a as [|[k v] a IH]; intros acc; simpl;
    [reflexivity | apply IH].
Qed.

(** Items whose id normalizes to another digit string leave the entry of
    [dg] alone. *)
Lemma comprehension_skip (items acc : dict) (dg : pystr) :
  (forall k, In k (dkeys items) -> digits_of k <> dg) ->
  dict_get (comprehension items acc) dg = dict_get acc dg.
Proof.
  revert acc. induction items as [|[k v] items IH]; intros acc H; simpl;
    [reflexivity|].
  rewrite IH by (intros k' Hk'; apply H; right; exact Hk').
  destruct (nonempty (digits_of k)); [|reflexivity].
  apply dict_get_set_other. apply H. left. reflexivity.
Qed.

Lemma dict_get_app_out (a b : dict) (k : pystr) :
  ~ In k (dkeys a) -> dict_get (a ++ b) k = dict_get b k.
Proof.
  induction a as [|[k' v'] a IH]; simpl; [reflexivity|].
  intros H. destruct (str_eqb k' k) eqn:E.
  - apply str_eqb_eq in E. tauto.
  - apply IH. tauto.
Qed.

(** The keys of the exact index: those it started with, then the new ids
    in the order of their first rows. *)
Lemma read_rows_shape (rows : list (pyval * pyval)) (d0 : dict) :
  exists front tail : dict,
    read_rows rows d0 = front ++ tail
    /\ dkeys front = dkeys d0
    /\ forall k, In k (dkeys tail) ->
         In k (map key_of rows) /\ ~ In k (dkeys d0).
Proof.
  revert d0. induction rows as [|[v_id v_name] rows IH]; intros d0.
  - exists d0, []. rewrite app_nil_r. simpl.
    split; [reflexivity|]. split; [reflexivity|]. intros k [].
  - simpl. unfold row_key at 1. simpl.
    set (k := strip isspace (MapItems.to_text float_str v_id)).
    set (name := strip isspace (MapItems.to_text float_str v_name)).
    destruct (nonempty k) eqn:Ek.
    + destruct (IH (dict_set d0 k name)) as (d' & tail & Heq & Hk & Htail).
      destruct (dkeys_set d0 k name) as [Hsame | [Hout Hnew]].
      * exists d', tail. split; [exact Heq|]. split; [congruence|].
        intros k' Hk'. destruct (Htail k' Hk') as [H1 H2].
        split; [right; exact H1 | rewrite <- Hsame; exact H2].
      * rewrite Hnew in Hk. unfold dkeys in Hk. apply map_eq_app in Hk.
        destruct Hk as (la & lb & Hd' & Hla & Hlb).
        exists la, (lb ++ tail).
        split; [rewrite Heq, Hd', <- app_assoc; reflexivity|].
        split; [exact Hla|].
        intros k' Hk'. unfold dkeys in Hk'. rewrite map_app in Hk'.
        apply in_app_or in Hk'. destruct Hk' as [Hk'|Hk'].
        -- rewrite Hlb in Hk'. destruct Hk' as [<-|[]].
           split; [left; reflexivity | exact Hout].
        -- destruct (Htail k' Hk') as [H1 H2].
           split; [right; exact H1|].
           intros Hin. apply H2. rewrite Hnew. apply in_or_app. left.
           exact Hin.
    + destruct (IH d0) as (d' & tail & Heq & Hk & Htail).
      exists d', tail. split; [exact Heq|]. split; [exact Hk|].
      intros k' Hk'. destruct (Htail k' Hk') as [H1 H2]. auto.
Qed.

Lemma read_rows_keys_sub (rows : list (pyval * pyval)) (d0 : dict) (k : pystr) :
  In k (dkeys (read_rows rows d0)) ->
  In k (dkeys d0) \/ In k (map key_of rows).
Proof.
  destruct (read_rows_shape rows d0) as (front & tail & Heq & Hk & Htail).
  rewrite Heq. unfold dkeys at 1. rewrite map_app. intros H.
  apply in_app_or in H. destruct H as [H|H].
  - left. rewrite <- Hk. exact H.
  - right. apply (Htail k H).
Qed.

Lemma read_rows_keys_in (rows : list (pyval * pyval)) (d0 : dict) (k : pystr) :
  k <> [] ->
  In k (dkeys d0) \/ In k (map key_of rows) ->
  In k (dkeys (read_rows rows d0)).
Proof.
  intros Hk. revert d0.
  induction rows as [|[v_id v_name] rows IH]; intros d0; simpl.
  - tauto.
  - unfold row_key at 1. simpl.
    set (k1 := strip isspace (MapItems.to_text float_str v_id)).
    set (name := strip isspace (MapItems.to_text float_str v_name)).
    intros H. apply IH.
    destruct H as [H | [H | H]]; [| |right; exact H].
    + left. destruct (nonempty k1); [|exact H].
      destruct (dkeys_set d0 k1 name) as [-> | [_ ->]];
        [exact H | apply in_or_app; left; exact H].
    + left. subst k1. rewrite H.
      destruct k as [|x k]; [congruence|]. simpl.
      destruct (dkeys_set d0 (x :: k) name) as [Hs | [_ ->]].
      * destruct (in_dec (list_eq_dec N.eq_dec) (x :: k) (dkeys d0))
          as [Hin | Hout].
        -- rewrite dkeys_set_old by assumption. exact Hin.
        -- rewrite dict_set_new by assumption. unfold dkeys.
           rewrite map_app. apply in_or_app. right. left. reflexivity.
      * apply in_or_app. right. left. reflexivity.
Qed.

End Mapping.

Section MappingClaims.

Variable isdigit : char -> bool.
Variable isspace : char -> bool.
Variable float_str : spec_float -> pystr.

Local Abbreviation key_of := (row_key isspace float_str).
Local Abbreviation digits_of := (MapItems.digits_only isdigit).

Lemma read_rows_keys_nonempty (rows : list (pyval * pyval)) (d0 : dict) :
  ~ In [] (dkeys d0) ->
  ~ In [] (dkeys (MapItems.read_rows isspace float_str rows d0)).
Proof.
  revert d0. induction rows as [|[v_id v_name] rows IH]; intros d0 H; simpl;
    [assumption|].
  apply IH.
  destruct (strip isspace (MapItems.to_text float_str v_id)) as [|x k] eqn:E;
    simpl; [assumption|].
  destruct (dkeys_set d0 (x :: k)
              (strip isspace (MapItems.to_text float_str v_name)))
    as [-> | [_ ->]]; [assumption|].
  intros Hin. apply in_app_or in Hin. destruct Hin as [Hin | [Hin | []]];
    [tauto | discriminate].
Qed.

Lemma read_rows_one (row : pyval * pyval) (d0 : dict) :
  MapItems.read_rows isspace float_str [row] d0 =
  if nonempty (key_of row)
  then dict_set d0 (key_of row) (row_name isspace float_str row)
  else d0.
Proof. destruct row as [v_id v_name]. reflexivity. Qed.

(** [map_token] reads the two dicts through [lookup_nonempty] only. *)
Lemma map_token_ext (token : pystr) (e d e' d' : dict) :
  (forall k, lookup_nonempty e' k = lookup_nonempty e k) ->
  (forall k, lookup_nonempty d' k = lookup_nonempty d k) ->
  MapItems.map_token isdigit token e' d' = MapItems.map_token isdigit token e d.
Proof.
  intros He Hd. unfold MapItems.map_token. rewrite He.
  destruct (lookup_nonempty e token); [reflexivity|].
  generalize (if nonempty (digits_of token)
              then [digits_of token] ++
                   (if (length (digits_of token) =? 3)
                       || (length (digits_of token) =? 4)
                    then [lit "66" ++ digits_of token;
                          lit "6" ++ digits_of token]
                    else [])
              else []).
  intros cs. induction cs as [|c cs IH]; simpl; [reflexivity|].
  rewrite He, Hd, IH. reflexivity.
Qed.

(** C3 (as amended): [load_mapping] stores a row with an empty name like
    any other row, so both indexes can hold empty names; what holds instead
    is that [map_token] never uses such an entry. On the indexes built from
    any rows it returns what it returns on the same indexes with the
    empty-name entries removed, and a direct hit on an id gives the name of
    the id's last row and only when that name is not empty (so an empty
    name in a later row cancels the name of an earlier row with the same
    id). *)
Theorem C3_empty_names_never_used (rows : list (pyval * pyval)) :
  let index := MapItems.load_mapping isdigit isspace float_str rows in
  (forall token : pystr,
     MapItems.map_token isdigit token (fst index) (snd index)
     = MapItems.map_token isdigit token
         (drop_empty (fst index)) (drop_empty (snd index)))
  /\ (forall k : pystr,
        lookup_nonempty (fst index) k
        = if nonempty k
          then match last_name isspace float_str rows k with
               | Some name => if nonempty name then Some name else None
               | None => None
               end
          else None).
Proof.
  intros index. split.
  - intros token. symmetry. apply map_token_ext; intros k;
      apply lookup_drop_empty.
    + apply read_rows_nodup. constructor.
    + apply comprehension_nodup. constructor.
  - intros k. unfold index, MapItems.load_mapping, lookup_nonempty. simpl.
    destruct k as [|x k]; simpl.
    + rewrite dict_get_none; [reflexivity|].
      apply read_rows_keys_nonempty. simpl. tauto.
    + rewrite read_rows_get by discriminate. simpl.
      destruct (last_name isspace float_str rows (x :: k)); reflexivity.
Qed.

(** The digits index holds, for a digit string, the name of the id that
    first appears latest among the ids that normalize to it: the first row
    of [k2] is [row], and every id of a later row that normalizes to the
    digit string of [k2] was seen before. *)
Lemma digits_index_latest (pre post : list (pyval * pyval))
    (row : pyval * pyval) :
  let rows := pre ++ row :: post in
  let k2 := key_of row in
  let dg := digits_of k2 in
  let index := MapItems.load_mapping isdigit isspace float_str rows in
  dg <> [] ->
  ~ In k2 (map key_of pre) ->
  (forall r, In r post -> digits_of (key_of r) = dg ->
             In (key_of r) (map key_of (pre ++ [row]))) ->
  dict_get (snd index) dg = dict_get (fst index) k2
  /\ dict_get (fst index) k2 = last_name isspace float_str rows k2.
Proof.
  intros rows k2 dg index Hdg Hfirst Hpost.
  assert (Hk2 : k2 <> []).
  { intros E. apply Hdg. unfold dg. rewrite E. reflexivity. }
  unfold index, MapItems.load_mapping. simpl.
  set (e0 := MapItems.read_rows isspace float_str pre []).
  set (e1 := MapItems.read_rows isspace float_str (pre ++ [row]) []).
  assert (He : MapItems.read_rows isspace float_str rows []
               = MapItems.read_rows isspace float_str post e1).
  { unfold rows, e1.
    change (pre ++ row :: post) with (pre ++ [row] ++ post).
    rewrite app_assoc. apply read_rows_app. }
  assert (Hout : ~ In k2 (dkeys e0)).
  { intros Hin. apply read_rows_keys_sub in Hin. simpl in Hin. tauto. }
  assert (He1 : e1 = e0 ++ [(k2, row_name isspace float_str row)]).
  { unfold e1. rewrite read_rows_app. fold e0. rewrite read_rows_one.
    fold k2. apply nonempty_true in Hk2. rewrite Hk2.
    apply dict_set_new. exact Hout. }
  destruct (read_rows_shape isspace float_str post e1)
    as (front & tail & Heq & Hk & Htail).
  rewrite He1 in Hk. unfold dkeys in Hk. rewrite map_app in Hk.
  apply map_eq_app in Hk. destruct Hk as (la & lb & Hfront & Hla & Hlb).
  destruct lb as [|[k v] [|? ?]]; try discriminate Hlb.
  simpl in Hlb. inversion Hlb; subst k.
  assert (Htail' : forall k, In k (dkeys tail) -> digits_of k <> dg).
  { intros k Hin Hd. destruct (Htail k Hin) as [Hin1 Hin2].
    apply in_map_iff in Hin1. destruct Hin1 as (r & Hr & Hrin).
    apply Hin2. unfold e1. apply read_rows_keys_in.
    - intros E. apply Hdg. rewrite <- Hd, E. reflexivity.
    - right. rewrite <- Hr. apply Hpost; [exact Hrin | rewrite Hr; exact Hd]. }
  assert (Hget : dict_get (MapItems.read_rows isspace float_str rows []) k2
                 = Some v).
  { rewrite He, Heq, Hfront, <- app_assoc.
    rewrite dict_get_app_out by (unfold dkeys; rewrite Hla; exact Hout).
    simpl. rewrite str_eqb_refl. reflexivity. }
  split.
  - rewrite Hget, He, Heq, Hfront.
    rewrite !comprehension_app. rewrite comprehension_skip by exact Htail'.
    simpl. fold dg. destruct dg; [congruence|]. simpl.
    apply dict_get_set_same.
  - rewrite read_rows_get by exact Hk2.
    destruct (last_name_some isspace float_str rows k2) as [n Hn];
      [|rewrite Hn; reflexivity].
    unfold rows. rewrite map_app. apply in_or_app. right. left. reflexivity.
Qed.

(** C4 (as amended): let two different ids [k1] and [k2] normalize to the
    same non-empty digit string, [k2] having its first row after a row of
    [k1], and let no id that first appears after the first row of [k2]
    normalize to that digit string. Then the digits index maps the digit
    string to the name the exact index holds for [k2], which is the name of
    the last row of [k2]. Ids are ordered by their first rows: rows that
    come later for an id already seen change its name, not its rank. *)
Theorem C4_digits_index_latest_id (pre post : list (pyval * pyval))
    (row : pyval * pyval) (k1 : pystr) :
  let rows := pre ++ row :: post in
  let k2 := key_of row in
  let dg := digits_of k2 in
  let index := MapItems.load_mapping isdigit isspace float_str rows in
  In k1 (map key_of pre) ->
  k1 <> k2 ->
  digits_of k1 = dg ->
  dg <> [] ->
  ~ In k2 (map key_of pre) ->
  (forall r, In r post -> digits_of (key_of r) = dg ->
             In (key_of r) (map key_of (pre ++ [row]))) ->
  dict_get (snd index) dg = dict_get (fst index) k2
  /\ dict_get (fst index) k2 = last_name isspace float_str rows k2.
Proof.
  intros rows k2 dg index _ _ _ Hdg Hfirst Hpost.
  apply digits_index_latest; assumption.
Qed.

End MappingClaims.

(** The theorem at the rows of the counterexample below: the id 101B is
    first seen after A101, and the last row brings no new id. *)
Lemma C4_witness :
  let pre := [(PyStr (lit "A101"), PyStr (lit "Sword"))] in
  let row := (PyStr (lit "101B"), PyStr (lit "Shield")) in
  let post := [(PyStr (lit "A101"), PyStr (lit "Axe"))] in
  lit "A101" <> lit "101B"
  /\ forall float_str : spec_float -> pystr,
       let index :=
         MapItems.load_mapping unicode_isdigit unicode_isspace float_str
           (pre ++ row :: post) in
       dict_get (snd index) (lit "101") = dict_get (fst index) (lit "101B")
       /\ dict_get (fst index) (lit "101B")
          = last_name unicode_isspace float_str (pre ++ row :: post)
              (lit "101B").
Proof.
  intros pre row post. split; [discriminate|].
  intros float_str.
  apply (@C4_digits_index_latest_id unicode_isdigit unicode_isspace float_str
           pre post row (lit "A101")).
  - left. reflexivity.
  - discriminate.
  - reflexivity.
  - discriminate.
  - intros [H | []]. discriminate H.
  - intros r [<- | []] _. left. reflexivity.
Defined.

(** C4 as stated fails when an id comes back in a later row. The last row
    whose id normalizes to ["101"] is the third one, with the name ["Axe"];
    the digits index holds ["Shield"], the name of the id that was first
    seen later. *)
Lemma C4_counterexample :
  let rows :=
    [(PyStr (lit "A101"), PyStr (lit "Sword"));
     (PyStr (lit "101B"), PyStr (lit "Shield"));
     (PyStr (lit "A101"), PyStr (lit "Axe"))] in
  (forall float_str : spec_float -> pystr,
     MapItems.load_mapping unicode_isdigit unicode_isspace float_str rows
     = ([(lit "A101", lit "Axe"); (lit "101B", lit "Shield")],
        [(lit "101", lit "Shield")]))
  /\ MapItems.digits_only unicode_isdigit (lit "A101") = lit "101"
  /\ MapItems.digits_only unicode_isdigit (lit "101B") = lit "101"
  /\ lit "Shield" <> lit "Axe".
Proof.
  intros rows. split; [intros float_str; vm_compute; reflexivity|].
  split; [vm_compute; reflexivity|].
  split; [vm_compute; reflexivity | discriminate].
Qed.

(** C3 as stated fails: a row with an empty name is stored in both
    indexes. And an id whose name is empty is not always returned
    unmatched: like an id that is absent, it is resolved when a fallback
    candidate reaches another entry. *)
Lemma C3_counterexample :
  (forall float_str : spec_float -> pystr,
     MapItems.load_mapping unicode_isdigit unicode_isspace float_str
       [(PyStr (lit "101"), PyStr [])]
     = ([(lit "101", [])], [(lit "101", [])]))
  /\ (forall float_str : spec_float -> pystr,
        let index :=
          MapItems.load_mapping unicode_isdigit unicode_isspace float_str
            [(PyStr (lit "771"), PyStr []);
             (PyStr (lit "66771"), PyStr (lit "BigAxe"))] in
        MapItems.map_token unicode_isdigit (lit "771") (fst index) (snd index)
        = (lit "BigAxe", true)).
Proof.
  split; intros float_str; vm_compute; reflexivity.
Qed.

(* ================================================================== *)
(** ** Column letters *)

Section Columns.

Variable isspace : char -> bool.
Variable upper : pystr -> pystr.

Local Abbreviation col := (MapItems.col_letter_to_idx isspace upper).

Lemma pow26_pos (n : nat) : (0 < 26 ^ Z.of_nat n)%Z.
Proof. apply Z.pow_pos_nonneg; lia. Qed.

Lemma pow26_succ (n : nat) :
  (26 ^ Z.of_nat (S n) = 26 * 26 ^ Z.of_nat n)%Z.
Proof. rewrite Nat2Z.inj_succ, Z.pow_succ_r by lia. reflexivity. Qed.

Lemma capital_digit (ch : char) :
  is_capital ch = true -> (1 <= Z.of_N ch - 65 + 1 <= 26)%Z.
Proof.
  unfold is_capital. rewrite andb_true_iff, !N.leb_le. lia.
Qed.

Lemma col_letter_loop_spec (rest letter : pystr) (idx : Z) :
  MapItems.col_letter_loop rest letter idx =
  if forallb is_capital rest
  then inr (idx * 26 ^ Z.of_nat (length rest) + letters_value rest)%Z
  else inl (ValueError (lit "Invalid column letter: " ++ letter)).
Proof.
  revert idx. induction rest as [|ch rest IH]; intros idx.
  - simpl. f_equal. lia.
  - cbn [MapItems.col_letter_loop forallb letters_value length].
    destruct (is_capital ch); cbn [negb andb]; [|reflexivity].
    rewrite IH. destruct (forallb is_capital rest); [|reflexivity].
    f_equal. rewrite pow26_succ. ring.
Qed.

(** A string of [n] capitals denotes a number between [1 + 26 + ... +
    26^(n-1)] and 26 times that. *)
Lemma letters_value_bounds (s : pystr) :
  forallb is_capital s = true ->
  (26 ^ Z.of_nat (length s) - 1 <= 25 * letters_value s
   <= 26 * (26 ^ Z.of_nat (length s) - 1))%Z.
Proof.
  induction s as [|ch s IH]; simpl forallb.
  - intros _. simpl. lia.
  - rewrite andb_true_iff. intros [Hc Hs]. specialize (IH Hs).
    pose proof (capital_digit _ Hc) as Hd.
    pose proof (pow26_pos (length s)) as Hp.
    cbn [letters_value length]. rewrite pow26_succ.
    set (P := (26 ^ Z.of_nat (length s))%Z) in *.
    set (dgt := (Z.of_N ch - 65 + 1)%Z) in *.
    nia.
Qed.

Lemma letters_value_length_lt (s1 s2 : pystr) :
  forallb is_capital s1 = true -> forallb is_capital s2 = true ->
  length s1 < length s2 ->
  (letters_value s1 < letters_value s2)%Z.
Proof.
  intros H1 H2 Hlt.
  pose proof (letters_value_bounds _ H1) as B1.
  pose proof (letters_value_bounds _ H2) as B2.
  assert (Hpow : (26 * 26 ^ Z.of_nat (length s1)
                  <= 26 ^ Z.of_nat (length s2))%Z).
  { rewrite <- pow26_succ. apply Z.pow_le_mono_r; lia. }
  lia.
Qed.

Lemma letters_value_inj_same_length (s1 s2 : pystr) :
  length s1 = length s2 ->
  forallb is_capital s1 = true -> forallb is_capital s2 = true ->
  letters_value s1 = letters_value s2 ->
  s1 = s2.
Proof.
  revert s2. induction s1 as [|c1 s1 IH]; intros [|c2 s2] Hlen;
    try discriminate; [reflexivity|].
  simpl forallb. rewrite !andb_true_iff. intros [Hc1 H1] [Hc2 H2].
  injection Hlen as Hlen. cbn [letters_value]. rewrite <- Hlen.
  pose proof (capital_digit _ Hc1) as Hd1.
  pose proof (capital_digit _ Hc2) as Hd2.
  pose proof (letters_value_bounds _ H1) as B1.
  pose proof (letters_value_bounds _ H2) as B2.
  rewrite <- Hlen in B2.
  pose proof (pow26_pos (length s1)) as Hp.
  set (P := (26 ^ Z.of_nat (length s1))%Z) in *.
  intros Hv.
  assert (Hd : (Z.of_N c1 - 65 + 1 = Z.of_N c2 - 65 + 1)%Z) by nia.
  assert (Hc : c1 = c2) by lia.
  subst c2. f_equal. apply IH; try assumption. nia.
Qed.

Lemma letters_value_inj (s1 s2 : pystr) :
  forallb is_capital s1 = true -> forallb is_capital s2 = true ->
  letters_value s1 = letters_value s2 ->
  s1 = s2.
Proof.
  intros H1 H2 Hv.
  destruct (Nat.lt_trichotomy (length s1) (length s2)) as [Hl | [Hl | Hl]].
  - pose proof (letters_value_length_lt _ _ H1 H2 Hl). lia.
  - apply letters_value_inj_same_length; assumption.
  - pose proof (letters_value_length_lt _ _ H2 H1 Hl). lia.
Qed.

Lemma col_closed_form (letter : pystr) :
  col letter =
  if forallb is_capital (upper (strip isspace letter))
  then inr (letters_value (upper (strip isspace letter)) - 1)%Z
  else inl (ValueError (lit "Invalid column letter: "
                        ++ upper (strip isspace letter))).
Proof.
  unfold MapItems.col_letter_to_idx. rewrite col_letter_loop_spec.
  destruct (forallb is_capital (upper (strip isspace letter)));
    [|reflexivity].
  f_equal; lia.
Qed.

Lemma col_success (letter : pystr) (idx : Z) :
  col letter = inr idx ->
  forallb is_capital (upper (strip isspace letter)) = true
  /\ idx = (letters_value (upper (strip isspace letter)) - 1)%Z.
Proof.
  rewrite col_closed_form.
  destruct (forallb is_capital (upper (strip isspace letter)));
    [|discriminate].
  intros E. injection E as E. auto.
Qed.

(** X1: [col_letter_to_idx] in closed form. With [s] the trimmed and
    upper-cased letter string: if every character of [s] is a capital A-Z
    the index is the number [s] denotes in the letter system (A = 1, ...,
    Z = 26, weights 26^k) minus one; otherwise [ValueError] is raised, with
    [s] in the message. *)
Theorem col_letter_to_idx_closed_form (letter : pystr) :
  let s := upper (strip isspace letter) in
  col letter =
  if forallb is_capital s then inr (letters_value s - 1)%Z
  else inl (ValueError (lit "Invalid column letter: " ++ s)).
Proof. intros s. apply col_closed_form. Qed.

(** X2: two letter strings with the same column index have the same
    trimmed, upper-cased form: different column names never share a
    column. *)
Theorem col_letter_to_idx_injective (a b : pystr) (idx : Z) :
  col a = inr idx -> col b = inr idx ->
  upper (strip isspace a) = upper (strip isspace b).
Proof.
  intros Ha Hb.
  destruct (col_success _ Ha) as [Ca Va].
  destruct (col_success _ Hb) as [Cb Vb].
  apply letters_value_inj; try assumption. lia.
Qed.

(** X3: a column index is at least -1, and it is -1 exactly for a letter
    string that is empty after trimming and upper-casing: the empty column
    name is no error. A name of [n] letters has an index from [(26^n -
    1)/25 - 1] to [26 (26^n - 1)/25 - 1]: 0 to 25 for one letter, 26 to 701
    for two. *)
Theorem col_letter_to_idx_range (letter : pystr) (idx : Z) :
  col letter = inr idx ->
  let s := upper (strip isspace letter) in
  (-1 <= idx)%Z
  /\ (idx = (-1)%Z <-> s = [])
  /\ (26 ^ Z.of_nat (length s) - 1 <= 25 * (idx + 1)
      <= 26 * (26 ^ Z.of_nat (length s) - 1))%Z.
Proof.
  intros H s. destruct (col_success _ H) as [Hc Hv]. fold s in Hc, Hv.
  pose proof (letters_value_bounds _ Hc) as B.
  pose proof (pow26_pos (length s)) as Hp.
  split; [lia|]. split; [|lia].
  split.
  - intros E. destruct s as [|ch s']; [reflexivity|].
    exfalso. cbn [length] in B. rewrite pow26_succ in B.
    pose proof (pow26_pos (length s')). lia.
  - intros E. rewrite E in Hv. simpl in Hv. lia.
Qed.

End Columns.

(** X2 at the names ["ab"] and [" AB "], both column 27. *)
Lemma col_letter_to_idx_injective_witness :
  MapItems.col_letter_to_idx unicode_isspace unicode_upper (lit "ab")
  = inr 27%Z
  /\ MapItems.col_letter_to_idx unicode_isspace unicode_upper (lit " AB ")
     = inr 27%Z
  /\ unicode_upper (strip unicode_isspace (lit "ab"))
     = unicode_upper (strip unicode_isspace (lit " AB ")).
Proof.
  assert (Ha : MapItems.col_letter_to_idx unicode_isspace unicode_upper
                 (lit "ab") = inr 27%Z) by (vm_compute; reflexivity).
  assert (Hb : MapItems.col_letter_to_idx unicode_isspace unicode_upper
                 (lit " AB ") = inr 27%Z) by (vm_compute; reflexivity).
  split; [exact Ha | split; [exact Hb|]].
  exact (col_letter_to_idx_injective unicode_isspace unicode_upper _ _ Ha Hb).
Defined.

(** X3 at the name ["zz"], column 701, and at the empty name. *)
Lemma col_letter_to_idx_range_witness :
  MapItems.col_letter_to_idx unicode_isspace unicode_upper (lit "zz")
  = inr 701%Z
  /\ (26 ^ 2 - 1 <= 25 * (701 + 1) <= 26 * (26 ^ 2 - 1))%Z.
Proof.
  assert (H : MapItems.col_letter_to_idx unicode_isspace unicode_upper
                (lit "zz") = inr 701%Z) by (vm_compute; reflexivity).
  split; [exact H|].
  exact (proj2 (proj2 (col_letter_to_idx_range unicode_isspace unicode_upper
                         _ H))).
Defined.

(* ================================================================== *)
(** ** What the indexes hold and what resolves through them *)

Section IndexContents.

Variable isdigit : char -> bool.
Variable isspace : char -> bool.
Variable float_str : spec_float -> pystr.

Local Abbreviation key_of := (row_key isspace float_str).
Local Abbreviation name_in := (row_name isspace float_str).
Local Abbreviation digits_of := (MapItems.digits_only isdigit).
Local Abbreviation load := (MapItems.load_mapping isdigit isspace float_str).

Lemma dict_get_in (d : dict) (k v : pystr) :
  dict_get d k = Some v -> In (k, v) d.
Proof.
  induction d as [|[k' v'] d IH]; simpl; [discriminate|].
  destruct (str_eqb k' k) eqn:E.
  - apply str_eqb_eq in E; subst. intros H; inversion H; auto.
  - auto.
Qed.

Lemma dict_set_in (d : dict) (k v k' v' : pystr) :
  In (k', v') (dict_set d k v) -> (k' = k /\ v' = v) \/ In (k', v') d.
Proof.
  induction d as [|[k1 v1] d IH]; simpl.
  - intros [H | []]. inversion H. auto.
  - destruct (str_eqb k1 k) eqn:E; simpl.
    + apply str_eqb_eq in E; subst k1.
      intros [H | H]; [inversion H; auto | auto].
    + intros [H | H]; [auto|]. destruct (IH H); auto.
Qed.

Lemma dict_set_Forall (P : pystr * pystr -> Prop) (d : dict) (k v : pystr) :
  Forall P d -> P (k, v) -> Forall P (dict_set d k v).
Proof.
  intros Hd Hkv. apply Forall_forall. intros [k' v'] Hin.
  destruct (dict_set_in _ _ _ _ _ Hin) as [[-> ->] | Hold]; [assumption|].
  rewrite Forall_forall in Hd. apply Hd. assumption.
Qed.

(** Every entry of the exact index comes from a row with that id and that
    name. *)
Lemma read_rows_entries (rows : list (pyval * pyval)) (d0 : dict)
    (k v : pystr) :
  In (k, v) (MapItems.read_rows isspace float_str rows d0) ->
  In (k, v) d0
  \/ exists row, In row rows /\ key_of row = k /\ name_in row = v
                 /\ nonempty k = true.
Proof.
  revert d0. induction rows as [|[v_id v_name] rows IH]; intros d0; simpl;
    [auto|].
  intros H. apply IH in H. destruct H as [H | (row & Hin & Hk & Hv & Hne)].
  - destruct (nonempty (strip isspace (MapItems.to_text float_str v_id)))
      eqn:E; [|auto].
    apply dict_set_in in H. destruct H as [[-> ->] | H]; [|auto].
    right. exists (v_id, v_name). auto.
  - right. exists row. auto.
Qed.

(** Every entry of the digits index carries a non-empty key of digits and
    the name of an item with that digits-only form. *)
Lemma comprehension_entries (source items acc : dict) :
  let ok := fun entry : pystr * pystr =>
    fst entry <> [] /\ forallb isdigit (fst entry) = true
    /\ exists k, In (k, snd entry) source /\ digits_of k = fst entry in
  (forall kv, In kv items -> In kv source) ->
  Forall ok acc ->
  Forall ok (MapItems.digits_comprehension isdigit items acc).
Proof.
  intros ok. revert acc.
  induction items as [|[k v] items IH]; intros acc Hsub Hacc; simpl;
    [assumption|].
  apply IH; [intros kv Hin; apply Hsub; right; exact Hin|].
  destruct (nonempty (digits_of k)) eqn:E; [|assumption].
  apply dict_set_Forall; [assumption|].
  unfold ok. simpl. split; [apply nonempty_true; exact E|].
  split.
  - unfold MapItems.digits_only. apply forallb_forall. intros x Hx.
    apply filter_In in Hx. tauto.
  - exists k. split; [apply Hsub; left|]; reflexivity.
Qed.

(** X4: the exact index built by [load_mapping] has pairwise distinct keys
    and maps every non-empty id to the name of the last row with that id
    (trimmed; also when that name is empty); it holds nothing for the empty
    id and for ids of no row. *)
Theorem exact_index_last_row_wins (rows : list (pyval * pyval)) :
  let exact := fst (load rows) in
  NoDup (dkeys exact)
  /\ forall k : pystr,
       dict_get exact k
       = if nonempty k then last_name isspace float_str rows k else None.
Proof.
  intros exact. unfold exact, MapItems.load_mapping. simpl. split.
  - apply read_rows_nodup. constructor.
  - intros k. destruct k as [|x k]; simpl.
    + apply dict_get_none. apply (read_rows_keys_nonempty isdigit).
      simpl. tauto.
    + rewrite read_rows_get by discriminate. simpl.
      destruct (last_name isspace float_str rows (x :: k)); reflexivity.
Qed.

(** X5: the digits index built by [load_mapping] has pairwise distinct
    keys; each of its keys is a non-empty string of digits, and each of its
    entries carries the name the exact index holds for some id whose
    digits-only form is that key. *)
Theorem digits_index_entries (rows : list (pyval * pyval)) :
  let index := load rows in
  NoDup (dkeys (snd index))
  /\ Forall (fun entry : pystr * pystr =>
               fst entry <> []
               /\ forallb isdigit (fst entry) = true
               /\ exists k : pystr,
                    In (k, snd entry) (fst index)
                    /\ digits_of k = fst entry)
       (snd index).
Proof.
  intros index. unfold index, MapItems.load_mapping. simpl. split.
  - apply comprehension_nodup. constructor.
  - apply comprehension_entries; [auto | constructor].
Qed.

(** X6: every id of the mapping whose last row has a non-empty name
    resolves, by a direct hit, to exactly that name. *)
Theorem mapped_id_resolves_to_its_name (rows : list (pyval * pyval))
    (k name : pystr) :
  last_name isspace float_str rows k = Some name ->
  k <> [] ->
  name <> [] ->
  MapItems.map_token isdigit k (fst (load rows)) (snd (load rows))
  = (name, true).
Proof.
  intros Hlast Hk Hname. unfold MapItems.map_token, lookup_nonempty.
  unfold MapItems.load_mapping at 1. simpl.
  rewrite read_rows_get by assumption. rewrite Hlast.
  apply nonempty_true in Hname. rewrite Hname. reflexivity.
Qed.

Lemma lookup_nonempty_in (d : dict) (k name : pystr) :
  lookup_nonempty d k = Some name -> In (k, name) d.
Proof.
  unfold lookup_nonempty. destruct (dict_get d k) as [v|] eqn:E;
    [|discriminate].
  destruct (nonempty v); [|discriminate].
  intros H; inversion H; subst. apply dict_get_in. assumption.
Qed.

Lemma map_token_loop_hit_source (cs : list pystr) (token : pystr)
    (e d : dict) (name : pystr) :
  MapItems.map_token_loop cs token e d = (name, true) ->
  exists k, In (k, name) e \/ In (k, name) d.
Proof.
  induction cs as [|c cs IH]; simpl; [discriminate|].
  destruct (lookup_nonempty e c) as [n1|] eqn:E1.
  - intros H; inversion H; subst. exists c. left.
    apply lookup_nonempty_in. assumption.
  - destruct (lookup_nonempty d c) as [n2|] eqn:E2; [|exact IH].
    intros H; inversion H; subst. exists c. right.
    apply lookup_nonempty_in. assumption.
Qed.

(** X7: a name [map_token] returns with [True] on the indexes built by
    [load_mapping] is the (trimmed) name of one of the mapping rows, a row
    with a non-empty id: a hit never produces a name that is not in the
    table. *)
Theorem hit_name_comes_from_a_row (rows : list (pyval * pyval))
    (token name : pystr) :
  MapItems.map_token isdigit token (fst (load rows)) (snd (load rows))
  = (name, true) ->
  exists row : pyval * pyval,
    In row rows /\ name_in row = name /\ key_of row <> [].
Proof.
  intros H.
  assert (Hsrc : exists k, In (k, name) (fst (load rows))
                           \/ In (k, name) (snd (load rows))).
  { unfold MapItems.map_token in H.
    destruct (lookup_nonempty (fst (load rows)) token) as [n|] eqn:E.
    - inversion H; subst. exists token. left.
      apply lookup_nonempty_in. assumption.
    - eapply map_token_loop_hit_source. exact H. }
  assert (Hexact : exists k, In (k, name) (fst (load rows))).
  { destruct Hsrc as [k [Hin | Hin]]; [eauto|].
    unfold MapItems.load_mapping in Hin. simpl in Hin.
    pose proof (@comprehension_entries
                  (MapItems.read_rows isspace float_str rows [])
                  (MapItems.read_rows isspace float_str rows []) []
                  (fun kv Hkv => Hkv) (Forall_nil _)) as Hall.
    rewrite Forall_forall in Hall. specialize (Hall _ Hin).
    simpl in Hall. destruct Hall as (_ & _ & k' & Hk' & _). eauto. }
  destruct Hexact as [k Hin].
  unfold MapItems.load_mapping in Hin. simpl in Hin.
  apply read_rows_entries in Hin.
  destruct Hin as [[] | (row & Hrow & Hk & Hv & Hne)].
  exists row. split; [assumption|]. split; [assumption|].
  rewrite Hk. apply nonempty_true. assumption.
Qed.

End IndexContents.

(** X6 at the two rows of the specification's example and the id 202. *)
Lemma mapped_id_resolves_witness :
  let rows :=
    [(PyStr (lit "101"), PyStr (lit "Sword"));
     (PyFloat (S754_finite false 202 0), PyStr (lit " Shield "))] in
  lit "202" <> [] /\ lit "Shield" <> []
  /\ forall float_str : spec_float -> pystr,
       last_name unicode_isspace float_str rows (lit "202")
       = Some (lit "Shield")
       /\ MapItems.map_token unicode_isdigit (lit "202")
            (fst (MapItems.load_mapping unicode_isdigit unicode_isspace
                    float_str rows))
            (snd (MapItems.load_mapping unicode_isdigit unicode_isspace
                    float_str rows))
          = (lit "Shield", true).
Proof.
  intros rows. split; [discriminate|]. split; [discriminate|].
  intros float_str.
  assert (H : last_name unicode_isspace float_str rows (lit "202")
              = Some (lit "Shield")) by (vm_compute; reflexivity).
  split; [exact H|].
  apply (@mapped_id_resolves_to_its_name unicode_isdigit unicode_isspace
           float_str rows (lit "202") (lit "Shield") H); discriminate.
Defined.

(** X7 at a token that resolves through the 66-prefix fallback. *)
Lemma hit_name_comes_from_a_row_witness :
  let rows := [(PyStr (lit "66771"), PyStr (lit "BigAxe"))] in
  lit "771" <> lit "66771"
  /\ forall float_str : spec_float -> pystr,
       MapItems.map_token unicode_isdigit (lit "771")
         (fst (MapItems.load_mapping unicode_isdigit unicode_isspace
                 float_str rows))
         (snd (MapItems.load_mapping unicode_isdigit unicode_isspace
                 float_str rows))
       = (lit "BigAxe", true)
       /\ exists row : pyval * pyval,
            In row rows
            /\ row_name unicode_isspace float_str row = lit "BigAxe"
            /\ row_key unicode_isspace float_str row <> [].
Proof.
  intros rows. split; [discriminate|]. intros float_str.
  assert (H : MapItems.map_token unicode_isdigit (lit "771")
                (fst (MapItems.load_mapping unicode_isdigit unicode_isspace
                        float_str rows))
                (snd (MapItems.load_mapping unicode_isdigit unicode_isspace
                        float_str rows))
              = (lit "BigAxe", true)) by (vm_compute; reflexivity).
  split; [exact H|].
  exact (@hit_name_comes_from_a_row unicode_isdigit unicode_isspace
           float_str rows (lit "771") (lit "BigAxe") H).
Defined.

(* ================================================================== *)
(** ** More on [map_token] and [transform_cell] *)

Section MoreRewriting.

Variable isdigit : char -> bool.
Variable isspace : char -> bool.
Variable float_str : spec_float -> pystr.

Local Abbreviation digits_of := (MapItems.digits_only isdigit).

Lemma map_token_loop_same_candidates (cs : list pystr) (t1 t2 : pystr)
    (e d : dict) :
  snd (MapItems.map_token_loop cs t1 e d)
  = snd (MapItems.map_token_loop cs t2 e d)
  /\ (snd (MapItems.map_token_loop cs t1 e d) = true ->
      fst (MapItems.map_token_loop cs t1 e d)
      = fst (MapItems.map_token_loop cs t2 e d)).
Proof.
  induction cs as [|c cs IH]; simpl.
  - split; [reflexivity | discriminate].
  - destruct (lookup_nonempty e c); [split; reflexivity|].
    destruct (lookup_nonempty d c); [split; reflexivity|].
    exact IH.
Qed.

(** X8: whatever is not a digit in a token is ignored once the direct
    lookup fails. Two tokens that are not keys of the exact index with a
    non-empty name and have the same digits-only form are both resolved or
    both missed, and when resolved they get the same name. *)
Theorem same_digits_same_resolution (t1 t2 : pystr) (e d : dict) :
  lookup_nonempty e t1 = None ->
  lookup_nonempty e t2 = None ->
  digits_of t1 = digits_of t2 ->
  snd (MapItems.map_token isdigit t1 e d)
  = snd (MapItems.map_token isdigit t2 e d)
  /\ (snd (MapItems.map_token isdigit t1 e d) = true ->
      fst (MapItems.map_token isdigit t1 e d)
      = fst (MapItems.map_token isdigit t2 e d)).
Proof.
  intros H1 H2 Hd. unfold MapItems.map_token. rewrite H1, H2, Hd.
  apply map_token_loop_same_candidates.
Qed.

Lemma filter_length_le (A : Type) (P : A -> bool) (l : list A) :
  length (filter P l) <= length l.
Proof.
  induction l as [|x l IH]; simpl; [lia|].
  destruct (P x); simpl; lia.
Qed.

(** X9: the count [transform_cell] returns is the number of identifier
    tokens of the cell's body that [map_token] misses (0 for a falsy cell);
    so it never exceeds the number of identifier tokens. *)
Theorem unmatched_count_is_missed_tokens (text : pyval) (keep_prefix : bool)
    (prefix : pystr) (id_to_name id_to_name_digits : dict) :
  let body := cell_body isspace float_str text prefix in
  let count :=
    snd (MapItems.transform_cell isdigit isspace float_str text keep_prefix
           prefix id_to_name id_to_name_digits) in
  count
  = (if truthy text
     then length (filter (is_miss isdigit id_to_name id_to_name_digits)
                    (id_tokens_of body))
     else 0)
  /\ count <= length (id_tokens_of body).
Proof.
  intros body count. unfold count. destruct (truthy text) eqn:Ht.
  - rewrite transform_cell_spec by assumption. simpl. fold body.
    split; [reflexivity | apply filter_length_le].
  - unfold MapItems.transform_cell. rewrite Ht. simpl. split; lia.
Qed.

(** X10: with [keep_prefix] the output of a parsed cell is the prefix
    followed by the output without [keep_prefix], and the counts agree,
    whether or not the cell began with the prefix: a cell that lacked the
    prefix gets it. *)
Theorem keep_prefix_puts_prefix_in_front (text : pyval) (prefix : pystr)
    (id_to_name id_to_name_digits : dict) :
  truthy text = true ->
  exists (core : pystr) (count : nat),
    MapItems.transform_cell isdigit isspace float_str text false prefix
      id_to_name id_to_name_digits = (PyStr core, count)
    /\ MapItems.transform_cell isdigit isspace float_str text true prefix
         id_to_name id_to_name_digits = (PyStr (prefix ++ core), count).
Proof.
  intros Ht. rewrite !transform_cell_spec by assumption.
  eexists. eexists. split; reflexivity.
Qed.

(** X11: called with a list, the web tool's [transform_cell] returns the
    pair of the command-line tool's and leaves the list extended by the
    identifier tokens that were missed, in their order in the cell; their
    number is the returned count. *)
Theorem web_accumulator_collects_missed_tokens (text : pyval)
    (keep_prefix : bool) (prefix : pystr)
    (id_to_name id_to_name_digits : dict) (unmatched_acc : list pystr) :
  let missed :=
    if truthy text
    then filter (is_miss isdigit id_to_name id_to_name_digits)
           (id_tokens_of (cell_body isspace float_str text prefix))
    else [] in
  WebTool.transform_cell isdigit isspace float_str text keep_prefix prefix
    id_to_name id_to_name_digits (Some unmatched_acc)
  = (MapItems.transform_cell isdigit isspace float_str text keep_prefix
       prefix id_to_name id_to_name_digits,
     Some (unmatched_acc ++ missed))
  /\ length missed
     = snd (MapItems.transform_cell isdigit isspace float_str text
              keep_prefix prefix id_to_name id_to_name_digits).
Proof.
  intros missed. unfold missed. rewrite web_transform_cell.
  destruct (truthy text) eqn:Ht.
  - rewrite transform_cell_spec by assumption. simpl. auto.
  - unfold MapItems.transform_cell. rewrite Ht. simpl.
    rewrite app_nil_r. auto.
Qed.

Lemma lstrip_all_space (s : pystr) :
  forallb isspace s = true -> lstrip isspace s = [].
Proof.
  induction s as [|c s IH]; simpl; [reflexivity|].
  rewrite andb_true_iff. intros [Hc Hs]. rewrite Hc. auto.
Qed.

(** X12: a cell that consists of whitespace only is not falsy and is not
    handed back: it is rewritten to the empty string, or to the bare prefix
    when [keep_prefix] is set, with count 0. *)
Theorem whitespace_cell_becomes_empty (s : pystr) (keep_prefix : bool)
    (prefix : pystr) (id_to_name id_to_name_digits : dict) :
  s <> [] ->
  forallb isspace s = true ->
  MapItems.transform_cell isdigit isspace float_str (PyStr s) keep_prefix
    prefix id_to_name id_to_name_digits
  = (PyStr (if keep_prefix then prefix else []), 0).
Proof.
  intros Hne Hsp. apply nonempty_true in Hne.
  unfold MapItems.transform_cell. simpl truthy. rewrite Hne.
  cbn [negb MapItems.to_text]. unfold strip.
  rewrite (lstrip_all_space _ Hsp). unfold rstrip. simpl.
  destruct prefix as [|p prefix']; simpl; rewrite ?app_nil_r; reflexivity.
Qed.

End MoreRewriting.

(** X8 at the tokens ["A-101"] and ["101x"], both resolved through the
    digits index. *)
Lemma same_digits_same_resolution_witness :
  let d := [(lit "101", lit "Sword")] in
  lookup_nonempty [] (lit "A-101") = None
  /\ lookup_nonempty [] (lit "101x") = None
  /\ MapItems.digits_only unicode_isdigit (lit "A-101")
     = MapItems.digits_only unicode_isdigit (lit "101x")
  /\ snd (MapItems.map_token unicode_isdigit (lit "A-101") [] d)
     = snd (MapItems.map_token unicode_isdigit (lit "101x") [] d).
Proof.
  intros d.
  assert (Hd : MapItems.digits_only unicode_isdigit (lit "A-101")
               = MapItems.digits_only unicode_isdigit (lit "101x"))
    by (vm_compute; reflexivity).
  split; [reflexivity|]. split; [reflexivity|]. split; [exact Hd|].
  exact (proj1 (@same_digits_same_resolution unicode_isdigit
                  (lit "A-101") (lit "101x") [] d eq_refl eq_refl Hd)).
Defined.

(** X10 at a cell without the prefix. *)
Lemma keep_prefix_witness :
  let prefix := [0x7269; 0x54C1]%N ++ lit "=" in
  let exact := [(lit "101", lit "Sword")] in
  truthy (PyStr (lit "101")) = true
  /\ forall float_str : spec_float -> pystr,
       exists (core : pystr) (count : nat),
         MapItems.transform_cell unicode_isdigit unicode_isspace float_str
           (PyStr (lit "101")) false prefix exact exact = (PyStr core, count)
         /\ MapItems.transform_cell unicode_isdigit unicode_isspace float_str
              (PyStr (lit "101")) true prefix exact exact
            = (PyStr (prefix ++ core), count).
Proof.
  intros prefix exact. split; [reflexivity|]. intros float_str.
  exact (@keep_prefix_puts_prefix_in_front unicode_isdigit unicode_isspace
           float_str (PyStr (lit "101")) prefix exact exact eq_refl).
Defined.

(** X12 at a cell of two blanks. *)
Lemma whitespace_cell_witness :
  lit "  " <> []
  /\ forallb unicode_isspace (lit "  ") = true
  /\ forall float_str : spec_float -> pystr,
       MapItems.transform_cell unicode_isdigit unicode_isspace float_str
         (PyStr (lit "  ")) true (lit "item=") [] []
       = (PyStr (lit "item="), 0).
Proof.
  assert (Hne : lit "  " <> []) by discriminate.
  assert (Hsp : forallb unicode_isspace (lit "  ") = true) by reflexivity.
  split; [exact Hne | split; [exact Hsp|]]. intros float_str.
  exact (@whitespace_cell_becomes_empty unicode_isdigit unicode_isspace
           float_str (lit "  ") true (lit "item=") [] [] Hne Hsp).
Defined.

(* ================================================================== *)
(** ** [process_source]: what is written and what is counted *)

Section ProcessSource.

Variable isdigit : char -> bool.
Variable isspace : char -> bool.
Variable float_str : spec_float -> pystr.
Variable upper : pystr -> pystr.
Variables id_to_name id_to_name_digits : dict.
Variable keep_prefix : bool.
Variable prefix : pystr.

Variable xlrd_cell_value_raises : nat -> Z -> option exn.
Variable xlwt_write_raises : nat -> Z -> pyval -> option exn.
Variable xlwt_save_raises : grid -> option exn.
Variable openpyxl_cell_raises : nat -> Z -> option exn.
Variable openpyxl_set_value : pyval -> exn + pyval.
Variable openpyxl_save_raises : grid -> option exn.

Local Abbreviation col := (MapItems.col_letter_to_idx isspace upper).
Local Abbreviation rewrite_cell :=
  (fun val : pyval =>
     MapItems.transform_cell isdigit isspace float_str val keep_prefix prefix
       id_to_name id_to_name_digits).
Local Abbreviation xls_loop :=
  (MapItems.process_xls_rows isdigit isspace float_str xlrd_cell_value_raises
     xlwt_write_raises).
Local Abbreviation xlsx_loop :=
  (MapItems.process_xlsx_rows isdigit isspace float_str openpyxl_cell_raises
     openpyxl_set_value).
Local Abbreviation source :=
  (fun (rs : sheet) (ws : worksheet) (ext : pystr)
       (have_xlrd have_openpyxl : bool)
       (read_col_letter write_col_letter : pystr)
       (skip_header_source : bool) =>
     MapItems.process_source isdigit isspace float_str upper
       xlrd_cell_value_raises xlwt_write_raises xlwt_save_raises
       openpyxl_cell_raises openpyxl_set_value openpyxl_save_raises ext
       have_xlrd have_openpyxl rs ws read_col_letter write_col_letter
       id_to_name id_to_name_digits keep_prefix prefix skip_header_source).

Lemma in_seq_range (start len r : nat) :
  existsb (Nat.eqb r) (seq start len) = (start <=? r) && (r <? start + len).
Proof.
  apply Bool.eq_iff_eq_true.
  rewrite existsb_exists, andb_true_iff, Nat.leb_le, Nat.ltb_lt. split.
  - intros (x & Hx & He). apply Nat.eqb_eq in He. subst x.
    apply in_seq in Hx. lia.
  - intros H. exists r. split; [apply in_seq; lia | apply Nat.eqb_refl].
Qed.

Lemma range_to_end (start n r : nat) :
  existsb (Nat.eqb r) (seq start (n - start)) = (start <=? r) && (r <? n).
Proof.
  rewrite in_seq_range. apply Bool.eq_iff_eq_true.
  rewrite !andb_true_iff, !Nat.leb_le, !Nat.ltb_lt. lia.
Qed.

Lemma total_cons (n : nat) (counts : list nat) :
  total (n :: counts) = n + total counts.
Proof. reflexivity. Qed.

Lemma read_xls_cell_ok (rs : sheet) (r : nat) (r_idx : Z) :
  ((r_idx <? Z.of_nat (ncols rs))%Z = true ->
   xlrd_cell_value_raises r r_idx = None) ->
  MapItems.read_xls_cell xlrd_cell_value_raises rs r r_idx
  = inr (xls_read rs r_idx r).
Proof.
  intros H. unfold MapItems.read_xls_cell, xls_read.
  destruct (r_idx <? Z.of_nat (ncols rs))%Z; [|reflexivity].
  rewrite H by reflexivity. reflexivity.
Qed.

Lemma process_xls_rows_cons (rs : sheet) (r0 : nat) (rows : list nat)
    (r_idx w_idx : Z) (ws_w : grid) (converted unmatched : nat) :
  ((r_idx <? Z.of_nat (ncols rs))%Z = true ->
   xlrd_cell_value_raises r0 r_idx = None) ->
  (truthy (xls_read rs r_idx r0) = true ->
   xlwt_write_raises r0 w_idx (fst (rewrite_cell (xls_read rs r_idx r0)))
   = None) ->
  xls_loop rs (r0 :: rows) r_idx w_idx id_to_name id_to_name_digits
    keep_prefix prefix ws_w converted unmatched
  = if truthy (xls_read rs r_idx r0)
    then xls_loop rs rows r_idx w_idx id_to_name id_to_name_digits
           keep_prefix prefix
           (grid_set ws_w r0 w_idx (fst (rewrite_cell (xls_read rs r_idx r0))))
           (converted + 1)
           (unmatched + snd (rewrite_cell (xls_read rs r_idx r0)))
    else xls_loop rs rows r_idx w_idx id_to_name id_to_name_digits
           keep_prefix prefix ws_w converted unmatched.
Proof.
  intros Hread Hwrite. cbn [MapItems.process_xls_rows].
  rewrite read_xls_cell_ok by exact Hread.
  destruct (truthy (xls_read rs r_idx r0)); cbn [negb]; [|reflexivity].
  specialize (Hwrite eq_refl). cbv beta in Hwrite.
  destruct (MapItems.transform_cell isdigit isspace float_str
              (xls_read rs r_idx r0) keep_prefix prefix id_to_name
              id_to_name_digits) as [new_text um].
  cbn [fst] in Hwrite. rewrite Hwrite. reflexivity.
Qed.

(** The [.xls] loop, from any state, when no library call raises. *)
Lemma process_xls_rows_spec (rs : sheet) (rows : list nat) (r_idx w_idx : Z)
    (ws_w : grid) (converted unmatched : nat) :
  (forall r : nat,
     In r rows -> (r_idx <? Z.of_nat (ncols rs))%Z = true ->
     xlrd_cell_value_raises r r_idx = None) ->
  (forall r : nat,
     In r rows -> truthy (xls_read rs r_idx r) = true ->
     xlwt_write_raises r w_idx (fst (rewrite_cell (xls_read rs r_idx r)))
     = None) ->
  let done := filter (fun r => truthy (xls_read rs r_idx r)) rows in
  exists out : grid,
    xls_loop rs rows r_idx w_idx id_to_name id_to_name_digits keep_prefix
      prefix ws_w converted unmatched
    = inr (out, converted + length done,
           unmatched
           + total (map (fun r => snd (rewrite_cell (xls_read rs r_idx r)))
                      done))
    /\ forall (r : nat) (c : Z),
         out r c =
         if (c =? w_idx)%Z && existsb (Nat.eqb r) rows
            && truthy (xls_read rs r_idx r)
         then fst (rewrite_cell (xls_read rs r_idx r))
         else ws_w r c.
Proof.
  revert ws_w converted unmatched.
  induction rows as [|r0 rows IH]; intros ws_w converted unmatched Hread
    Hwrite.
  - exists ws_w. simpl. rewrite !Nat.add_0_r. split; [reflexivity|].
    intros r c. rewrite andb_false_r. reflexivity.
  - assert (Hread' : forall r : nat,
              In r rows -> (r_idx <? Z.of_nat (ncols rs))%Z = true ->
              xlrd_cell_value_raises r r_idx = None)
      by (intros r Hin; apply Hread; right; exact Hin).
    assert (Hwrite' : forall r : nat,
              In r rows -> truthy (xls_read rs r_idx r) = true ->
              xlwt_write_raises r w_idx
                (fst (rewrite_cell (xls_read rs r_idx r))) = None)
      by (intros r Hin; apply Hwrite; right; exact Hin).
    rewrite process_xls_rows_cons
      by (try apply Hread; try apply Hwrite; left; reflexivity).
    cbn [filter].
    destruct (truthy (xls_read rs r_idx r0)) eqn:Et.
    + destruct (IH (grid_set ws_w r0 w_idx
                      (fst (rewrite_cell (xls_read rs r_idx r0))))
                  (converted + 1)
                  (unmatched + snd (rewrite_cell (xls_read rs r_idx r0)))
                  Hread' Hwrite')
        as (out & Heq & Hout).
      exists out. split.
      * rewrite Heq. cbn [map length]. rewrite total_cons.
        do 2 f_equal; [f_equal|]; lia.
      * intros r c. rewrite Hout. unfold grid_set. cbn [existsb].
        destruct (Nat.eqb r r0) eqn:E; [|reflexivity].
        apply Nat.eqb_eq in E. subst r. rewrite Et.
        destruct (c =? w_idx)%Z; simpl; [|reflexivity].
        destruct (existsb (Nat.eqb r0) rows); reflexivity.
    + destruct (IH ws_w converted unmatched Hread' Hwrite')
        as (out & Heq & Hout).
      exists out. split; [exact Heq|].
      intros r c. rewrite Hout. cbn [existsb].
      destruct (Nat.eqb r r0) eqn:E; [|reflexivity].
      apply Nat.eqb_eq in E. subst r. rewrite Et, !andb_false_r.
      reflexivity.
Qed.

Lemma process_xlsx_rows_cons (r0 : nat) (rows : list nat) (r_idx w_idx : Z)
    (ws : grid) (converted unmatched : nat) :
  openpyxl_cell_raises r0 (w_idx + 1)%Z = None ->
  openpyxl_cell_raises r0 (r_idx + 1)%Z = None ->
  (not_none (ws r0 (r_idx + 1)%Z) = true ->
   openpyxl_set_value (fst (rewrite_cell (ws r0 (r_idx + 1)%Z)))
   = inr (fst (rewrite_cell (ws r0 (r_idx + 1)%Z)))) ->
  xlsx_loop (r0 :: rows) r_idx w_idx id_to_name id_to_name_digits keep_prefix
    prefix ws converted unmatched
  = if not_none (ws r0 (r_idx + 1)%Z)
    then xlsx_loop rows r_idx w_idx id_to_name id_to_name_digits keep_prefix
           prefix
           (grid_set ws r0 (w_idx + 1)%Z
              (fst (rewrite_cell (ws r0 (r_idx + 1)%Z))))
           (converted + 1)
           (unmatched + snd (rewrite_cell (ws r0 (r_idx + 1)%Z)))
    else xlsx_loop rows r_idx w_idx id_to_name id_to_name_digits keep_prefix
           prefix ws converted unmatched.
Proof.
  intros Hw Hr Hset. cbn [MapItems.process_xlsx_rows]. rewrite Hw, Hr.
  cbv beta in Hset.
  destruct (ws r0 (r_idx + 1)%Z) as [|n|x|t] eqn:Ev; cbn [not_none] in *;
    [reflexivity| | |];
    specialize (Hset eq_refl);
    match goal with
    | |- context [MapItems.transform_cell ?a ?b ?c ?v ?k ?p ?e ?d] =>
        destruct (MapItems.transform_cell a b c v k p e d)
    end; cbn [fst] in Hset; rewrite Hset; reflexivity.
Qed.

(** The [.xlsx] loop, from any state, over rows that are all different,
    when no library call raises and the values are stored as given. *)
Lemma process_xlsx_rows_spec (rows : list nat) (r_idx w_idx : Z) (ws : grid)
    (converted unmatched : nat) :
  NoDup rows ->
  (forall r : nat,
     In r rows ->
     openpyxl_cell_raises r (w_idx + 1)%Z = None
     /\ openpyxl_cell_raises r (r_idx + 1)%Z = None) ->
  (forall r : nat,
     In r rows -> not_none (ws r (r_idx + 1)%Z) = true ->
     openpyxl_set_value (fst (rewrite_cell (ws r (r_idx + 1)%Z)))
     = inr (fst (rewrite_cell (ws r (r_idx + 1)%Z)))) ->
  let done := filter (fun r => not_none (ws r (r_idx + 1)%Z)) rows in
  exists out : grid,
    xlsx_loop rows r_idx w_idx id_to_name id_to_name_digits keep_prefix
      prefix ws converted unmatched
    = inr (out, converted + length done,
           unmatched
           + total (map (fun r => snd (rewrite_cell (ws r (r_idx + 1)%Z)))
                      done))
    /\ forall (r : nat) (c : Z),
         out r c =
         if (c =? w_idx + 1)%Z && existsb (Nat.eqb r) rows
            && not_none (ws r (r_idx + 1)%Z)
         then fst (rewrite_cell (ws r (r_idx + 1)%Z))
         else ws r c.
Proof.
  revert ws converted unmatched.
  induction rows as [|r0 rows IH]; intros ws converted unmatched Hnd Hcell
    Hset.
  - exists ws. simpl. rewrite !Nat.add_0_r. split; [reflexivity|].
    intros r c. rewrite andb_false_r. reflexivity.
  - inversion Hnd as [|? ? Hout0 Hnd']; subst.
    assert (Hno : existsb (Nat.eqb r0) rows = false).
    { destruct (existsb (Nat.eqb r0) rows) eqn:Ex; [|reflexivity].
      apply existsb_exists in Ex. destruct Ex as (x & Hx & Hxe).
      apply Nat.eqb_eq in Hxe. subst x. contradiction. }
    assert (Hcell' : forall r : nat,
              In r rows ->
              openpyxl_cell_raises r (w_idx + 1)%Z = None
              /\ openpyxl_cell_raises r (r_idx + 1)%Z = None)
      by (intros r Hin; apply Hcell; right; exact Hin).
    destruct (Hcell r0 (or_introl eq_refl)) as [Hc1 Hc2].
    rewrite process_xlsx_rows_cons
      by (try assumption; apply Hset; left; reflexivity).
    cbn [filter].
    destruct (not_none (ws r0 (r_idx + 1)%Z)) eqn:En.
    + set (ws1 := grid_set ws r0 (w_idx + 1)%Z
                    (fst (rewrite_cell (ws r0 (r_idx + 1)%Z)))).
      assert (Hsame : forall r, In r rows ->
                ws1 r (r_idx + 1)%Z = ws r (r_idx + 1)%Z).
      { intros r Hin. unfold ws1, grid_set.
        destruct (Nat.eqb r r0) eqn:E; [|reflexivity].
        apply Nat.eqb_eq in E. subst r. contradiction. }
      assert (Hset1 : forall r : nat,
                In r rows -> not_none (ws1 r (r_idx + 1)%Z) = true ->
                openpyxl_set_value (fst (rewrite_cell (ws1 r (r_idx + 1)%Z)))
                = inr (fst (rewrite_cell (ws1 r (r_idx + 1)%Z)))).
      { intros r Hin. rewrite (Hsame r Hin). apply Hset. right. exact Hin. }
      destruct (IH ws1 (converted + 1)
                  (unmatched + snd (rewrite_cell (ws r0 (r_idx + 1)%Z)))
                  Hnd' Hcell' Hset1) as (out & Heq & Hout).
      exists out. split.
      * rewrite Heq.
        rewrite (filter_ext_in (fun r => not_none (ws1 r (r_idx + 1)%Z))
                   (fun r => not_none (ws r (r_idx + 1)%Z)) rows)
          by (intros r Hin; rewrite Hsame by assumption; reflexivity).
        rewrite (map_ext_in
                   (fun r => snd (rewrite_cell (ws1 r (r_idx + 1)%Z)))
                   (fun r => snd (rewrite_cell (ws r (r_idx + 1)%Z))))
          by (intros r Hin; apply filter_In in Hin; destruct Hin as [Hin _];
              rewrite Hsame by assumption; reflexivity).
        cbn [map length]. rewrite total_cons.
        do 2 f_equal; [f_equal|]; lia.
      * intros r c. rewrite Hout. cbn [existsb].
        destruct (Nat.eqb r r0) eqn:E.
        -- apply Nat.eqb_eq in E. subst r.
           rewrite Hno, En, andb_false_r. simpl.
           unfold ws1, grid_set. rewrite Nat.eqb_refl. simpl.
           rewrite ?andb_true_r.
           destruct (c =? w_idx + 1)%Z; reflexivity.
        -- simpl.
           destruct (existsb (Nat.eqb r) rows) eqn:Ex.
           ++ apply existsb_exists in Ex. destruct Ex as (x & Hx & Hxe).
              apply Nat.eqb_eq in Hxe. subst x.
              rewrite (Hsame r Hx). unfold ws1, grid_set. rewrite E.
              reflexivity.
           ++ rewrite !andb_false_r. simpl. unfold ws1, grid_set. rewrite E.
              reflexivity.
    + assert (Hset' : forall r : nat,
                In r rows -> not_none (ws r (r_idx + 1)%Z) = true ->
                openpyxl_set_value (fst (rewrite_cell (ws r (r_idx + 1)%Z)))
                = inr (fst (rewrite_cell (ws r (r_idx + 1)%Z))))
        by (intros r Hin; apply Hset; right; exact Hin).
      destruct (IH ws converted unmatched Hnd' Hcell' Hset')
        as (out & Heq & Hout).
      exists out. split; [exact Heq|].
      intros r c. rewrite Hout. cbn [existsb].
      destruct (Nat.eqb r r0) eqn:E; [|reflexivity].
      apply Nat.eqb_eq in E. subst r.
      rewrite Hno, En, !andb_false_r. reflexivity.
Qed.

(** X13: [process_source] on an [.xls] source, with valid column letters
    and [xlrd] present, when the library calls of the loop do not raise:
    [cell_value] on the read cells and [write] on the cells to convert
    ([xlwt] takes the columns 0 to 255 only). Then the call ends as
    [wb_w.save] ends; unless that raises it reports [nrows], the number of
    data rows whose read cell is truthy and the sum of their unmatched
    counts. The sheet handed to [save] differs from the source only in the
    write column of exactly those rows, which holds the rewritten cell,
    always a string (a number read is written back as text). Header row,
    falsy cells and all other columns stay as they are. *)
Theorem process_source_xls_writes_and_counts (have_openpyxl : bool)
    (rs : sheet) (ws : worksheet) (read_col_letter write_col_letter : pystr)
    (skip_header_source : bool) (r_idx w_idx : Z) :
  col read_col_letter = inr r_idx ->
  col write_col_letter = inr w_idx ->
  let start_row := if skip_header_source then 1 else 0 in
  let rows := seq start_row (nrows rs - start_row) in
  let done := filter (fun r => truthy (xls_read rs r_idx r)) rows in
  (forall r : nat,
     In r rows -> (r_idx <? Z.of_nat (ncols rs))%Z = true ->
     xlrd_cell_value_raises r r_idx = None) ->
  (forall r : nat,
     In r done ->
     xlwt_write_raises r w_idx (fst (rewrite_cell (xls_read rs r_idx r)))
     = None) ->
  exists out : grid,
    source rs ws (lit ".xls") true have_openpyxl read_col_letter
      write_col_letter skip_header_source
    = match xlwt_save_raises out with
      | Some e => inl e
      | None =>
          inr (out,
               (nrows rs, length done,
                total (map (fun r => snd (rewrite_cell (xls_read rs r_idx r)))
                         done)))
      end
    /\ (forall (r : nat) (c : Z),
          out r c =
          if (c =? w_idx)%Z && (start_row <=? r) && (r <? nrows rs)
             && truthy (xls_read rs r_idx r)
          then fst (rewrite_cell (xls_read rs r_idx r))
          else cell_value rs r c)
    /\ (forall r : nat,
          truthy (xls_read rs r_idx r) = true ->
          exists t : pystr,
            fst (rewrite_cell (xls_read rs r_idx r)) = PyStr t).
Proof.
  intros Hr Hw start_row rows done Hread Hwrite.
  destruct (@process_xls_rows_spec rs rows r_idx w_idx (cell_value rs) 0 0
              Hread) as (out & Heq & Hout).
  { intros r Hin Ht. apply Hwrite. apply filter_In. split; assumption. }
  exists out. split; [|split].
  - unfold MapItems.process_source. rewrite Hr, Hw.
    change (str_eqb (lit ".xls") (lit ".xls")) with true. cbn [negb].
    fold start_row. fold rows. rewrite Heq. reflexivity.
  - intros r c. rewrite Hout. unfold rows.
    rewrite range_to_end, !andb_assoc. reflexivity.
  - intros r Ht. simpl. rewrite transform_cell_spec by assumption.
    eexists. reflexivity.
Qed.

(** X14: [process_source] on an [.xlsx] source, with valid column letters
    and [openpyxl] present, when the library calls of the loop do not
    raise and the cells store what they are given: [ws.cell] for the write
    and the read column of every row ([openpyxl] takes no column below 1),
    [cell.value = new_text] on the cells to convert. Then the call ends as
    [wb.save] ends; unless that raises it reports [max_row], the number of
    rows from the start row on whose read cell is not [None] and the sum
    of their unmatched counts. The worksheet, rewritten in place, differs
    from the source only in the write column of exactly those rows, also
    when the write column is the read column. Unlike the [.xls] branch it
    counts a falsy cell that is not [None] ([0], [0.0], ['']) as converted
    and writes that value itself into the write column. *)
Theorem process_source_xlsx_writes_and_counts (have_xlrd : bool)
    (rs : sheet) (ws : worksheet) (read_col_letter write_col_letter : pystr)
    (skip_header_source : bool) (r_idx w_idx : Z) :
  col read_col_letter = inr r_idx ->
  col write_col_letter = inr w_idx ->
  let start_row := if skip_header_source then 2 else 1 in
  let rows := seq start_row (max_row ws + 1 - start_row) in
  let read := fun r : nat => cell ws r (r_idx + 1)%Z in
  let done := filter (fun r => not_none (read r)) rows in
  (forall r : nat,
     In r rows ->
     openpyxl_cell_raises r (w_idx + 1)%Z = None
     /\ openpyxl_cell_raises r (r_idx + 1)%Z = None) ->
  (forall r : nat,
     In r done ->
     openpyxl_set_value (fst (rewrite_cell (read r)))
     = inr (fst (rewrite_cell (read r)))) ->
  exists out : grid,
    source rs ws (lit ".xlsx") have_xlrd true read_col_letter
      write_col_letter skip_header_source
    = match openpyxl_save_raises out with
      | Some e => inl e
      | None =>
          inr (out,
               (max_row ws, length done,
                total (map (fun r => snd (rewrite_cell (read r))) done)))
      end
    /\ (forall (r : nat) (c : Z),
          out r c =
          if (c =? w_idx + 1)%Z && (start_row <=? r) && (r <=? max_row ws)
             && not_none (read r)
          then fst (rewrite_cell (read r))
          else cell ws r c)
    /\ (forall r : nat,
          truthy (read r) = false -> rewrite_cell (read r) = (read r, 0)).
Proof.
  intros Hr Hw start_row rows read done Hcell Hset.
  destruct (@process_xlsx_rows_spec rows r_idx w_idx (cell ws) 0 0
              (seq_NoDup _ _) Hcell) as (out & Heq & Hout).
  { intros r Hin Hn. apply Hset. apply filter_In. split; assumption. }
  exists out. split; [|split].
  - unfold MapItems.process_source. rewrite Hr, Hw.
    change (str_eqb (lit ".xlsx") (lit ".xls")) with false.
    change (str_eqb (lit ".xlsx") (lit ".xlsx")) with true. cbn [negb].
    fold start_row. fold rows. rewrite Heq. reflexivity.
  - intros r c. rewrite Hout. unfold rows. rewrite range_to_end.
    unfold read.
    replace (r <? max_row ws + 1) with (r <=? max_row ws);
      [rewrite !andb_assoc; reflexivity|].
    apply Bool.eq_iff_eq_true. rewrite Nat.leb_le, Nat.ltb_lt. lia.
  - intros r Hf. simpl. unfold MapItems.transform_cell. rewrite Hf.
    reflexivity.
Qed.

End ProcessSource.

(** X13 at a sheet of three rows (a header, the id 101 as a number, an
    empty cell), read from column A and written to column B, with library
    calls that raise nothing, as is the case on these cells. *)
Lemma process_source_xls_witness :
  let rs :=
    {| nrows := 3; ncols := 2;
       cell_value := fun r c =>
         if (c =? 0)%Z
         then match r with
              | 0 => PyStr (lit "item")
              | 1 => PyFloat (S754_finite false 101 0)
              | _ => PyStr []
              end
         else PyStr [] |} in
  let exact := [(lit "101", lit "Sword")] in
  MapItems.col_letter_to_idx unicode_isspace unicode_upper (lit "a")
  = inr 0%Z
  /\ MapItems.col_letter_to_idx unicode_isspace unicode_upper (lit "B")
     = inr 1%Z
  /\ forall (float_str : spec_float -> pystr) (ws : worksheet)
            (openpyxl_cell_raises : nat -> Z -> option exn)
            (openpyxl_set_value : pyval -> exn + pyval)
            (openpyxl_save_raises : grid -> option exn),
       exists out : grid,
         MapItems.process_source unicode_isdigit unicode_isspace float_str
           unicode_upper (fun _ _ => None) (fun _ _ _ => None)
           (fun _ => None) openpyxl_cell_raises openpyxl_set_value
           openpyxl_save_raises (lit ".xls") true false rs ws (lit "a")
           (lit "B") exact exact false [] true
         = inr (out, (3, 1, 0))
         /\ out 1 1%Z = PyStr (lit "Sword")
         /\ out 0 1%Z = PyStr []
         /\ out 2 1%Z = PyStr [].
Proof.
  intros rs exact.
  assert (Ha : MapItems.col_letter_to_idx unicode_isspace unicode_upper
                 (lit "a") = inr 0%Z) by (vm_compute; reflexivity).
  assert (Hb : MapItems.col_letter_to_idx unicode_isspace unicode_upper
                 (lit "B") = inr 1%Z) by (vm_compute; reflexivity).
  split; [exact Ha | split; [exact Hb|]].
  intros float_str ws openpyxl_cell_raises openpyxl_set_value
    openpyxl_save_raises.
  destruct (@process_source_xls_writes_and_counts unicode_isdigit
              unicode_isspace float_str unicode_upper exact exact false []
              (fun _ _ => None) (fun _ _ _ => None) (fun _ => None)
              openpyxl_cell_raises openpyxl_set_value openpyxl_save_raises
              false rs ws (lit "a") (lit "B") true 0%Z 1%Z Ha Hb
              (fun _ _ _ => eq_refl) (fun _ _ => eq_refl))
    as (out & Heq & Hout & _).
  exists out. split; [rewrite Heq; vm_compute; reflexivity|].
  rewrite !Hout. repeat split; vm_compute; reflexivity.
Defined.

(** X14 at a worksheet of three rows whose read column holds a header,
    the number 0 and the id 303, read from and written to column A, with
    library calls that raise nothing and cells that store what they are
    given, as is the case on these cells. *)
Lemma process_source_xlsx_witness :
  let ws :=
    {| max_row := 3;
       cell := fun r c =>
         if (c =? 1)%Z
         then match r with
              | 1 => PyStr (lit "item")
              | 2 => PyInt 0
              | 3 => PyInt 303
              | _ => PyNone
              end
         else PyNone |} in
  let exact := [(lit "101", lit "Sword")] in
  MapItems.col_letter_to_idx unicode_isspace unicode_upper (lit "A")
  = inr 0%Z
  /\ forall (float_str : spec_float -> pystr) (rs : sheet)
            (xlrd_cell_value_raises : nat -> Z -> option exn)
            (xlwt_write_raises : nat -> Z -> pyval -> option exn)
            (xlwt_save_raises : grid -> option exn),
       exists out : grid,
         MapItems.process_source unicode_isdigit unicode_isspace float_str
           unicode_upper xlrd_cell_value_raises xlwt_write_raises
           xlwt_save_raises (fun _ _ => None) (fun v => inr v)
           (fun _ => None) (lit ".xlsx") false true rs ws (lit "A")
           (lit "A") exact exact false [] true
         = inr (out, (3, 2, 1))
         /\ out 1 1%Z = PyStr (lit "item")
         /\ out 2 1%Z = PyInt 0
         /\ out 3 1%Z = PyStr (lit "303").
Proof.
  intros ws exact.
  assert (Ha : MapItems.col_letter_to_idx unicode_isspace unicode_upper
                 (lit "A") = inr 0%Z) by (vm_compute; reflexivity).
  split; [exact Ha|].
  intros float_str rs xlrd_cell_value_raises xlwt_write_raises
    xlwt_save_raises.
  destruct (@process_source_xlsx_writes_and_counts unicode_isdigit
              unicode_isspace float_str unicode_upper exact exact false []
              xlrd_cell_value_raises xlwt_write_raises xlwt_save_raises
              (fun _ _ => None) (fun v => inr v) (fun _ => None)
              false rs ws (lit "A") (lit "A") true 0%Z 0%Z Ha Ha
              (fun _ _ => conj eq_refl eq_refl) (fun _ _ => eq_refl))
    as (out & Heq & Hout & _).
  exists out. split; [rewrite Heq; vm_compute; reflexivity|].
  rewrite !Hout. repeat split; vm_compute; reflexivity.
Defined.

(* ================================================================== *)
(** ** The conversion of [index] in [webtool/app.py] *)

Section WebIndex.

Variable isspace : char -> bool.
Variable upper : pystr -> pystr.

Local Abbreviation web_col := (WebTool.col_letter_to_idx isspace upper).
Local Abbreviation name_error := (NameError (lit "unmatched_tokens")).

(** A row of the [.xls] loop for which [transform_cell] is to be called. *)
Local Abbreviation wants_xls :=
  (fun (rs : sheet) (r_idx : Z) (skip_header_source : bool) (r : nat) =>
     ((if skip_header_source then 1 else 0) <=? r)
     && (r_idx <? Z.of_nat (ncols rs))%Z
     && WebTool.not_blank (cell_value rs r r_idx)).

Lemma index_xls_rows_spec (rs : sheet) (rows : list nat) (r_idx : Z)
    (skip_header_source : bool) (ws_out : list (list pyval)) :
  WebTool.index_xls_rows rs rows r_idx skip_header_source ws_out =
  if existsb (wants_xls rs r_idx skip_header_source) rows
  then inl name_error
  else inr (ws_out ++ map (sheet_row rs) rows).
Proof.
  revert ws_out. induction rows as [|r rows IH]; intros ws_out.
  - simpl. rewrite app_nil_r. reflexivity.
  - change (WebTool.index_xls_rows rs (r :: rows) r_idx skip_header_source
              ws_out)
      with (if wants_xls rs r_idx skip_header_source r
            then inl name_error
            else WebTool.index_xls_rows rs rows r_idx skip_header_source
                   (ws_out ++ [sheet_row rs r])).
    cbn [existsb map].
    destruct (wants_xls rs r_idx skip_header_source r); [reflexivity|].
    cbn [orb]. rewrite IH.
    destruct (existsb (wants_xls rs r_idx skip_header_source) rows);
      [reflexivity|].
    rewrite <- app_assoc. reflexivity.
Qed.

Lemma index_xlsx_rows_spec (ws : grid) (rows : list nat) (r_idx : Z) :
  WebTool.index_xlsx_rows ws rows r_idx =
  if existsb (fun r => not_none (ws r (r_idx + 1)%Z)) rows
  then inl name_error
  else inr ws.
Proof.
  induction rows as [|r rows IH]; [reflexivity|].
  cbn [WebTool.index_xlsx_rows existsb].
  destruct (ws r (r_idx + 1)%Z); cbn [not_none orb];
    [exact IH | reflexivity | reflexivity | reflexivity].
Qed.

(** X15: the conversion of [index] never rewrites a cell. Whenever it
    saves an output workbook, that workbook holds the rows of the uploaded
    sheet as they were (or, for [.xlsx], the unchanged worksheet) and no
    data row had anything to convert in the read column; after the save
    the call sends the file when the export of unmatched ids was not asked
    for, and raises [NameError] for [unmatched_tokens] when it was. When
    it saves nothing and does not raise, it has flashed one of its two
    messages and redirects; it never sends a file it has not saved. *)
Theorem index_saves_only_untouched_sheets (ext : pystr) (have_xlrd : bool)
    (rs : sheet) (ws : worksheet) (read_col write_col : pystr)
    (skip_header_source export_unmatched : bool) :
  let result :=
    WebTool.index_convert isspace upper ext have_xlrd rs ws read_col
      write_col skip_header_source export_unmatched in
  (forall (out : WebTool.saved_workbook)
          (ending : exn + WebTool.index_reply),
     result = (Some out, ending) ->
     ending = (if export_unmatched then inl name_error
               else inr WebTool.SendFile)
     /\ match out with
        | WebTool.SavedRows rows =>
            rows = map (sheet_row rs) (seq 0 (nrows rs))
            /\ forall r_idx : Z,
                 web_col read_col = inr r_idx ->
                 existsb (wants_xls rs r_idx skip_header_source)
                   (seq 0 (nrows rs)) = false
        | WebTool.SavedSheet ws' =>
            ws' = cell ws
            /\ forall (r_idx : Z) (r : nat),
                 web_col read_col = inr r_idx ->
                 (if skip_header_source then 2 else 1) <= r <= max_row ws ->
                 cell ws r (r_idx + 1)%Z = PyNone
        end)
  /\ forall reply : WebTool.index_reply,
       result = (None, inr reply) ->
       reply = WebTool.FlashAndRedirect WebTool.msg_no_xlrd
       \/ reply = WebTool.FlashAndRedirect WebTool.msg_unsupported_source.
Proof.
  intros result. unfold result, WebTool.index_convert.
  destruct (web_col read_col) as [e1|r_idx];
    [split; intros; discriminate|].
  destruct (web_col write_col) as [e2|w_idx];
    [split; intros; discriminate|].
  rewrite index_xls_rows_spec, index_xlsx_rows_spec.
  destruct (str_eqb ext (lit ".xls")).
  - destruct have_xlrd; cbn [negb].
    + destruct (existsb (wants_xls rs r_idx skip_header_source)
                  (seq 0 (nrows rs))) eqn:Ex;
        [split; intros; discriminate|].
      split; [|intros; discriminate].
      intros out ending H. injection H as <- <-.
      split; [reflexivity|]. simpl. split; [reflexivity|].
      intros r' Hr'. injection Hr' as <-. exact Ex.
    + split; [intros; discriminate|].
      intros reply H. injection H as <-. left. reflexivity.
  - destruct (str_eqb ext (lit ".xlsx")).
    + match goal with
      | |- context [existsb ?f ?l] => destruct (existsb f l) eqn:Ex
      end; [split; intros; discriminate|].
      split; [|intros; discriminate].
      intros out ending H. injection H as <- <-.
      split; [reflexivity|]. split; [reflexivity|].
      intros r' r Hr' Hrange. injection Hr' as <-.
      destruct (cell ws r (r_idx + 1)%Z) eqn:Ev; [reflexivity| | |];
        exfalso;
        (assert (Hin : existsb (fun r0 => not_none (cell ws r0 (r_idx + 1)%Z))
                         (seq (if skip_header_source then 2 else 1)
                            (max_row ws + 1
                             - (if skip_header_source then 2 else 1)))
                       = true);
         [apply existsb_exists; exists r; split;
          [apply in_seq; destruct skip_header_source; lia
          | rewrite Ev; reflexivity]
         | rewrite Hin in Ex; discriminate]).
    + split; [intros; discriminate|].
      intros reply H. injection H as <-. right. reflexivity.
Qed.

(** X16: with valid column letters, an [.xls] upload and [xlrd] present,
    the conversion of [index] raises [NameError] for the name
    [unmatched_tokens] as soon as one data row has, in the read column, a
    cell that is neither [None] nor ['']; the same on an [.xlsx] upload for
    a cell that is not [None]. No output workbook has been saved then. *)
Theorem index_fails_on_the_first_cell_to_convert (have_xlrd : bool)
    (rs : sheet) (ws : worksheet) (read_col write_col : pystr)
    (skip_header_source export_unmatched : bool) (r_idx w_idx : Z)
    (r : nat) :
  web_col read_col = inr r_idx ->
  web_col write_col = inr w_idx ->
  (r < nrows rs ->
   wants_xls rs r_idx skip_header_source r = true ->
   WebTool.index_convert isspace upper (lit ".xls") true rs ws read_col
     write_col skip_header_source export_unmatched
   = (None, inl name_error))
  /\ ((if skip_header_source then 2 else 1) <= r <= max_row ws ->
      cell ws r (r_idx + 1)%Z <> PyNone ->
      WebTool.index_convert isspace upper (lit ".xlsx") have_xlrd rs ws
        read_col write_col skip_header_source export_unmatched
      = (None, inl name_error)).
Proof.
  intros Hr Hw. split.
  - intros Hlt Hwant. unfold WebTool.index_convert. rewrite Hr, Hw.
    change (str_eqb (lit ".xls") (lit ".xls")) with true. cbn [negb].
    rewrite index_xls_rows_spec.
    assert (Hex : existsb (wants_xls rs r_idx skip_header_source)
                    (seq 0 (nrows rs)) = true).
    { apply existsb_exists. exists r. split; [apply in_seq; lia|].
      exact Hwant. }
    rewrite Hex. reflexivity.
  - intros Hrange Hv. unfold WebTool.index_convert. rewrite Hr, Hw.
    change (str_eqb (lit ".xlsx") (lit ".xls")) with false.
    change (str_eqb (lit ".xlsx") (lit ".xlsx")) with true.
    rewrite index_xlsx_rows_spec.
    match goal with
    | |- context [existsb ?f ?l] =>
        assert (Hex : existsb f l = true)
    end.
    { apply existsb_exists. exists r. split.
      - apply in_seq. destruct skip_header_source; lia.
      - destruct (cell ws r (r_idx + 1)%Z); [congruence | | |]; reflexivity. }
    rewrite Hex. reflexivity.
Qed.

End WebIndex.

(** X15 at a sheet whose read column is blank below the header, with the
    export of unmatched ids asked for: the rows are saved as they were,
    then the call raises. *)
Lemma index_saves_untouched_witness :
  let rs :=
    {| nrows := 2; ncols := 1;
       cell_value := fun r c =>
         match r with
         | 0 => PyStr (lit "item")
         | _ => PyStr []
         end |} in
  let ws := {| max_row := 0; cell := fun _ _ => PyNone |} in
  let rows := [[PyStr (lit "item")]; [PyStr []]] in
  WebTool.index_convert unicode_isspace unicode_upper (lit ".xls") true rs ws
    (lit "A") (lit "B") true true
  = (Some (WebTool.SavedRows rows), inl (NameError (lit "unmatched_tokens")))
  /\ rows = map (sheet_row rs) (seq 0 (nrows rs)).
Proof.
  intros rs ws rows.
  assert (H : WebTool.index_convert unicode_isspace unicode_upper
                (lit ".xls") true rs ws (lit "A") (lit "B") true true
              = (Some (WebTool.SavedRows rows),
                 inl (NameError (lit "unmatched_tokens"))))
    by (vm_compute; reflexivity).
  split; [exact H|].
  exact (proj1 (proj2 (proj1 (@index_saves_only_untouched_sheets
                                unicode_isspace unicode_upper (lit ".xls")
                                true rs ws (lit "A") (lit "B") true true)
                         (WebTool.SavedRows rows) _ H))).
Defined.

(** X16 at a sheet with the id 101 below the header. *)
Lemma index_fails_witness :
  let rs :=
    {| nrows := 2; ncols := 1;
       cell_value := fun r c =>
         match r with
         | 0 => PyStr (lit "item")
         | _ => PyFloat (S754_finite false 101 0)
         end |} in
  let ws := {| max_row := 0; cell := fun _ _ => PyNone |} in
  WebTool.col_letter_to_idx unicode_isspace unicode_upper (lit "A")
  = inr 0%Z
  /\ WebTool.col_letter_to_idx unicode_isspace unicode_upper (lit "B")
     = inr 1%Z
  /\ 1 < nrows rs
  /\ WebTool.index_convert unicode_isspace unicode_upper (lit ".xls") true
       rs ws (lit "A") (lit "B") true false
     = (None, inl (NameError (lit "unmatched_tokens"))).
Proof.
  intros rs ws.
  assert (Ha : WebTool.col_letter_to_idx unicode_isspace unicode_upper
                 (lit "A") = inr 0%Z) by (vm_compute; reflexivity).
  assert (Hb : WebTool.col_letter_to_idx unicode_isspace unicode_upper
                 (lit "B") = inr 1%Z) by (vm_compute; reflexivity).
  assert (Hlt : 1 < nrows rs) by (simpl; lia).
  split; [exact Ha | split; [exact Hb | split; [exact Hlt|]]].
  exact (proj1 (@index_fails_on_the_first_cell_to_convert unicode_isspace
                  unicode_upper true rs ws (lit "A") (lit "B") true false
                  0%Z 1%Z 1 Ha Hb) Hlt eq_refl).
Defined.

(* ================================================================== *)
(** ** The admin login *)

Section AdminLogin.

Variable cfg : WebTool.admin_config.

Local Abbreviation no_logout :=
  (forallb (fun req : WebTool.request => negb (is_logout req))).

(** A protected view keeps the login state of the session. *)
Lemma require_login_keeps_session (view : WebTool.session ->
                                          WebTool.session * WebTool.response)
    (path : pystr) (st : WebTool.session) :
  (forall st0, WebTool.logged_in (fst (view st0)) = WebTool.logged_in st0) ->
  WebTool.logged_in (fst (WebTool.require_login cfg view path st))
  = WebTool.logged_in st.
Proof.
  intros Hview. unfold WebTool.require_login.
  destruct (WebTool.admin_enabled cfg && negb (WebTool.logged_in st));
    [reflexivity | apply Hview].
Qed.

Lemma files_view_keeps_session (kind filename : pystr) (found : bool)
    (st : WebTool.session) :
  WebTool.logged_in (fst (WebTool.files_view kind filename found st))
  = WebTool.logged_in st.
Proof.
  unfold WebTool.files_view.
  destruct (str_eqb kind (lit "uploads")); [reflexivity|].
  destruct (str_eqb kind (lit "outputs")); reflexivity.
Qed.

(** How one request changes the login state. *)
Lemma handle_session (req : WebTool.request) (st : WebTool.session) :
  WebTool.logged_in (fst (WebTool.handle cfg req st))
  = if is_logout req then false
    else if WebTool.admin_enabled cfg && good_login cfg req then true
    else WebTool.logged_in st.
Proof.
  destruct req as [| |kind filename found|is_post next username password|];
    cbn [WebTool.handle is_logout good_login].
  - rewrite andb_false_r.
    apply require_login_keeps_session. reflexivity.
  - rewrite andb_false_r.
    apply require_login_keeps_session. reflexivity.
  - rewrite andb_false_r.
    apply require_login_keeps_session. apply files_view_keeps_session.
  - unfold WebTool.login_view.
    destruct (WebTool.admin_enabled cfg); cbn [negb andb]; [|reflexivity].
    destruct is_post; [|reflexivity].
    destruct (WebTool.equals_config (WebTool.form_get username)
                (WebTool.ADMIN_USERNAME cfg)
              && WebTool.equals_config (WebTool.form_get password)
                   (WebTool.ADMIN_PASSWORD cfg)); reflexivity.
  - reflexivity.
Qed.

(** A protected page is handed out only to a logged-in session, or when
    the login is not configured. *)
Lemma handle_protected_page (req : WebTool.request) (st : WebTool.session) :
  is_protected_page (snd (WebTool.handle cfg req st)) = true ->
  WebTool.admin_enabled cfg = true ->
  WebTool.logged_in st = true.
Proof.
  intros Hpage Hen.
  destruct req as [| |kind filename found|is_post next username password|];
    cbn [WebTool.handle] in Hpage.
  - unfold WebTool.require_login in Hpage. rewrite Hen in Hpage.
    destruct (WebTool.logged_in st); [reflexivity | discriminate].
  - unfold WebTool.require_login in Hpage. rewrite Hen in Hpage.
    destruct (WebTool.logged_in st); [reflexivity | discriminate].
  - unfold WebTool.require_login in Hpage. rewrite Hen in Hpage.
    destruct (WebTool.logged_in st); [reflexivity | discriminate].
  - unfold WebTool.login_view in Hpage. rewrite Hen in Hpage.
    cbn [negb] in Hpage. destruct is_post; [|discriminate].
    destruct (WebTool.equals_config (WebTool.form_get username)
                (WebTool.ADMIN_USERNAME cfg)
              && WebTool.equals_config (WebTool.form_get password)
                   (WebTool.ADMIN_PASSWORD cfg)); discriminate.
  - discriminate.
Qed.

Lemma serve_cons (req : WebTool.request) (reqs : list WebTool.request)
    (st : WebTool.session) :
  fst (WebTool.serve cfg (req :: reqs) st)
  = fst (WebTool.serve cfg reqs (fst (WebTool.handle cfg req st))).
Proof.
  cbn [WebTool.serve].
  destruct (WebTool.handle cfg req st) as [st1 resp]. cbn [fst].
  destruct (WebTool.serve cfg reqs st1) as [st2 resps]. reflexivity.
Qed.

(** A session is logged in after a sequence of requests only if it was
    before and no request logged out, or one request was a good login and
    none after it logged out. *)
Lemma serve_logged_in (reqs : list WebTool.request) (st : WebTool.session) :
  WebTool.admin_enabled cfg = true ->
  WebTool.logged_in (fst (WebTool.serve cfg reqs st)) = true ->
  (WebTool.logged_in st = true /\ no_logout reqs = true)
  \/ exists (b1 : list WebTool.request) (login : WebTool.request)
            (b2 : list WebTool.request),
       reqs = b1 ++ login :: b2
       /\ good_login cfg login = true
       /\ no_logout b2 = true.
Proof.
  intros Hen. revert st.
  induction reqs as [|req reqs IH]; intros st.
  - simpl. auto.
  - rewrite serve_cons. intros H. apply IH in H.
    destruct H as [[Hst Hno] | (b1 & login & b2 & Heq & Hgood & Hno)].
    + rewrite handle_session, Hen in Hst. cbn [andb] in Hst.
      destruct (is_logout req) eqn:El; [discriminate|].
      destruct (good_login cfg req) eqn:Eg.
      * right. exists [], req, reqs. auto.
      * left. split; [exact Hst|]. cbn [forallb]. rewrite El, Hno.
        reflexivity.
    + right. exists (req :: b1), login, b2. rewrite Heq. auto.
Qed.

(** X17: with the admin login configured, in a session that starts logged
    out, a request is answered with a protected page (the admin page, the
    settings page or a file) only if an earlier request of the session was
    a POST to [/login] carrying exactly [ADMIN_USERNAME] and
    [ADMIN_PASSWORD], with no logout between that login and the request. *)
Theorem protected_page_needs_a_good_login (before : list WebTool.request)
    (req : WebTool.request) (st : WebTool.session) :
  WebTool.admin_enabled cfg = true ->
  WebTool.logged_in st = false ->
  is_protected_page
    (snd (WebTool.handle cfg req (fst (WebTool.serve cfg before st)))) = true ->
  exists (b1 : list WebTool.request) (login : WebTool.request)
         (b2 : list WebTool.request),
    before = b1 ++ login :: b2
    /\ good_login cfg login = true
    /\ no_logout b2 = true.
Proof.
  intros Hen Hst Hpage.
  apply handle_protected_page in Hpage; [|exact Hen].
  destruct (serve_logged_in _ _ Hen Hpage) as [[Hin _] | H];
    [congruence | exact H].
Qed.

Lemma serve_no_logout_keeps_login (reqs : list WebTool.request)
    (st : WebTool.session) :
  WebTool.logged_in st = true ->
  no_logout reqs = true ->
  WebTool.logged_in (fst (WebTool.serve cfg reqs st)) = true.
Proof.
  revert st. induction reqs as [|req reqs IH]; intros st Hst Hno;
    [exact Hst|].
  cbn [forallb] in Hno. apply andb_true_iff in Hno.
  destruct Hno as [Hreq Hno]. apply negb_true_iff in Hreq.
  rewrite serve_cons. apply IH; [|exact Hno].
  rewrite handle_session, Hreq, Hst.
  destruct (WebTool.admin_enabled cfg && good_login cfg req); reflexivity.
Qed.

Lemma serve_app (a b : list WebTool.request) (st : WebTool.session) :
  fst (WebTool.serve cfg (a ++ b) st)
  = fst (WebTool.serve cfg b (fst (WebTool.serve cfg a st))).
Proof.
  revert st. induction a as [|req a IH]; intros st; [reflexivity|].
  cbn [app]. rewrite !serve_cons. apply IH.
Qed.

(** X18: with the admin login configured, after a POST to [/login] with
    exactly the configured credentials, and as long as no request logs
    out, the admin page and the settings page are served, whatever
    happened in the session before the login. *)
Theorem good_login_opens_protected_pages (b1 b2 : list WebTool.request)
    (login : WebTool.request) (st : WebTool.session) :
  WebTool.admin_enabled cfg = true ->
  good_login cfg login = true ->
  no_logout b2 = true ->
  let st' := fst (WebTool.serve cfg (b1 ++ login :: b2) st) in
  snd (WebTool.handle cfg WebTool.GetAdmin st') = WebTool.AdminPage
  /\ snd (WebTool.handle cfg WebTool.GetSettings st') = WebTool.SettingsPage.
Proof.
  intros Hen Hgood Hno st'.
  assert (Hin : WebTool.logged_in st' = true).
  { unfold st'. rewrite serve_app, serve_cons.
    apply serve_no_logout_keeps_login; [|exact Hno].
    rewrite handle_session, Hen, Hgood.
    destruct login; try discriminate Hgood. reflexivity. }
  cbn [WebTool.handle]. unfold WebTool.require_login.
  rewrite Hin, andb_false_r. split; reflexivity.
Qed.

(** X19: when [ADMIN_USERNAME] or [ADMIN_PASSWORD] is unset or the empty
    string, nothing is protected. The admin page and the settings page are
    served to every session, and a request for a file is answered by
    [files] itself, never by the redirect to the login: for the kinds
    [uploads] and [outputs] with the file as an attachment when
    [send_from_directory] finds it and with 404 when it does not, for any
    other kind with the redirect to the admin page. [/login] never shows
    the form and never changes the session's login state, it redirects to
    the admin page. *)
Theorem unconfigured_login_protects_nothing (st : WebTool.session) :
  WebTool.admin_enabled cfg = false ->
  snd (WebTool.handle cfg WebTool.GetAdmin st) = WebTool.AdminPage
  /\ snd (WebTool.handle cfg WebTool.GetSettings st) = WebTool.SettingsPage
  /\ (forall (kind filename : pystr) (found : bool),
        WebTool.handle cfg (WebTool.GetFile kind filename found) st
        = WebTool.files_view kind filename found st)
  /\ (forall (filename : pystr) (found : bool),
        snd (WebTool.handle cfg
               (WebTool.GetFile (lit "uploads") filename found) st)
        = (if found then WebTool.FileDownload true filename
           else WebTool.NotFound)
        /\ snd (WebTool.handle cfg
                  (WebTool.GetFile (lit "outputs") filename found) st)
           = (if found then WebTool.FileDownload false filename
              else WebTool.NotFound))
  /\ (forall (kind filename : pystr) (found : bool),
        str_eqb kind (lit "uploads") = false ->
        str_eqb kind (lit "outputs") = false ->
        WebTool.handle cfg (WebTool.GetFile kind filename found) st
        = (WebTool.flash WebTool.msg_unknown_kind st,
           WebTool.Redirect WebTool.ToAdmin))
  /\ forall (is_post : bool) (next username password : option pystr),
       let served :=
         WebTool.handle cfg
           (WebTool.Login is_post next username password) st in
       snd served = WebTool.Redirect WebTool.ToAdmin
       /\ WebTool.logged_in (fst served) = WebTool.logged_in st.
Proof.
  intros Hoff. cbn [WebTool.handle]. unfold WebTool.require_login.
  rewrite Hoff. cbn [andb].
  split; [reflexivity|]. split; [reflexivity|]. split; [reflexivity|].
  split; [|split].
  - intros filename found. split; reflexivity.
  - intros kind filename found Hu Ho. unfold WebTool.files_view.
    rewrite Hu, Ho. reflexivity.
  - intros is_post next username password. unfold WebTool.login_view.
    rewrite Hoff. split; reflexivity.
Qed.

End AdminLogin.

(** X17 at a session that is refused the admin page, logs in and asks for
    the settings page. *)
Lemma protected_page_needs_a_good_login_witness :
  let cfg :=
    {| WebTool.ADMIN_USERNAME := Some (lit "admin");
       WebTool.ADMIN_PASSWORD := Some (lit "s3cret") |} in
  let st := {| WebTool.logged_in := false; WebTool.flashes := [] |} in
  let before :=
    [WebTool.GetAdmin;
     WebTool.Login true None (Some (lit "admin")) (Some (lit "s3cret"))] in
  WebTool.admin_enabled cfg = true
  /\ snd (WebTool.handle cfg WebTool.GetSettings
            (fst (WebTool.serve cfg before st))) = WebTool.SettingsPage
  /\ exists (b1 : list WebTool.request) (login : WebTool.request)
            (b2 : list WebTool.request),
       before = b1 ++ login :: b2
       /\ good_login cfg login = true
       /\ forallb (fun req => negb (is_logout req)) b2 = true.
Proof.
  intros cfg st before.
  split; [reflexivity|]. split; [reflexivity|].
  exact (@protected_page_needs_a_good_login cfg before WebTool.GetSettings st
           eq_refl eq_refl eq_refl).
Defined.

(** X18 at a session that logs out, logs in and asks for the admin
    page. *)
Lemma good_login_opens_protected_pages_witness :
  let cfg :=
    {| WebTool.ADMIN_USERNAME := Some (lit "admin");
       WebTool.ADMIN_PASSWORD := Some (lit "s3cret") |} in
  let st := {| WebTool.logged_in := false; WebTool.flashes := [] |} in
  let login :=
    WebTool.Login true (Some (lit "/settings")) (Some (lit "admin"))
      (Some (lit "s3cret")) in
  WebTool.admin_enabled cfg = true
  /\ good_login cfg login = true
  /\ snd (WebTool.handle cfg WebTool.GetAdmin
            (fst (WebTool.serve cfg
                    ([WebTool.Logout] ++ login :: [WebTool.GetAdmin]) st)))
     = WebTool.AdminPage.
Proof.
  intros cfg st login.
  split; [reflexivity|]. split; [reflexivity|].
  exact (proj1 (@good_login_opens_protected_pages cfg [WebTool.Logout]
                  [WebTool.GetAdmin] login st eq_refl eq_refl eq_refl)).
Defined.

(** X19 at a configuration whose password is the empty string. *)
Lemma unconfigured_login_witness :
  let cfg :=
    {| WebTool.ADMIN_USERNAME := Some (lit "admin");
       WebTool.ADMIN_PASSWORD := Some [] |} in
  let st := {| WebTool.logged_in := false; WebTool.flashes := [] |} in
  WebTool.admin_enabled cfg = false
  /\ snd (WebTool.handle cfg WebTool.GetAdmin st) = WebTool.AdminPage
  /\ snd (WebTool.handle cfg
            (WebTool.GetFile (lit "outputs") (lit "a_mapped.xlsx") true) st)
     = WebTool.FileDownload false (lit "a_mapped.xlsx")
  /\ snd (WebTool.handle cfg
            (WebTool.GetFile (lit "uploads") (lit "a.xlsx") false) st)
     = WebTool.NotFound.
Proof.
  intros cfg st.
  pose proof (@unconfigured_login_protects_nothing cfg st eq_refl)
    as (Hadmin & _ & _ & Hfiles & _).
  split; [reflexivity|]. split; [exact Hadmin|]. split.
  - exact (proj2 (Hfiles (lit "a_mapped.xlsx") true)).
  - exact (proj1 (Hfiles (lit "a.xlsx") false)).
Defined.

(* ================================================================== *)
(** ** The helpers the two files share *)

Section SharedHelpers.

Variable isdigit : char -> bool.
Variable isspace : char -> bool.
Variable float_str : spec_float -> pystr.
Variable upper : pystr -> pystr.

Lemma col_letter_loop_same (rest letter : pystr) (idx : Z) :
  WebTool.col_letter_loop rest letter idx
  = MapItems.col_letter_loop rest letter idx.
Proof.
  revert idx. induction rest as [|ch rest IH]; intros idx; simpl;
    [reflexivity|].
  destruct (is_capital ch); simpl; [apply IH | reflexivity].
Qed.

Lemma read_rows_same (rows : list (pyval * pyval)) (d0 : dict) :
  WebTool.read_rows isspace float_str rows d0
  = MapItems.read_rows isspace float_str rows d0.
Proof.
  revert d0. induction rows as [|[v_id v_name] rows IH]; intros d0; simpl;
    [reflexivity | apply IH].
Qed.

Lemma digits_comprehension_same (items acc : dict) :
  WebTool.digits_comprehension isdigit items acc
  = MapItems.digits_comprehension isdigit items acc.
Proof.
  revert acc. induction items as [|[k v] items IH]; intros acc; simpl;
    [reflexivity | apply IH].
Qed.

(** X20: the helpers that [webtool/app.py] repeats from [map_items.py]
    compute the same. [col_letter_to_idx] (error included), [to_text] and
    [digits_only] agree on every input. Of [load_mapping], the row loop
    builds the same exact index from the same rows, from any dict to start
    with, the dict comprehension builds the same digits index from the
    same items, and so the two indexes built from the rows of a mapping
    sheet are the same. (How the two functions get the rows out of the
    workbook, and what they raise where they raise, is not compared
    here.) *)
Theorem duplicated_helpers_agree :
  (forall letter : pystr,
     WebTool.col_letter_to_idx isspace upper letter
     = MapItems.col_letter_to_idx isspace upper letter)
  /\ (forall v : pyval,
        WebTool.to_text float_str v = MapItems.to_text float_str v)
  /\ (forall s : pystr,
        WebTool.digits_only isdigit s = MapItems.digits_only isdigit s)
  /\ (forall (rows : list (pyval * pyval)) (id_to_name : dict),
        WebTool.read_rows isspace float_str rows id_to_name
        = MapItems.read_rows isspace float_str rows id_to_name)
  /\ (forall items acc : dict,
        WebTool.digits_comprehension isdigit items acc
        = MapItems.digits_comprehension isdigit items acc)
  /\ (forall rows : list (pyval * pyval),
        WebTool.load_mapping isdigit isspace float_str rows
        = MapItems.load_mapping isdigit isspace float_str rows).
Proof.
  split; [|split; [|split; [|split; [|split]]]].
  - intros letter. unfold WebTool.col_letter_to_idx,
      MapItems.col_letter_to_idx.
    rewrite col_letter_loop_same. reflexivity.
  - intros v. destruct v; reflexivity.
  - intros s. reflexivity.
  - intros rows id_to_name. apply read_rows_same.
  - intros items acc. apply digits_comprehension_same.
  - intros rows. unfold WebTool.load_mapping, MapItems.load_mapping.
    rewrite read_rows_same, digits_comprehension_same. reflexivity.
Qed.

End SharedHelpers.

(* ================================================================== *)
(** ** Column letters on small inputs *)

Example col_of_AA :
  MapItems.col_letter_to_idx unicode_isspace unicode_upper (lit " aa ")
  = inr 26%Z.
Proof. vm_compute. reflexivity. Qed.

Example col_of_empty :
  MapItems.col_letter_to_idx unicode_isspace unicode_upper (lit "  ")
  = inr (-1)%Z.
Proof. vm_compute. reflexivity. Qed.

Example col_of_digit :
  MapItems.col_letter_to_idx unicode_isspace unicode_upper (lit "a1")
  = inl (ValueError (lit "Invalid column letter: A1")).
Proof. vm_compute. reflexivity. Qed.

(** The upper case of the sharp s (U+00DF) is ["SS"], a valid column name. *)
Example col_of_sharp_s :
  MapItems.col_letter_to_idx unicode_isspace unicode_upper [0xDF%N]
  = inr 512%Z.
Proof. vm_compute. reflexivity. Qed.
